(** * Loader and VMX bring-up of the hypervisor: a shallow embedding

    The C sources of the loader ([start_vmm.c], [alloc_mk_stack.c],
    [alloc_mk_huge_pool.c], [free_mk_debug_ring.c], the GDT descriptor
    accessors, [pte_t.h]) and the C++ [vcpu::write_control_state] are
    translated into Rocq functions.  Unsigned 64-bit integers are [Z] with
    the wrap-around written out, pointers are addresses in [Z] with [0] for
    the null pointer, and nullable pointers to a single object are
    [option]s. *)

From Stdlib Require Import ZArith List Bool Lia.
From stdpp Require Import gmap strings.
Import ListNotations.

Local Open Scope Z_scope.

(** ** Machine integers and return codes *)

Definition u64 (x : Z) : Z := x mod 2 ^ 64.
Definition u32 (x : Z) : Z := x mod 2 ^ 32.
Definition u16 (x : Z) : Z := x mod 2 ^ 16.

(** Modelled from the spec: the exit codes of [types.h], which is not among
    the sources: 0 is success, -1 is failure. *)
Definition LOADER_SUCCESS : Z := 0.
Definition LOADER_FAILURE : Z := -1.

(** [sizeof(uint64_t)] *)
Definition sizeof_uint64_t : Z := 8.

(** ** GDT descriptor accessors *)

Module Gdt.

(** [struct global_descriptor_table_register_t]: [base] points to an array
    of 64-bit entries, [limit] is a 16-bit byte limit. *)
Record global_descriptor_table_register_t := {
  base : list Z;
  limit : Z
}.

(** [gdtr->base[idx]] *)
Definition entry (gdtr : global_descriptor_table_register_t) (idx : Z) : Z :=
  nth (Z.to_nat idx) (base gdtr) 0.

Definition BASE_MASK1 : Z := 0x00000000FFFF0000.
Definition BASE_MASK2 : Z := 0x000000FF00000000.
Definition BASE_MASK3 : Z := 0xFF00000000000000.
Definition BASE_MASK4 : Z := 0x00000000FFFFFFFF.
Definition BASE_SHIFT1 : Z := 16.
Definition BASE_SHIFT2 : Z := 16.
Definition BASE_SHIFT3 : Z := 32.
Definition BASE_SHIFT4 : Z := 32.
Definition SYSTEM_BIT : Z := 0x0000100000000000.

Definition ATTRIB_MASK1 : Z := 0x0000FF0000000000.
Definition ATTRIB_MASK2 : Z := 0x00F0000000000000.
Definition ATTRIB_SHIFT1 : Z := 40.
Definition ATTRIB_SHIFT2 : Z := 40.

(** The three pieces of the base held by the first 8 bytes of a descriptor. *)
Definition base_low (w : Z) : Z :=
  Z.lor (Z.lor (Z.shiftr (Z.land w BASE_MASK1) BASE_SHIFT1)
               (Z.shiftr (Z.land w BASE_MASK2) BASE_SHIFT2))
        (Z.shiftr (Z.land w BASE_MASK3) BASE_SHIFT3).

(** [get_gdt_descriptor_base].  The output pointer is [None] when null and
    [Some v] when it points to a cell holding [v]; the result is the return
    code and the cell after the call. *)
Definition get_gdt_descriptor_base
    (gdtr : option global_descriptor_table_register_t)
    (selector : Z) (out : option Z) : Z * option Z :=
  let idx64_0 := u64 (Z.shiftr (u64 selector) 3 + 0) in
  let idx64_1 := u64 (Z.shiftr (u64 selector) 3 + 1) in
  match gdtr with
  | None => (LOADER_FAILURE, out)
  | Some g =>
    let bytes64_0 := u64 (u64 (limit g) + 1) in
    let bytes64_1 := u64 (u64 (u64 (limit g) + 1) - sizeof_uint64_t) in
    match out with
    | None => (LOADER_FAILURE, None)
    | Some _ =>
      if 0 =? idx64_0 then (LOADER_SUCCESS, Some 0)
      else if idx64_0 >=? bytes64_0 / sizeof_uint64_t
      then (LOADER_FAILURE, out)
      else if Z.land (entry g idx64_0) SYSTEM_BIT =? 0 then
        if idx64_1 >=? bytes64_1 / sizeof_uint64_t
        then (LOADER_FAILURE, out)
        else (LOADER_SUCCESS,
              Some (Z.lor (base_low (entry g idx64_0))
                          (u64 (Z.shiftl (Z.land (entry g idx64_1) BASE_MASK4)
                                         BASE_SHIFT4))))
      else (LOADER_SUCCESS, Some (base_low (entry g idx64_0)))
    end
  end.

(** [get_gdt_descriptor_attrib]; the output cell is 16 bits wide. *)
Definition get_gdt_descriptor_attrib
    (gdtr : option global_descriptor_table_register_t)
    (selector : Z) (out : option Z) : Z * option Z :=
  let idx64 := Z.shiftr (u64 selector) 3 in
  match gdtr with
  | None => (LOADER_FAILURE, out)
  | Some g =>
    let bytes64 := u64 (u64 (limit g) + 1) in
    match out with
    | None => (LOADER_FAILURE, None)
    | Some _ =>
      if 0 =? idx64 then (LOADER_SUCCESS, Some 0)
      else if idx64 >=? bytes64 / sizeof_uint64_t
      then (LOADER_FAILURE, out)
      else (LOADER_SUCCESS,
            Some (Z.lor
                    (u16 (Z.shiftr (Z.land (entry g idx64) ATTRIB_MASK1)
                                   ATTRIB_SHIFT1))
                    (u16 (Z.shiftr (Z.land (entry g idx64) ATTRIB_MASK2)
                                   ATTRIB_SHIFT2))))
    end
  end.

(** Modelled from the spec: the standard long-mode 8-byte layout of a
    code/data descriptor with a 32-bit base [b] (no writer of descriptors is
    among the sources): base bits 0..15 at bits 16..31, base bits 16..23 at
    bits 32..39, base bits 24..31 at bits 56..63, System bit set. *)
Definition descriptor_with_base (b : Z) : Z :=
  Z.lor (Z.lor (Z.lor (Z.shiftl (Z.land b 0xFFFF) 16)
                      (Z.shiftl (Z.land (Z.shiftr b 16) 0xFF) 32))
               (Z.shiftl (Z.land (Z.shiftr b 24) 0xFF) 56))
        SYSTEM_BIT.

(** A GDT of 7 entries whose entry 5 is a descriptor with base
    [0xFFFFAB00]. *)
Definition gdt_8byte_example : global_descriptor_table_register_t :=
  {| base := [0; 0; 0; 0; 0; descriptor_with_base 0x00000000FFFFAB00; 0];
     limit := 55 |}.

(** A GDT of 7 entries whose entries 5 and 6 hold one 16-byte descriptor
    (System bit clear), the upper 32 base bits being [0x12345678]. *)
Definition gdt_tss_last : global_descriptor_table_register_t :=
  {| base := [0; 0; 0; 0; 0; 0x0000890000000067; 0x12345678];
     limit := 55 |}.

(** The same two entries followed by one more entry. *)
Definition gdt_tss_inner : global_descriptor_table_register_t :=
  {| base := [0; 0; 0; 0; 0; 0x0000890000000067; 0x12345678; 0];
     limit := 63 |}.

(** A GDT of 6 entries ending with the first half of a 16-byte descriptor. *)
Definition gdt_tss_cut : global_descriptor_table_register_t :=
  {| base := [0; 0; 0; 0; 0; 0x0000890000000067];
     limit := 47 |}.

End Gdt.

(** ** Page table entries *)

Module Pte.

(** [struct pte_t]: the bit-fields in declaration order, each an unsigned
    value of the declared width. *)
Record pte_t := {
  p : Z;
  rw : Z;
  us : Z;
  pwt : Z;
  pcd : Z;
  a : Z;
  d : Z;
  pat : Z;
  g : Z;
  avl : Z;
  phys : Z;
  auto_release : Z;
  mpk : Z;
  nx : Z
}.

(** Widths and values of the bit-fields of an entry, in declaration order. *)
Definition bit_fields (e : pte_t) : list (Z * Z) :=
  [ (1, p e); (1, rw e); (1, us e); (1, pwt e); (1, pcd e); (1, a e);
    (1, d e); (1, pat e); (1, g e); (3, avl e); (40, phys e);
    (7, auto_release e); (4, mpk e); (1, nx e) ].

(** Under [#pragma pack(1)] consecutive bit-fields of one [uint64_t] are
    allocated from the least significant bit upwards, each directly after
    the previous one. *)
Fixpoint pack (fs : list (Z * Z)) : Z :=
  match fs with
  | [] => 0
  | (w, v) :: rest => Z.lor (Z.land v (Z.ones w)) (Z.shiftl (pack rest) w)
  end.

Definition total_bits (fs : list (Z * Z)) : Z :=
  fold_right (fun f acc => fst f + acc) 0 fs.

(** The 64-bit word that holds an entry. *)
Definition pte_word (e : pte_t) : Z := pack (bit_fields e).

(** [sizeof(struct pte_t)]: the packed struct takes the bytes its bits
    need. *)
Definition sizeof_pte_t (e : pte_t) : Z := (total_bits (bit_fields e) + 7) / 8.

(** The [w] bits of a word starting at bit [off]. *)
Definition bits (off w word : Z) : Z := Z.land (Z.shiftr word off) (Z.ones w).

End Pte.

(** ** The platform heap, pools and the debug ring *)

Module Platform.

(** Live allocations: address to size. *)
Abbreviation heap := (gmap Z Z).

(** Where the next allocation of a size goes in a heap; [0] when memory is
    exhausted.  The allocator itself belongs to the operating system. *)
Definition policy := Z -> heap -> Z.

(** Modelled from the spec: [platform_alloc(size)] of [platform.h], which is
    not among the sources: returns a region or the null pointer. *)
Definition platform_alloc (pick : policy) (size : Z) (h : heap) : Z * heap :=
  let ptr := pick size h in
  if ptr =? 0 then (0, h) else (ptr, <[ptr := size]> h).

(** Modelled from the spec: [platform_alloc_contiguous(size)], as
    [platform_alloc]. *)
Definition platform_alloc_contiguous (pick : policy) (size : Z) (h : heap)
  : Z * heap :=
  let ptr := pick size h in
  if ptr =? 0 then (0, h) else (ptr, <[ptr := size]> h).

(** Modelled from the spec: [platform_free(ptr, size)], idempotent on
    null. *)
Definition platform_free (ptr size : Z) (h : heap) : heap :=
  if ptr =? 0 then h else delete ptr h.

(** An allocator that is out of memory. *)
Definition out_of_memory : policy := fun _ _ => 0.

(** An allocator with two pages left: a larger request fails, a smaller one
    is served at 0x7000. *)
Definition two_pages_left : policy :=
  fun size _ => if 0x2000 <? size then 0 else 0x7000.

End Platform.

Module Pool.

Import Platform.

(** [struct span_t] and [struct mutable_span_t] have the same shape. *)
Record span_t := {
  addr : Z;
  size : Z
}.

Definition set_size (v : Z) (s : span_t) : span_t :=
  {| addr := addr s; size := v |}.
Definition set_addr (v : Z) (s : span_t) : span_t :=
  {| addr := v; size := size s |}.

(** [platform_memset(s, 0, sizeof(struct span_t))] *)
Definition platform_memset_0 (s : span_t) : span_t :=
  {| addr := 0; size := 0 |}.

(** The invariant of a span: empty, or a non-null address with a positive
    size. *)
Definition span_ok (s : span_t) : Prop :=
  (addr s = 0 /\ size s = 0) \/ (0 < size s /\ addr s <> 0).

(** Modelled from the spec: [HYPERVISOR_PAGE_SIZE] of [constants.h], which
    is not among the sources: 4096. *)
Definition HYPERVISOR_PAGE_SIZE : Z := 4096.

Section Alloc.

(** The remaining constants of [constants.h] are fixed at build time. *)
Variable HYPERVISOR_MK_STACK_SIZE : Z.
Variable HYPERVISOR_HUGE_POOL_SIZE : Z.
Variable HYPERVISOR_DEBUG_RING_SIZE : Z.

Variable pick : policy.

(** [alloc_mk_stack(size, stack)]: [size] is a [uint32_t] number of pages;
    the result is the return code, the span and the heap after the call. *)
Definition alloc_mk_stack (size_ : Z) (stack : span_t) (h : heap)
  : Z * span_t * heap :=
  let stack :=
    if 0 =? size_ then set_size HYPERVISOR_MK_STACK_SIZE stack
    else set_size (u64 (HYPERVISOR_PAGE_SIZE * u64 size_)) stack in
  let '(ptr, h) := platform_alloc pick (size stack) h in
  let stack := set_addr ptr stack in
  if 0 =? addr stack
  then (LOADER_FAILURE, platform_memset_0 stack, h)
  else (LOADER_SUCCESS, stack, h).

(** [alloc_mk_huge_pool(size, huge_pool)] *)
Definition alloc_mk_huge_pool (size_ : Z) (huge_pool : span_t) (h : heap)
  : Z * span_t * heap :=
  let huge_pool :=
    if 0 =? size_ then set_size HYPERVISOR_HUGE_POOL_SIZE huge_pool
    else set_size (u64 (HYPERVISOR_PAGE_SIZE * u64 size_)) huge_pool in
  let '(ptr, h) := platform_alloc_contiguous pick (size huge_pool) h in
  let huge_pool := set_addr ptr huge_pool in
  if 0 =? addr huge_pool
  then (LOADER_FAILURE, platform_memset_0 huge_pool, h)
  else (LOADER_SUCCESS, huge_pool, h).

(** [free_mk_debug_ring(debug_ring)]: [ring] is the handle [*debug_ring]
    before the call; the result is the handle and the heap after it. *)
Definition free_mk_debug_ring (ring : Z) (h : heap) : Z * heap :=
  let h := platform_free ring HYPERVISOR_DEBUG_RING_SIZE h in
  (0, h).

End Alloc.

End Pool.

(** ** The start state machine *)

Module Start.

Import Pool.

(** Modelled from the spec: [vmm_status.h] is not among the sources; the
    status is one of stopped, running and corrupt. *)
Inductive vmm_status_t :=
| VMM_STATUS_STOPPED
| VMM_STATUS_RUNNING
| VMM_STATUS_CORRUPT.

Definition vmm_status_eqb (x y : vmm_status_t) : bool :=
  match x, y with
  | VMM_STATUS_STOPPED, VMM_STATUS_STOPPED => true
  | VMM_STATUS_RUNNING, VMM_STATUS_RUNNING => true
  | VMM_STATUS_CORRUPT, VMM_STATUS_CORRUPT => true
  | _, _ => false
  end.

(** The functions of other translation units that [start_vmm.c] calls. *)
Module Ext.
Inductive func :=
| alloc_mk_root_page_table
| alloc_and_copy_mk_elf_file_from_user
| alloc_and_copy_ext_elf_files_from_user
| alloc_and_copy_mk_elf_segments
| alloc_mk_page_pool
| alloc_mk_huge_pool
| map_mk_debug_ring
| map_mk_code_aliases
| map_mk_elf_file
| map_ext_elf_files
| map_mk_elf_segments
| map_mk_page_pool
| map_mk_huge_pool
| free_mk_huge_pool
| free_mk_page_pool
| free_mk_elf_segments
| free_ext_elf_files
| free_mk_elf_file
| free_mk_root_page_table.
End Ext.

Inductive per_cpu_fn := start_vmm_per_cpu | stop_vmm_per_cpu.
Inductive direction := PLATFORM_FORWARD | PLATFORM_REVERSE.

(** What the orchestrator does to the rest of the loader, in order. *)
Inductive event :=
| Call (f : Ext.func)
| OnCpu (fn : per_cpu_fn) (cpu : nat).

(** [struct start_vmm_args_t] *)
Record start_vmm_args_t := {
  ver : Z;
  mk_elf_file : span_t;
  ext_elf_files : list span_t;
  page_pool_size : Z
}.

(** The globals the orchestrator reads and writes, the calls it has made
    and the lines it has printed with [BFERROR].  The cursors [epos] and
    [spos] record the writes of [start_vmm.c] alone: what the called
    functions and the started processors do to the debug ring is not
    modelled.  Likewise [errors] holds the [BFERROR] lines of [start_vmm.c]
    alone, not what the called functions print. *)
Record world := {
  g_vmm_status : vmm_status_t;
  epos : Z;
  spos : Z;
  trace : list event;
  errors : list string
}.

(** The rest of the system, as seen from [start_vmm.c]: the number of
    logical processors, what each called function returns, and what
    copying the arguments from a user address gives. *)
Record platform := {
  cpus : nat;
  ext_ret : Ext.func -> Z;
  per_cpu_ret : per_cpu_fn -> nat -> Z;
  platform_copy_from_user : Z -> Z * start_vmm_args_t
}.

(** State passing. *)
Definition M (A : Type) : Type := world -> A * world.

Definition ret {A : Type} (x : A) : M A := fun w => (x, w).

Definition bind {A B : Type} (m : M A) (k : A -> M B) : M B :=
  fun w => k (fst (m w)) (snd (m w)).

Declare Scope loader_scope.
Delimit Scope loader_scope with loader.
Notation "x <- m ;; k" := (bind m (fun x => k))
  (at level 100, m at next level, k at level 200, right associativity)
  : loader_scope.
Notation "m ;; k" := (bind m (fun _ => k))
  (at level 100, k at level 200, right associativity) : loader_scope.
Local Open Scope loader_scope.

Definition get_status : M vmm_status_t := fun w => (g_vmm_status w, w).

Definition set_status (s : vmm_status_t) : M unit := fun w =>
  (tt, {| g_vmm_status := s; epos := epos w; spos := spos w;
          trace := trace w; errors := errors w |}).

Definition set_epos (v : Z) : M unit := fun w =>
  (tt, {| g_vmm_status := g_vmm_status w; epos := v; spos := spos w;
          trace := trace w; errors := errors w |}).

Definition set_spos (v : Z) : M unit := fun w =>
  (tt, {| g_vmm_status := g_vmm_status w; epos := epos w; spos := v;
          trace := trace w; errors := errors w |}).

Definition emit (es : list event) : M unit := fun w =>
  (tt, {| g_vmm_status := g_vmm_status w; epos := epos w; spos := spos w;
          trace := trace w ++ es; errors := errors w |}).

Definition BFERROR (msg : string) : M unit := fun w =>
  (tt, {| g_vmm_status := g_vmm_status w; epos := epos w; spos := spos w;
          trace := trace w; errors := errors w ++ [msg] |}).

(** A C condition: non-zero is true. *)
Definition nonzero (r : Z) : bool := negb (r =? 0).

Section Orchestrator.

Variable P : platform.

(** A call of a function that returns a status. *)
Definition call (f : Ext.func) : M Z :=
  emit [Call f] ;; ret (ext_ret P f).

(** A call of a function that returns nothing. *)
Definition call_void (f : Ext.func) : M unit :=
  emit [Call f].

Definition cpu_order (dir : direction) : list nat :=
  match dir with
  | PLATFORM_FORWARD => seq 0 (cpus P)
  | PLATFORM_REVERSE => rev (seq 0 (cpus P))
  end.

(** Modelled from the spec: [platform_on_each_cpu(fn, dir)] of [platform.h],
    which is not among the sources: runs [fn] on every processor, from the
    first to the last when forward and from the last to the first when
    reverse, and returns non-zero when [fn] returned non-zero on some
    processor. *)
Definition platform_on_each_cpu (fn : per_cpu_fn) (dir : direction) : M Z :=
  emit (map (OnCpu fn) (cpu_order dir)) ;;
  ret (if existsb (fun c => nonzero (per_cpu_ret P fn c)) (cpu_order dir)
       then LOADER_FAILURE else LOADER_SUCCESS).

(** Modelled from the spec: [stop_and_free_the_vmm()], which is not among
    the sources: stops every processor in reverse order; when a processor
    fails to stop the status becomes corrupt, otherwise everything is
    released in reverse order of acquisition and the status becomes
    stopped. *)
Definition stop_and_free_the_vmm : M Z :=
  r <- platform_on_each_cpu stop_vmm_per_cpu PLATFORM_REVERSE ;;
  if nonzero r then
    set_status VMM_STATUS_CORRUPT ;;
    ret LOADER_FAILURE
  else
    call_void Ext.free_mk_huge_pool ;;
    call_void Ext.free_mk_page_pool ;;
    call_void Ext.free_mk_elf_segments ;;
    call_void Ext.free_ext_elf_files ;;
    call_void Ext.free_mk_elf_file ;;
    call_void Ext.free_mk_root_page_table ;;
    set_status VMM_STATUS_STOPPED ;;
    ret LOADER_SUCCESS.

(** The labels at the end of [alloc_and_start_the_vmm], from the last one
    upwards: control falls through from each label into the next. *)
Definition alloc_and_copy_mk_root_page_table_failed : M Z :=
  ret LOADER_FAILURE.

Definition alloc_and_copy_mk_elf_file_from_user_failed : M Z :=
  call_void Ext.free_mk_root_page_table ;;
  alloc_and_copy_mk_root_page_table_failed.

Definition alloc_and_copy_ext_elf_files_from_user_failed : M Z :=
  call_void Ext.free_mk_elf_file ;;
  alloc_and_copy_mk_elf_file_from_user_failed.

Definition alloc_and_copy_mk_elf_segments_failed : M Z :=
  call_void Ext.free_ext_elf_files ;;
  alloc_and_copy_ext_elf_files_from_user_failed.

Definition alloc_mk_page_pool_failed : M Z :=
  call_void Ext.free_mk_elf_segments ;;
  alloc_and_copy_mk_elf_segments_failed.

Definition alloc_mk_huge_pool_failed : M Z :=
  call_void Ext.free_mk_page_pool ;;
  alloc_mk_page_pool_failed.

Definition map_mk_debug_ring_failed : M Z :=
  call_void Ext.free_mk_huge_pool ;;
  alloc_mk_huge_pool_failed.

Definition map_mk_code_aliases_failed : M Z := map_mk_debug_ring_failed.
Definition map_mk_elf_file_failed : M Z := map_mk_code_aliases_failed.
Definition map_ext_elf_files_failed : M Z := map_mk_elf_file_failed.
Definition map_mk_elf_segments_failed : M Z := map_ext_elf_files_failed.
Definition map_mk_page_pool_failed : M Z := map_mk_elf_segments_failed.
Definition map_mk_huge_pool_failed : M Z := map_mk_page_pool_failed.

Definition start_vmm_per_cpu_failed : M Z :=
  r <- platform_on_each_cpu stop_vmm_per_cpu PLATFORM_REVERSE ;;
  (if nonzero r then BFERROR "stop_vmm_per_cpu failed" else ret tt) ;;
  map_mk_huge_pool_failed.

(** [alloc_and_start_the_vmm(args)].  The six [dump_*] calls that
    [DEBUG_LOADER] compiles in between [map_mk_huge_pool] and the fan-out
    only print what has been allocated; they return nothing, release
    nothing and are left out, so [errors] says nothing about their
    output. *)
Definition alloc_and_start_the_vmm (args : start_vmm_args_t) : M Z :=
  s <- get_status ;;
  (if vmm_status_eqb VMM_STATUS_RUNNING s
   then stop_and_free_the_vmm ;; ret tt else ret tt) ;;
  s <- get_status ;;
  if vmm_status_eqb VMM_STATUS_CORRUPT s then
    BFERROR "Unable to start, previous VMM failed to properly stop" ;;
    ret LOADER_FAILURE
  else
  set_epos 0 ;;
  set_spos 0 ;;
  r <- call Ext.alloc_mk_root_page_table ;;
  if nonzero r then
    BFERROR "alloc_and_copy_mk_root_page_table failed" ;;
    alloc_and_copy_mk_root_page_table_failed
  else
  r <- call Ext.alloc_and_copy_mk_elf_file_from_user ;;
  if nonzero r then
    BFERROR "alloc_and_copy_mk_elf_file_from_user failed" ;;
    alloc_and_copy_mk_elf_file_from_user_failed
  else
  r <- call Ext.alloc_and_copy_ext_elf_files_from_user ;;
  if nonzero r then
    BFERROR "alloc_and_copy_ext_elf_files_from_user failed" ;;
    alloc_and_copy_ext_elf_files_from_user_failed
  else
  r <- call Ext.alloc_and_copy_mk_elf_segments ;;
  if nonzero r then
    BFERROR "alloc_and_copy_mk_elf_segments failed" ;;
    alloc_and_copy_mk_elf_segments_failed
  else
  r <- call Ext.alloc_mk_page_pool ;;
  if nonzero r then
    BFERROR "alloc_mk_page_pool failed" ;;
    alloc_mk_page_pool_failed
  else
  r <- call Ext.alloc_mk_huge_pool ;;
  if nonzero r then
    BFERROR "alloc_mk_huge_pool failed" ;;
    alloc_mk_huge_pool_failed
  else
  r <- call Ext.map_mk_debug_ring ;;
  if nonzero r then
    BFERROR "map_mk_debug_ring failed" ;;
    map_mk_debug_ring_failed
  else
  r <- call Ext.map_mk_code_aliases ;;
  if nonzero r then
    BFERROR "map_mk_code_aliases failed" ;;
    map_mk_code_aliases_failed
  else
  r <- call Ext.map_mk_elf_file ;;
  if nonzero r then
    BFERROR "map_mk_elf_file failed" ;;
    map_mk_elf_file_failed
  else
  r <- call Ext.map_ext_elf_files ;;
  if nonzero r then
    BFERROR "map_ext_elf_files failed" ;;
    map_ext_elf_files_failed
  else
  r <- call Ext.map_mk_elf_segments ;;
  if nonzero r then
    BFERROR "map_mk_elf_segments failed" ;;
    map_mk_elf_segments_failed
  else
  r <- call Ext.map_mk_page_pool ;;
  if nonzero r then
    BFERROR "map_mk_page_pool failed" ;;
    map_mk_page_pool_failed
  else
  r <- call Ext.map_mk_huge_pool ;;
  if nonzero r then
    BFERROR "map_mk_huge_pool failed" ;;
    map_mk_huge_pool_failed
  else
  r <- platform_on_each_cpu start_vmm_per_cpu PLATFORM_FORWARD ;;
  if nonzero r then
    BFERROR "start_vmm_per_cpu failed" ;;
    start_vmm_per_cpu_failed
  else
  set_status VMM_STATUS_RUNNING ;;
  ret LOADER_SUCCESS.

(** The constants of [constants.h] that bound the arguments. *)
Variable HYPERVISOR_MAX_ELF_FILE_SIZE : Z.
Variable HYPERVISOR_MAX_EXTENSIONS : Z.

(** [args->ext_elf_files[idx]] *)
Definition ext_elf_file (args : start_vmm_args_t) (idx : Z) : span_t :=
  nth (Z.to_nat idx) (ext_elf_files args) {| addr := 0; size := 0 |}.

(** The loop of [verify_start_vmm_args], with [n] iterations left, the next
    one at [idx]. *)
Fixpoint verify_ext_elf_files (args : start_vmm_args_t) (n : nat) (idx : Z)
  : M Z :=
  match n with
  | O => ret LOADER_SUCCESS
  | S n' =>
    if (0 =? addr (ext_elf_file args idx))
       && negb (0 =? size (ext_elf_file args idx)) then
      BFERROR "invalid extension address/size combination" ;;
      ret LOADER_FAILURE
    else if (0 =? size (ext_elf_file args idx))
            && negb (0 =? addr (ext_elf_file args idx)) then
      BFERROR "invalid extension address/size combination" ;;
      ret LOADER_FAILURE
    else if HYPERVISOR_MAX_ELF_FILE_SIZE <=? size (ext_elf_file args idx) then
      BFERROR "ext_elf_files[%u].size is invalid" ;;
      ret LOADER_FAILURE
    else verify_ext_elf_files args n' (u64 (idx + 1))
  end.

(** [verify_start_vmm_args(args)] *)
Definition verify_start_vmm_args (args : start_vmm_args_t) : M Z :=
  if negb (1 =? ver args) then
    BFERROR "IOCTL ABI version not supported" ;;
    ret LOADER_FAILURE
  else if 0 =? addr (mk_elf_file args) then
    BFERROR "the microkernel is required" ;;
    ret LOADER_FAILURE
  else if 0 =? size (mk_elf_file args) then
    BFERROR "mk_elf_file.size is invalid" ;;
    ret LOADER_FAILURE
  else if HYPERVISOR_MAX_ELF_FILE_SIZE <=? size (mk_elf_file args) then
    BFERROR "mk_elf_file.size is invalid" ;;
    ret LOADER_FAILURE
  else if 0 =? addr (ext_elf_file args 0) then
    BFERROR "at least one extension is required" ;;
    ret LOADER_FAILURE
  else
    verify_ext_elf_files args (Z.to_nat HYPERVISOR_MAX_EXTENSIONS) 0.

(** [start_vmm(ioctl_args)]; [ioctl_args] is a user address. *)
Definition start_vmm (ioctl_args : Z) : M Z :=
  if 0 =? ioctl_args then
    BFERROR "ioctl_args was ((void *)0)" ;;
    ret LOADER_FAILURE
  else
  let '(r, args) := platform_copy_from_user P ioctl_args in
  if nonzero r then
    BFERROR "platform_copy_from_user failed" ;;
    ret LOADER_FAILURE
  else
  r <- verify_start_vmm_args args ;;
  if nonzero r then
    BFERROR "verify_start_vmm_args failed" ;;
    ret LOADER_FAILURE
  else
  r <- alloc_and_start_the_vmm args ;;
  if nonzero r then
    BFERROR "alloc_and_start_the_vmm failed" ;;
    ret LOADER_FAILURE
  else
  ret LOADER_SUCCESS.

End Orchestrator.

(** *** The acquisition sequence, for stating what a rollback releases *)

(** A step of the ordered acquisition: a call of an allocating or mapping
    function, or the forward fan-out of [start_vmm_per_cpu]. *)
Inductive step :=
| Acquire (f : Ext.func)
| FanOut.

Definition acquisition_sequence : list step :=
  [ Acquire Ext.alloc_mk_root_page_table;
    Acquire Ext.alloc_and_copy_mk_elf_file_from_user;
    Acquire Ext.alloc_and_copy_ext_elf_files_from_user;
    Acquire Ext.alloc_and_copy_mk_elf_segments;
    Acquire Ext.alloc_mk_page_pool;
    Acquire Ext.alloc_mk_huge_pool;
    Acquire Ext.map_mk_debug_ring;
    Acquire Ext.map_mk_code_aliases;
    Acquire Ext.map_mk_elf_file;
    Acquire Ext.map_ext_elf_files;
    Acquire Ext.map_mk_elf_segments;
    Acquire Ext.map_mk_page_pool;
    Acquire Ext.map_mk_huge_pool;
    FanOut ].

(** Whether a step fails on a platform. *)
Definition step_fails (P : platform) (s : step) : bool :=
  match s with
  | Acquire f => nonzero (ext_ret P f)
  | FanOut =>
    existsb (fun c => nonzero (per_cpu_ret P start_vmm_per_cpu c))
            (seq 0 (cpus P))
  end.

(** The calls a step makes when it is attempted. *)
Definition attempt (P : platform) (s : step) : list event :=
  match s with
  | Acquire f => [Call f]
  | FanOut => map (OnCpu start_vmm_per_cpu) (seq 0 (cpus P))
  end.

(** The release that matches a step.  The mappings live in the root page
    table and are released with it. *)
Definition matching_release (P : platform) (s : step) : list event :=
  match s with
  | Acquire Ext.alloc_mk_root_page_table => [Call Ext.free_mk_root_page_table]
  | Acquire Ext.alloc_and_copy_mk_elf_file_from_user =>
    [Call Ext.free_mk_elf_file]
  | Acquire Ext.alloc_and_copy_ext_elf_files_from_user =>
    [Call Ext.free_ext_elf_files]
  | Acquire Ext.alloc_and_copy_mk_elf_segments =>
    [Call Ext.free_mk_elf_segments]
  | Acquire Ext.alloc_mk_page_pool => [Call Ext.free_mk_page_pool]
  | Acquire Ext.alloc_mk_huge_pool => [Call Ext.free_mk_huge_pool]
  | Acquire _ => []
  | FanOut => map (OnCpu stop_vmm_per_cpu) (rev (seq 0 (cpus P)))
  end.

(** What is released when step number [k], which is [s], fails: for the
    fan-out the processors are stopped in reverse order; then the matching
    releases of the [k] completed steps, the last one first. *)
Definition rollback (P : platform) (k : nat) (s : step) : list event :=
  (match s with FanOut => matching_release P FanOut | Acquire _ => [] end)
  ++ flat_map (matching_release P) (rev (firstn k acquisition_sequence)).

(** Whether the reverse fan-out of [stop_vmm_per_cpu] fails. *)
Definition stop_fails (P : platform) : bool :=
  existsb (fun c => nonzero (per_cpu_ret P stop_vmm_per_cpu c))
          (rev (seq 0 (cpus P))).

(** Two worlds that differ at most in the lines printed. *)
Definition same_but_errors (w w' : world) : Prop :=
  g_vmm_status w' = g_vmm_status w
  /\ epos w' = epos w
  /\ spos w' = spos w
  /\ trace w' = trace w.

(** The world in which the acquisition starts: a running VMM is stopped
    first. *)
Definition entry_world (P : platform) (w : world) : world :=
  if vmm_status_eqb VMM_STATUS_RUNNING (g_vmm_status w)
  then snd (stop_and_free_the_vmm P w) else w.

(** *** Scenarios *)

#[export] Instance func_eq_dec : EqDecision Ext.func.
Proof. solve_decision. Defined.

Definition stopped_world : world :=
  {| g_vmm_status := VMM_STATUS_STOPPED; epos := 5; spos := 3;
     trace := []; errors := [] |}.

Definition running_world : world :=
  {| g_vmm_status := VMM_STATUS_RUNNING; epos := 5; spos := 3;
     trace := []; errors := [] |}.

Definition corrupt_world : world :=
  {| g_vmm_status := VMM_STATUS_CORRUPT; epos := 5; spos := 3;
     trace := []; errors := [] |}.

(** A 256 KiB microkernel and one 64 KiB extension. *)
Definition happy_args : start_vmm_args_t :=
  {| ver := 1;
     mk_elf_file := {| addr := 0x10000; size := 0x40000 |};
     ext_elf_files := [ {| addr := 0x80000; size := 0x10000 |} ];
     page_pool_size := 0 |}.

Definition version_2_args : start_vmm_args_t :=
  {| ver := 2;
     mk_elf_file := {| addr := 0x10000; size := 0x40000 |};
     ext_elf_files := [ {| addr := 0x80000; size := 0x10000 |} ];
     page_pool_size := 0 |}.

(** Four processors, everything succeeds. *)
Definition cooperative (args : start_vmm_args_t) : platform :=
  {| cpus := 4;
     ext_ret := fun _ => 0;
     per_cpu_ret := fun _ _ => 0;
     platform_copy_from_user := fun _ => (0, args) |}.

(** Everything succeeds but one function. *)
Definition failing_at (f : Ext.func) : platform :=
  {| cpus := 4;
     ext_ret := fun g => if decide (g = f) then LOADER_FAILURE else 0;
     per_cpu_ret := fun _ _ => 0;
     platform_copy_from_user := fun _ => (0, happy_args) |}.

(** Four processors; [start_vmm_per_cpu] fails on processor 2, and
    [stop_vmm_per_cpu] fails on processor 1 when [stop_fails]. *)
Definition cpu_2_fails (stop_fails : bool) : platform :=
  {| cpus := 4;
     ext_ret := fun _ => 0;
     per_cpu_ret := fun fn c =>
       match fn with
       | start_vmm_per_cpu => if Nat.eqb c 2 then LOADER_FAILURE else 0
       | stop_vmm_per_cpu =>
         if stop_fails && Nat.eqb c 1 then LOADER_FAILURE else 0
       end;
     platform_copy_from_user := fun _ => (0, happy_args) |}.

End Start.

(** ** VMCS control fields *)

Module Vcpu.

(** The control fields of the current VMCS that [write_control_state]
    touches. *)
Record vmcs := {
  pin_based_vm_execution_controls : Z;
  primary_processor_based_vm_execution_controls : Z;
  secondary_processor_based_vm_execution_controls : Z;
  vm_exit_controls : Z;
  vm_entry_controls : Z;
  address_of_msr_bitmap : Z;
  address_of_io_bitmap_a : Z;
  address_of_io_bitmap_b : Z
}.

(** The capability MSRs of the processor. *)
Record msrs := {
  ia32_vmx_true_pinbased_ctls : Z;
  ia32_vmx_true_procbased_ctls : Z;
  ia32_vmx_procbased_ctls2 : Z;
  ia32_vmx_true_exit_ctls : Z;
  ia32_vmx_true_entry_ctls : Z
}.

(** The masks of the control bits, which the intrinsics headers define;
    those headers are not among the sources. *)
Record control_masks := {
  use_msr_bitmap : Z;
  use_io_bitmaps : Z;
  activate_secondary_controls : Z;
  enable_rdtscp : Z;
  enable_invpcid : Z;
  enable_xsaves_xrstors : Z;
  exit_save_debug_controls : Z;
  exit_host_address_space_size : Z;
  exit_load_ia32_perf_global_ctrl : Z;
  exit_save_ia32_pat : Z;
  exit_load_ia32_pat : Z;
  exit_save_ia32_efer : Z;
  exit_load_ia32_efer : Z;
  entry_load_debug_controls : Z;
  entry_ia_32e_mode_guest : Z;
  entry_load_ia32_perf_global_ctrl : Z;
  entry_load_ia32_pat : Z;
  entry_load_ia32_efer : Z
}.

(** The bit positions of the Intel manual. *)
Definition intel_masks : control_masks :=
  {| use_msr_bitmap := Z.shiftl 1 28;
     use_io_bitmaps := Z.shiftl 1 25;
     activate_secondary_controls := Z.shiftl 1 31;
     enable_rdtscp := Z.shiftl 1 3;
     enable_invpcid := Z.shiftl 1 12;
     enable_xsaves_xrstors := Z.shiftl 1 20;
     exit_save_debug_controls := Z.shiftl 1 2;
     exit_host_address_space_size := Z.shiftl 1 9;
     exit_load_ia32_perf_global_ctrl := Z.shiftl 1 12;
     exit_save_ia32_pat := Z.shiftl 1 18;
     exit_load_ia32_pat := Z.shiftl 1 19;
     exit_save_ia32_efer := Z.shiftl 1 20;
     exit_load_ia32_efer := Z.shiftl 1 21;
     entry_load_debug_controls := Z.shiftl 1 2;
     entry_ia_32e_mode_guest := Z.shiftl 1 9;
     entry_load_ia32_perf_global_ctrl := Z.shiftl 1 13;
     entry_load_ia32_pat := Z.shiftl 1 14;
     entry_load_ia32_efer := Z.shiftl 1 15 |}.

(** What [write_control_state] reads from the vcpu object. *)
Record vcpu := {
  is_host_vcpu : bool;
  m_msr_bitmap : Z;
  m_io_bitmap_a : Z;
  m_io_bitmap_b : Z
}.

(** The fields that hold control bits. *)
Inductive control_field :=
| Pin | Primary | Secondary | Exit | Entry.

Definition get (f : control_field) (s : vmcs) : Z :=
  match f with
  | Pin => pin_based_vm_execution_controls s
  | Primary => primary_processor_based_vm_execution_controls s
  | Secondary => secondary_processor_based_vm_execution_controls s
  | Exit => vm_exit_controls s
  | Entry => vm_entry_controls s
  end.

(** [field::set(v)] *)
Definition set (f : control_field) (v : Z) (s : vmcs) : vmcs :=
  {| pin_based_vm_execution_controls :=
       match f with Pin => v | _ => pin_based_vm_execution_controls s end;
     primary_processor_based_vm_execution_controls :=
       match f with
       | Primary => v
       | _ => primary_processor_based_vm_execution_controls s
       end;
     secondary_processor_based_vm_execution_controls :=
       match f with
       | Secondary => v
       | _ => secondary_processor_based_vm_execution_controls s
       end;
     vm_exit_controls :=
       match f with Exit => v | _ => vm_exit_controls s end;
     vm_entry_controls :=
       match f with Entry => v | _ => vm_entry_controls s end;
     address_of_msr_bitmap := address_of_msr_bitmap s;
     address_of_io_bitmap_a := address_of_io_bitmap_a s;
     address_of_io_bitmap_b := address_of_io_bitmap_b s |}.

(** [address_of_msr_bitmap::set(v)] and its two siblings. *)
Definition set_address_of_msr_bitmap (v : Z) (s : vmcs) : vmcs :=
  {| pin_based_vm_execution_controls := pin_based_vm_execution_controls s;
     primary_processor_based_vm_execution_controls :=
       primary_processor_based_vm_execution_controls s;
     secondary_processor_based_vm_execution_controls :=
       secondary_processor_based_vm_execution_controls s;
     vm_exit_controls := vm_exit_controls s;
     vm_entry_controls := vm_entry_controls s;
     address_of_msr_bitmap := v;
     address_of_io_bitmap_a := address_of_io_bitmap_a s;
     address_of_io_bitmap_b := address_of_io_bitmap_b s |}.

Definition set_address_of_io_bitmap_a (v : Z) (s : vmcs) : vmcs :=
  {| pin_based_vm_execution_controls := pin_based_vm_execution_controls s;
     primary_processor_based_vm_execution_controls :=
       primary_processor_based_vm_execution_controls s;
     secondary_processor_based_vm_execution_controls :=
       secondary_processor_based_vm_execution_controls s;
     vm_exit_controls := vm_exit_controls s;
     vm_entry_controls := vm_entry_controls s;
     address_of_msr_bitmap := address_of_msr_bitmap s;
     address_of_io_bitmap_a := v;
     address_of_io_bitmap_b := address_of_io_bitmap_b s |}.

Definition set_address_of_io_bitmap_b (v : Z) (s : vmcs) : vmcs :=
  {| pin_based_vm_execution_controls := pin_based_vm_execution_controls s;
     primary_processor_based_vm_execution_controls :=
       primary_processor_based_vm_execution_controls s;
     secondary_processor_based_vm_execution_controls :=
       secondary_processor_based_vm_execution_controls s;
     vm_exit_controls := vm_exit_controls s;
     vm_entry_controls := vm_entry_controls s;
     address_of_msr_bitmap := address_of_msr_bitmap s;
     address_of_io_bitmap_a := address_of_io_bitmap_a s;
     address_of_io_bitmap_b := v |}.

(** The capability MSR that governs a field. *)
Definition capability (m : msrs) (f : control_field) : Z :=
  match f with
  | Pin => ia32_vmx_true_pinbased_ctls m
  | Primary => ia32_vmx_true_procbased_ctls m
  | Secondary => ia32_vmx_procbased_ctls2 m
  | Exit => ia32_vmx_true_exit_ctls m
  | Entry => ia32_vmx_true_entry_ctls m
  end.

(** A control may be 1 when its bit is set in the high half of the
    capability MSR. *)
Definition allowed1 (msr mask : Z) : bool :=
  negb (Z.land (Z.shiftr msr 32) mask =? 0).

(** Modelled from the spec: [control::enable()] of the intrinsics headers,
    which are not among the sources: sets the bit of the control. *)
Definition enable (f : control_field) (mask : Z) (s : vmcs) : vmcs :=
  set f (Z.lor (get f s) mask) s.

(** Modelled from the spec: [control::enable_if_allowed()] of the
    intrinsics headers: sets the bit of the control when the capability MSR
    allows it and leaves the field alone otherwise. *)
Definition enable_if_allowed (m : msrs) (f : control_field) (mask : Z)
    (s : vmcs) : vmcs :=
  if allowed1 (capability m f) mask then enable f mask s else s.

(** The statements of a function body, run in order. *)
Definition run (body : list (vmcs -> vmcs)) (s : vmcs) : vmcs :=
  fold_left (fun st stmt => stmt st) body s.

Section WriteControlState.

Variable K : control_masks.
Variable m : msrs.
Variable this : vcpu.

(** [vcpu::write_control_state()]; [m_msr_bitmap] and the two I/O bitmaps
    stand for the physical addresses [g_mm->virtptr_to_physint] gives. *)
Definition write_control_state : vmcs -> vmcs :=
  let ia32_vmx_pinbased_ctls_msr := ia32_vmx_true_pinbased_ctls m in
  let ia32_vmx_procbased_ctls_msr := ia32_vmx_true_procbased_ctls m in
  let ia32_vmx_exit_ctls_msr := ia32_vmx_true_exit_ctls m in
  let ia32_vmx_entry_ctls_msr := ia32_vmx_true_entry_ctls m in
  run
    ([ set Pin
         (Z.land
            (Z.land (Z.shiftr ia32_vmx_pinbased_ctls_msr 0) 0x00000000FFFFFFFF)
            (Z.land (Z.shiftr ia32_vmx_pinbased_ctls_msr 32) 0x00000000FFFFFFFF));
       set Primary
         (Z.land
            (Z.land (Z.shiftr ia32_vmx_procbased_ctls_msr 0) 0x00000000FFFFFFFF)
            (Z.land (Z.shiftr ia32_vmx_procbased_ctls_msr 32) 0x00000000FFFFFFFF));
       set Exit
         (Z.land
            (Z.land (Z.shiftr ia32_vmx_exit_ctls_msr 0) 0x00000000FFFFFFFF)
            (Z.land (Z.shiftr ia32_vmx_exit_ctls_msr 32) 0x00000000FFFFFFFF));
       set Entry
         (Z.land
            (Z.land (Z.shiftr ia32_vmx_entry_ctls_msr 0) 0x00000000FFFFFFFF)
            (Z.land (Z.shiftr ia32_vmx_entry_ctls_msr 32) 0x00000000FFFFFFFF));
       set_address_of_msr_bitmap (m_msr_bitmap this);
       set_address_of_io_bitmap_a (m_io_bitmap_a this);
       set_address_of_io_bitmap_b (m_io_bitmap_b this);
       enable Primary (use_msr_bitmap K);
       enable Primary (use_io_bitmaps K);
       enable_if_allowed m Primary (activate_secondary_controls K) ]
     ++ (if is_host_vcpu this then
           [ enable_if_allowed m Secondary (enable_rdtscp K);
             enable_if_allowed m Secondary (enable_invpcid K);
             enable_if_allowed m Secondary (enable_xsaves_xrstors K) ]
         else [])
     ++ [ enable Exit (exit_save_debug_controls K);
          enable Exit (exit_host_address_space_size K);
          enable_if_allowed m Exit (exit_load_ia32_perf_global_ctrl K);
          enable Exit (exit_save_ia32_pat K);
          enable Exit (exit_load_ia32_pat K);
          enable Exit (exit_save_ia32_efer K);
          enable Exit (exit_load_ia32_efer K);
          enable Entry (entry_load_debug_controls K);
          enable Entry (entry_ia_32e_mode_guest K);
          enable_if_allowed m Entry (entry_load_ia32_perf_global_ctrl K);
          enable Entry (entry_load_ia32_pat K);
          enable Entry (entry_load_ia32_efer K) ]).

End WriteControlState.

(** The bits a control contributes when it is enabled only if allowed. *)
Definition if_allowed (msr mask : Z) : Z :=
  if allowed1 msr mask then mask else 0.

(** Capability MSRs as a processor may report them. *)
Definition example_msrs : msrs :=
  {| ia32_vmx_true_pinbased_ctls := 0x0000007F00000016;
     ia32_vmx_true_procbased_ctls := 0xFFF9FFFE04006172;
     ia32_vmx_procbased_ctls2 := 0x00553CFE00000000;
     ia32_vmx_true_exit_ctls := 0x01FFFFFF00036DFB;
     ia32_vmx_true_entry_ctls := 0x0003FFFF000011FB |}.

Definition host_vcpu : vcpu :=
  {| is_host_vcpu := true;
     m_msr_bitmap := 0x1000; m_io_bitmap_a := 0x2000;
     m_io_bitmap_b := 0x3000 |}.

Definition cleared_vmcs : vmcs :=
  {| pin_based_vm_execution_controls := 0;
     primary_processor_based_vm_execution_controls := 0;
     secondary_processor_based_vm_execution_controls := 0;
     vm_exit_controls := 0;
     vm_entry_controls := 0;
     address_of_msr_bitmap := 0;
     address_of_io_bitmap_a := 0;
     address_of_io_bitmap_b := 0 |}.

(** The low and the high 32 bits of a 64-bit MSR. *)
Definition low32 (msr : Z) : Z := msr mod 2 ^ 32.
Definition high32 (msr : Z) : Z := msr / 2 ^ 32.

End Vcpu.

(** ** The lines of the orchestrator *)

Module StartLog.

Import Start.

(** The line [alloc_and_start_the_vmm] prints when a step fails, as in the
    source (the line for the root page table names
    [alloc_and_copy_mk_root_page_table]). *)
Definition failure_message (s : step) : string :=
  match s with
  | Acquire Ext.alloc_mk_root_page_table =>
    "alloc_and_copy_mk_root_page_table failed"
  | Acquire Ext.alloc_and_copy_mk_elf_file_from_user =>
    "alloc_and_copy_mk_elf_file_from_user failed"
  | Acquire Ext.alloc_and_copy_ext_elf_files_from_user =>
    "alloc_and_copy_ext_elf_files_from_user failed"
  | Acquire Ext.alloc_and_copy_mk_elf_segments =>
    "alloc_and_copy_mk_elf_segments failed"
  | Acquire Ext.alloc_mk_page_pool => "alloc_mk_page_pool failed"
  | Acquire Ext.alloc_mk_huge_pool => "alloc_mk_huge_pool failed"
  | Acquire Ext.map_mk_debug_ring => "map_mk_debug_ring failed"
  | Acquire Ext.map_mk_code_aliases => "map_mk_code_aliases failed"
  | Acquire Ext.map_mk_elf_file => "map_mk_elf_file failed"
  | Acquire Ext.map_ext_elf_files => "map_ext_elf_files failed"
  | Acquire Ext.map_mk_elf_segments => "map_mk_elf_segments failed"
  | Acquire Ext.map_mk_page_pool => "map_mk_page_pool failed"
  | Acquire Ext.map_mk_huge_pool => "map_mk_huge_pool failed"
  | Acquire _ => ""
  | FanOut => "start_vmm_per_cpu failed"
  end.

(** The lines printed when step [s] fails: its own line, and for the
    fan-out a second one when stopping the processors fails as well. *)
Definition failure_lines (P : platform) (s : step) : list string :=
  failure_message s
  :: match s with
     | FanOut => if stop_fails P then ["stop_vmm_per_cpu failed"] else []
     | Acquire _ => []
     end.

End StartLog.

(** ** Start requests, one after another *)

Module Requests.

Import Start.

(** The caller of [start_vmm] is not among the sources: this is any
    sequence of calls of it, each with the user pointer it passes and the
    rest of the system as it behaves during that call.  The result is the
    return codes, in order, and the world after the last call. *)
Fixpoint start_each (MAX_SIZE MAX_EXT : Z) (requests : list (platform * Z))
    (w : world) : list Z * world :=
  match requests with
  | [] => ([], w)
  | (P, ioctl_args) :: rest =>
    (fst (start_vmm P MAX_SIZE MAX_EXT ioctl_args w)
     :: fst (start_each MAX_SIZE MAX_EXT rest
               (snd (start_vmm P MAX_SIZE MAX_EXT ioctl_args w))),
     snd (start_each MAX_SIZE MAX_EXT rest
            (snd (start_vmm P MAX_SIZE MAX_EXT ioctl_args w))))
  end.

End Requests.

(** ** Reading a page table entry back *)

Module PteRead.

Import Pte.

(** The entry whose bit-fields are read from a 64-bit word. *)
Definition pte_of_word (w : Z) : pte_t :=
  {| p := bits 0 1 w;
     rw := bits 1 1 w;
     us := bits 2 1 w;
     pwt := bits 3 1 w;
     pcd := bits 4 1 w;
     a := bits 5 1 w;
     d := bits 6 1 w;
     pat := bits 7 1 w;
     g := bits 8 1 w;
     avl := bits 9 3 w;
     phys := bits 12 40 w;
     auto_release := bits 52 7 w;
     mpk := bits 59 4 w;
     nx := bits 63 1 w |}.

(** Every field holds a value of its declared width. *)
Definition fields_fit (e : pte_t) : Prop :=
  Forall (fun f => 0 <= snd f < 2 ^ fst f) (bit_fields e).

End PteRead.

(** ** Allowed and required control bits *)

Module VmxRule.

(** Every bit set in [a] is set in [h]. *)
Definition within (a h : Z) : Prop := Z.land a h = a.

(** A mask of one control bit of a 32-bit field. *)
Definition single_bit (mask : Z) : Prop :=
  exists k, 0 <= k < 32 /\ mask = 2 ^ k.

(** The rule of the capability MSRs: a control field must have every bit of
    the low half of its MSR set and no bit outside the high half. *)
Definition obeys (msr field : Z) : Prop :=
  within (Vcpu.low32 msr) field /\ within field (Vcpu.high32 msr).

End VmxRule.

(** ** Walking the guest's page tables *)

Module Walk.

(** How a call ends: with a value, with a [std::runtime_error], or in
    [std::terminate] when a [gsl::span] is indexed out of its bounds. *)
Inductive outcome (A : Type) : Type :=
| Returns (a : A)
| Throws (what : string)
| Terminates.

Arguments Returns {A} a.
Arguments Throws {A} what.
Arguments Terminates {A}.

Definition and_then {A B : Type} (m : outcome A) (k : A -> outcome B)
  : outcome B :=
  match m with
  | Returns a => k a
  | Throws what => Throws what
  | Terminates => Terminates
  end.

(** The paging helpers of the [::x64] namespace and of [bfn], whose headers
    are not among the sources: they are taken as they are named. *)
Record helpers := {
  pml4_index : Z -> Z;
  pdpt_index : Z -> Z;
  pd_index : Z -> Z;
  pt_index : Z -> Z;
  pml4_present : Z -> bool;
  pdpt_present : Z -> bool;
  pd_present : Z -> bool;
  pt_present : Z -> bool;
  pdpt_ps : Z -> bool;
  pd_ps : Z -> bool;
  pml4_phys_addr : Z -> Z;
  pdpt_phys_addr : Z -> Z;
  pd_phys_addr : Z -> Z;
  pt_phys_addr : Z -> Z;
  pdpt_from : Z;
  pd_from : Z;
  pt_from : Z;
  num_entries : Z;
  lower : Z -> Z -> Z;
  upper : Z -> Z
}.

(** What the walk reads of a vCPU: whether the guest has paging off, its
    CR3, the table that [map_gpa_4k] maps at a guest-physical address (or how
    mapping it fails), and [m_mmap->virt_to_phys] when an EPT map is set. *)
Record guest := {
  paging_is_disabled : bool;
  cr3 : Z;
  map_gpa_4k : Z -> outcome (Z -> Z);
  m_mmap : option (Z -> outcome (Z * Z))
}.

Section Translation.

Variable H : helpers.
Variable g : guest.

(** [vcpu::get_entry(tble_gpa, index)] *)
Definition get_entry (tble_gpa index : Z) : outcome Z :=
  and_then (map_gpa_4k g tble_gpa) (fun tble =>
  if (0 <=? index) && (index <? num_entries H) then Returns (tble index)
  else Terminates).

(** [vcpu::gpa_to_hpa(gpa)] *)
Definition gpa_to_hpa (gpa : Z) : outcome (Z * Z) :=
  match m_mmap g with
  | None => Returns (gpa, 0)
  | Some virt_to_phys => virt_to_phys gpa
  end.

(** [vcpu::gva_to_gpa(gva)] *)
Definition gva_to_gpa (gva : Z) : outcome (Z * Z) :=
  if paging_is_disabled g then Returns (gva, 0)
  else
  and_then (get_entry (upper H (cr3 g)) (pml4_index H gva)) (fun pml4_pte =>
  if negb (pml4_present H pml4_pte) then Throws "pml4_pte is not present"
  else
  and_then (get_entry (pml4_phys_addr H pml4_pte) (pdpt_index H gva))
    (fun pdpt_pte =>
  if negb (pdpt_present H pdpt_pte) then Throws "pdpt_pte is not present"
  else if pdpt_ps H pdpt_pte then
    Returns (Z.lor (pdpt_phys_addr H pdpt_pte) (lower H gva (pdpt_from H)),
             pdpt_from H)
  else
  and_then (get_entry (pdpt_phys_addr H pdpt_pte) (pd_index H gva))
    (fun pd_pte =>
  if negb (pd_present H pd_pte) then Throws "pd_pte is not present"
  else if pd_ps H pd_pte then
    Returns (Z.lor (pd_phys_addr H pd_pte) (lower H gva (pd_from H)),
             pd_from H)
  else
  and_then (get_entry (pd_phys_addr H pd_pte) (pt_index H gva))
    (fun pt_pte =>
  if negb (pt_present H pt_pte) then Throws "pt_pte is not present"
  else
    Returns (Z.lor (pt_phys_addr H pt_pte) (lower H gva (pt_from H)),
             pt_from H))))).

(** [vcpu::gva_to_hpa(gva)] *)
Definition gva_to_hpa (gva : Z) : outcome (Z * Z) :=
  and_then (gva_to_gpa gva) (fun ret =>
  match m_mmap g with
  | None => Returns ret
  | Some _ => gpa_to_hpa (fst ret)
  end).

End Translation.

Section Entries.

Variable H : helpers.
Variable g : guest.

(** The table that [map_gpa_4k] maps at an address, for naming what a walk
    reads: all zero where mapping the table fails. *)
Definition table (tble_gpa : Z) : Z -> Z :=
  match map_gpa_4k g tble_gpa with
  | Returns tble => tble
  | _ => fun _ => 0
  end.

(** The entries [gva_to_gpa] reads on its way down for [gva], under the
    names it gives them: each is read from the table the one before points
    to. *)
Definition pml4_pte (gva : Z) : Z :=
  table (upper H (cr3 g)) (pml4_index H gva).

Definition pdpt_pte (gva : Z) : Z :=
  table (pml4_phys_addr H (pml4_pte gva)) (pdpt_index H gva).

Definition pd_pte (gva : Z) : Z :=
  table (pdpt_phys_addr H (pdpt_pte gva)) (pd_index H gva).

Definition pt_pte (gva : Z) : Z :=
  table (pd_phys_addr H (pd_pte gva)) (pt_index H gva).

End Entries.

(** What the names of the helpers say, for the facts that depend on it:
    [bfn::lower(ptr, from)] keeps the low [from] bits, the shifts are not
    negative, and the address of a page read from an entry that maps it is
    aligned to the size of that page. *)
Record lawful (H : helpers) : Prop := {
  lower_keeps_low_bits : forall x n, lower H x n = Z.land x (Z.ones n);
  pdpt_from_nonneg : 0 <= pdpt_from H;
  pd_from_nonneg : 0 <= pd_from H;
  pt_from_nonneg : 0 <= pt_from H;
  pdpt_page_aligned :
    forall e, pdpt_ps H e = true ->
              pdpt_phys_addr H e mod 2 ^ pdpt_from H = 0;
  pd_page_aligned :
    forall e, pd_ps H e = true -> pd_phys_addr H e mod 2 ^ pd_from H = 0;
  pt_page_aligned : forall e, pt_phys_addr H e mod 2 ^ pt_from H = 0
}.

(** An EPT map translates within pages: the address it returns has the
    offset of the one it is given, in a page of the size it returns. *)
Definition keeps_offsets (virt_to_phys : Z -> outcome (Z * Z)) : Prop :=
  forall gpa hpa from,
    virt_to_phys gpa = Returns (hpa, from) ->
    0 <= from /\ hpa mod 2 ^ from = gpa mod 2 ^ from.

(** Modelled from the spec: the helpers as the architecture has them: 512
    entries a table, nine index bits a level above a 12-bit offset, the
    present bit 0 and the page-size bit 7 of an entry, and the address bits
    of an entry above the offset of the page it maps. *)
Definition x64 : helpers :=
  {| pml4_index := fun v => Z.land (Z.shiftr v 39) 0x1FF;
     pdpt_index := fun v => Z.land (Z.shiftr v 30) 0x1FF;
     pd_index := fun v => Z.land (Z.shiftr v 21) 0x1FF;
     pt_index := fun v => Z.land (Z.shiftr v 12) 0x1FF;
     pml4_present := fun e => Z.testbit e 0;
     pdpt_present := fun e => Z.testbit e 0;
     pd_present := fun e => Z.testbit e 0;
     pt_present := fun e => Z.testbit e 0;
     pdpt_ps := fun e => Z.testbit e 7;
     pd_ps := fun e => Z.testbit e 7;
     pml4_phys_addr := fun e => Z.land e 0x000FFFFFFFFFF000;
     pdpt_phys_addr := fun e =>
       if Z.testbit e 7 then Z.land e 0x000FFFFFC0000000
       else Z.land e 0x000FFFFFFFFFF000;
     pd_phys_addr := fun e =>
       if Z.testbit e 7 then Z.land e 0x000FFFFFFFE00000
       else Z.land e 0x000FFFFFFFFFF000;
     pt_phys_addr := fun e => Z.land e 0x000FFFFFFFFFF000;
     pdpt_from := 30;
     pd_from := 21;
     pt_from := 12;
     num_entries := 512;
     lower := fun x n => Z.land x (Z.ones n);
     upper := fun x => Z.land x (Z.lnot 0xFFF) |}.

(** A guest with one 4K page and one 2M page mapped: the tables at 0x1000,
    0x2000, 0x3000 and 0x4000, the 4K page of 0x201000 at 0x5000 and the 2M
    page of 0x400000 at 0x800000. *)
Definition small_guest : guest :=
  {| paging_is_disabled := false;
     cr3 := 0x1000;
     map_gpa_4k := fun tble_gpa =>
       Returns (fun index =>
         if (tble_gpa =? 0x1000) && (index =? 0) then 0x2003
         else if (tble_gpa =? 0x2000) && (index =? 0) then 0x3003
         else if (tble_gpa =? 0x3000) && (index =? 1) then 0x4003
         else if (tble_gpa =? 0x3000) && (index =? 2) then 0x800083
         else if (tble_gpa =? 0x4000) && (index =? 1) then 0x5003
         else 0);
     m_mmap := None |}.

(** An identity EPT map of 2M pages. *)
Definition identity_2m : Z -> outcome (Z * Z) :=
  fun gpa => Returns (gpa, 21).

Definition small_guest_with_ept : guest :=
  {| paging_is_disabled := false;
     cr3 := cr3 small_guest;
     map_gpa_4k := map_gpa_4k small_guest;
     m_mmap := Some identity_2m |}.

End Walk.

(** ** The host state shared by every vCPU *)

Module Setup.

(** The attributes [setup] maps memory with. *)
Inductive attr_type : Type :=
| read_write
| read_execute.

(** A descriptor of [g_mm->descriptors()]. *)
Record memory_descriptor := {
  phys : Z;
  virt : Z;
  type : Z
}.

(** A call [g_cr3->map_4k(virt, phys, attr)]. *)
Record map_4k_call := {
  map_virt : Z;
  map_phys : Z;
  map_attr : attr_type
}.

(** The masks of the register fields [setup] names; the headers that define
    them are not among the sources. *)
Record masks := {
  ia32_efer_lme : Z;
  ia32_efer_lma : Z;
  ia32_efer_nxe : Z;
  cr0_protection_enable : Z;
  cr0_monitor_coprocessor : Z;
  cr0_extension_type : Z;
  cr0_numeric_error : Z;
  cr0_write_protect : Z;
  cr0_paging : Z;
  cr4_v8086_mode_extensions : Z;
  cr4_protected_mode_virtual_interrupts : Z;
  cr4_time_stamp_disable : Z;
  cr4_debugging_extensions : Z;
  cr4_page_size_extensions : Z;
  cr4_physical_address_extensions : Z;
  cr4_machine_check_enable : Z;
  cr4_page_global_enable : Z;
  cr4_performance_monitor_counter_enable : Z;
  cr4_osfxsr : Z;
  cr4_osxmmexcpt : Z;
  cr4_vmx_enable_bit : Z;
  cr4_osxsave : Z;
  cr4_smep_enable_bit : Z;
  cr4_smap_enable_bit : Z
}.

(** What [cpuid] reports of the features [setup] asks for. *)
Record cpuid := {
  xsave_is_enabled : bool;
  smep_is_enabled : bool;
  smap_is_enabled : bool
}.

(** The file's global state, and the calls made on the root page table
    [g_cr3], the latest last. *)
Record globals := {
  g_cr0_reg : Z;
  g_cr3_reg : Z;
  g_cr4_reg : Z;
  g_ia32_pat_msr : Z;
  g_ia32_efer_msr : Z;
  g_cr3 : list map_4k_call
}.

Section Setup.

Variable m : masks.
Variable cpu : cpuid.

(** [MEMORY_TYPE_R] and [MEMORY_TYPE_E] of the memory manager's header. *)
Variable MEMORY_TYPE_R : Z.
Variable MEMORY_TYPE_E : Z.

(** [g_mm->descriptors()] *)
Variable descriptors : list memory_descriptor.

(** [g_cr3->cr3()] and [g_cr3->pat()], which read the root page table. *)
Variable root_cr3 : list map_4k_call -> Z.
Variable root_pat : list map_4k_call -> Z.

(** The body of the loop over the descriptors. *)
Definition map_descriptor (md : memory_descriptor) : map_4k_call :=
  if type md =? Z.lor MEMORY_TYPE_R MEMORY_TYPE_E then
    {| map_virt := virt md; map_phys := phys md; map_attr := read_execute |}
  else
    {| map_virt := virt md; map_phys := phys md; map_attr := read_write |}.

(** [reg |= mask] for each mask of a list, in order. *)
Definition or_all (reg : Z) (l : list Z) : Z := fold_left Z.lor l reg.

(** [setup()] *)
Definition setup (s : globals) : globals :=
  let root :=
    fold_left (fun calls md => calls ++ [map_descriptor md]) descriptors
              (g_cr3 s) in
  let efer :=
    or_all (g_ia32_efer_msr s)
           [ia32_efer_lme m; ia32_efer_lma m; ia32_efer_nxe m] in
  let cr0 :=
    or_all (g_cr0_reg s)
           [cr0_protection_enable m; cr0_monitor_coprocessor m;
            cr0_extension_type m; cr0_numeric_error m; cr0_write_protect m;
            cr0_paging m] in
  let cr4 :=
    or_all (g_cr4_reg s)
           [cr4_v8086_mode_extensions m;
            cr4_protected_mode_virtual_interrupts m;
            cr4_time_stamp_disable m; cr4_debugging_extensions m;
            cr4_page_size_extensions m; cr4_physical_address_extensions m;
            cr4_machine_check_enable m; cr4_page_global_enable m;
            cr4_performance_monitor_counter_enable m; cr4_osfxsr m;
            cr4_osxmmexcpt m; cr4_vmx_enable_bit m] in
  let cr4 := if xsave_is_enabled cpu then Z.lor cr4 (cr4_osxsave m) else cr4 in
  let cr4 :=
    if smep_is_enabled cpu then Z.lor cr4 (cr4_smep_enable_bit m) else cr4 in
  let cr4 :=
    if smap_is_enabled cpu then Z.lor cr4 (cr4_smap_enable_bit m) else cr4 in
  {| g_cr0_reg := cr0;
     g_cr3_reg := root_cr3 root;
     g_cr4_reg := cr4;
     g_ia32_pat_msr := root_pat root;
     g_ia32_efer_msr := efer;
     g_cr3 := root |}.

(** The masks [setup] sets on this processor, register by register. *)
Definition efer_masks : list Z :=
  [ia32_efer_lme m; ia32_efer_lma m; ia32_efer_nxe m].

Definition cr0_masks : list Z :=
  [cr0_protection_enable m; cr0_monitor_coprocessor m; cr0_extension_type m;
   cr0_numeric_error m; cr0_write_protect m; cr0_paging m].

Definition cr4_masks : list Z :=
  [cr4_v8086_mode_extensions m; cr4_protected_mode_virtual_interrupts m;
   cr4_time_stamp_disable m; cr4_debugging_extensions m;
   cr4_page_size_extensions m; cr4_physical_address_extensions m;
   cr4_machine_check_enable m; cr4_page_global_enable m;
   cr4_performance_monitor_counter_enable m; cr4_osfxsr m; cr4_osxmmexcpt m;
   cr4_vmx_enable_bit m]
  ++ (if xsave_is_enabled cpu then [cr4_osxsave m] else [])
  ++ (if smep_is_enabled cpu then [cr4_smep_enable_bit m] else [])
  ++ (if smap_is_enabled cpu then [cr4_smap_enable_bit m] else []).

End Setup.

End Setup.

(** ** Printing the extensions *)

Module Dump.

Import Pool.

(** A line printed with [BFINFO], with the arguments of its format. *)
Inductive line : Type :=
| ext_elf_file_number (idx : Z)
| ext_elf_file_addr (a : Z)
| ext_elf_file_size (s : Z).

Section Dump.

Variable HYPERVISOR_MAX_EXTENSIONS : Z.

(** [files[idx]] *)
Definition file (files : list span_t) (idx : Z) : span_t :=
  nth (Z.to_nat idx) files {| addr := 0; size := 0 |}.

(** The loop of [dump_ext_elf_files] from [idx] on, which runs while
    [idx < HYPERVISOR_MAX_EXTENSIONS]; [n] bounds the iterations left. *)
Fixpoint dump_from (files : list span_t) (n : nat) (idx : Z) : list line :=
  match n with
  | O => []
  | S n' =>
    if idx <? HYPERVISOR_MAX_EXTENSIONS then
      (if negb (0 =? addr (file files idx)) then
         [ext_elf_file_number (u32 idx);
          ext_elf_file_addr (u64 (addr (file files idx)));
          ext_elf_file_size (size (file files idx))]
       else [])
      ++ dump_from files n' (u64 (idx + 1))
    else []
  end.

(** [dump_ext_elf_files(files)] *)
Definition dump_ext_elf_files (files : list span_t) : list line :=
  dump_from files (Z.to_nat HYPERVISOR_MAX_EXTENSIONS) 0.

(** The three lines of slot [i], if its address is not null. *)
Definition lines_of (files : list span_t) (i : nat) : list line :=
  if negb (0 =? addr (file files (Z.of_nat i))) then
    [ext_elf_file_number (Z.of_nat i);
     ext_elf_file_addr (u64 (addr (file files (Z.of_nat i))));
     ext_elf_file_size (size (file files (Z.of_nat i)))]
  else [].

(** Two extensions, in the first and the third slot. *)
Definition two_files : list span_t :=
  [ {| addr := 0x1000; size := 0x200 |};
    {| addr := 0; size := 0x300 |};
    {| addr := 0x3000; size := 0x400 |} ].

End Dump.

End Dump.

(** * Properties *)

(** ** Machine integers *)

Lemma u64_small (x : Z) : 0 <= x < 2 ^ 64 -> u64 x = x.
Proof. intros H. unfold u64. apply Z.mod_small. exact H. Qed.

Lemma u16_small (x : Z) : 0 <= x < 2 ^ 16 -> u16 x = x.
Proof. intros H. unfold u16. apply Z.mod_small. exact H. Qed.

Lemma shiftr3_bounds (sel : Z) :
  0 <= sel < 65536 -> 0 <= Z.shiftr sel 3 < 8192.
Proof.
  intros H. rewrite Z.shiftr_div_pow2 by lia.
  change (2 ^ 3) with 8. split.
  - apply Z.div_pos; lia.
  - apply Z.div_lt_upper_bound; lia.
Qed.

Lemma land_mask_bounds (x k : Z) :
  0 <= k -> 0 <= Z.land x (Z.ones k) < 2 ^ k.
Proof.
  intros Hk. rewrite Z.land_ones by exact Hk. apply Z.mod_pos_bound.
  apply Z.pow_pos_nonneg; lia.
Qed.

(** ** GDT descriptor accessors *)

Section GdtFacts.

Import Gdt.

Variable g : global_descriptor_table_register_t.
Variable sel : Z.
Hypothesis sel_u16 : 0 <= sel < 65536.
Hypothesis limit_u16 : 0 <= limit g < 65536.

Let i := Z.shiftr sel 3.
Let n := (limit g + 1) / 8.

Lemma entries_bounds : 0 <= n <= 8192.
Proof.
  unfold n. split.
  - apply Z.div_pos; lia.
  - apply Z.div_le_upper_bound; lia.
Qed.

Lemma entries_minus_one :
  1 <= n -> (limit g + 1 - 8) / 8 = n - 1.
Proof.
  intros _. unfold n.
  replace (limit g + 1 - 8) with (limit g + 1 + (-1) * 8) by ring.
  rewrite Z.div_add by lia. ring.
Qed.

(** The accessor of the base, with the 64-bit arithmetic carried out. *)
Lemma get_gdt_descriptor_base_eq (v : Z) :
  get_gdt_descriptor_base (Some g) sel (Some v) =
  if i =? 0 then (LOADER_SUCCESS, Some 0)
  else if n <=? i then (LOADER_FAILURE, Some v)
  else if Z.land (entry g i) SYSTEM_BIT =? 0 then
    if n - 1 <=? i + 1 then (LOADER_FAILURE, Some v)
    else (LOADER_SUCCESS,
          Some (Z.lor (base_low (entry g i))
                      (Z.shiftl (Z.land (entry g (i + 1)) BASE_MASK4) 32)))
  else (LOADER_SUCCESS, Some (base_low (entry g i))).
Proof.
  pose proof (shiftr3_bounds sel sel_u16) as Hi. fold i in Hi.
  pose proof entries_bounds as Hn.
  unfold get_gdt_descriptor_base, sizeof_uint64_t.
  rewrite (u64_small sel) by lia. fold i.
  rewrite (u64_small (i + 0)), (u64_small (i + 1)) by lia.
  rewrite (u64_small (limit g)) by lia.
  rewrite (u64_small (limit g + 1)) by lia.
  fold n. rewrite Z.add_0_r, Z.geb_leb, (Z.eqb_sym 0 i).
  destruct (i =? 0) eqn:Ei; [reflexivity|].
  destruct (n <=? i) eqn:En; [reflexivity|].
  apply Z.eqb_neq in Ei. apply Z.leb_gt in En.
  assert (16 <= limit g + 1) as Hl.
  { unfold n in En. destruct (Z_lt_le_dec (limit g + 1) 16) as [Hlt|]; [|lia].
    exfalso. assert ((limit g + 1) / 8 < 2) by (apply Z.div_lt_upper_bound; lia).
    lia. }
  rewrite (u64_small (limit g + 1 - 8)) by lia.
  rewrite entries_minus_one by lia. rewrite Z.geb_leb.
  destruct (Z.land (entry g i) SYSTEM_BIT =? 0); [|reflexivity].
  destruct (n - 1 <=? i + 1); [reflexivity|].
  rewrite u64_small; [reflexivity|].
  unfold BASE_SHIFT4, BASE_MASK4.
  change 0x00000000FFFFFFFF with (Z.ones 32).
  pose proof (land_mask_bounds (entry g (i + 1)) 32 ltac:(lia)) as Hb.
  rewrite Z.shiftl_mul_pow2 by lia. change (2 ^ 64) with (2 ^ 32 * 2 ^ 32).
  nia.
Qed.

(** The accessor of the attributes, with the 64-bit arithmetic carried
    out. *)
Lemma get_gdt_descriptor_attrib_eq (v : Z) :
  get_gdt_descriptor_attrib (Some g) sel (Some v) =
  if i =? 0 then (LOADER_SUCCESS, Some 0)
  else if n <=? i then (LOADER_FAILURE, Some v)
  else (LOADER_SUCCESS,
        Some (Z.lor
                (u16 (Z.shiftr (Z.land (entry g i) ATTRIB_MASK1) 40))
                (u16 (Z.shiftr (Z.land (entry g i) ATTRIB_MASK2) 40)))).
Proof.
  unfold get_gdt_descriptor_attrib, sizeof_uint64_t.
  rewrite (u64_small sel) by lia. fold i.
  rewrite (u64_small (limit g)) by lia.
  rewrite (u64_small (limit g + 1)) by lia.
  fold n. rewrite Z.geb_leb, (Z.eqb_sym 0 i). reflexivity.
Qed.

End GdtFacts.

(** C5: for a non-null GDT register and output pointer and a selector with
    a non-zero index inside the GDT whose descriptor word [w] has the System
    bit set, [get_gdt_descriptor_base] succeeds and stores
    [((w & 0xFFFF0000) >> 16) | ((w & 0xFF00000000) >> 16) |
     ((w & 0xFF00000000000000) >> 32)]; a standard 8-byte descriptor with
    base [0xFFFFAB00] at selector [0x28] gives [0xFFFFAB00]. *)
Theorem get_gdt_descriptor_base_8_byte
    (g : Gdt.global_descriptor_table_register_t) (sel v w : Z) :
  0 <= sel < 65536 ->
  0 <= Gdt.limit g < 65536 ->
  Z.shiftr sel 3 <> 0 ->
  Z.shiftr sel 3 < (Gdt.limit g + 1) / 8 ->
  w = Gdt.entry g (Z.shiftr sel 3) ->
  Z.land w 0x0000100000000000 <> 0 ->
  Gdt.get_gdt_descriptor_base (Some g) sel (Some v) =
    (LOADER_SUCCESS,
     Some (Z.lor (Z.lor (Z.shiftr (Z.land w 0x00000000FFFF0000) 16)
                        (Z.shiftr (Z.land w 0x000000FF00000000) 16))
                 (Z.shiftr (Z.land w 0xFF00000000000000) 32)))
  /\ Gdt.get_gdt_descriptor_base (Some Gdt.gdt_8byte_example) 0x28 (Some v) =
       (LOADER_SUCCESS, Some 0x00000000FFFFAB00).
Proof.
  intros Hsel Hlim Hnz Hin Hw Hsys. split.
  - rewrite get_gdt_descriptor_base_eq by assumption.
    apply Z.eqb_neq in Hnz. rewrite Hnz.
    apply Z.leb_gt in Hin. rewrite Hin.
    rewrite <- Hw. change Gdt.SYSTEM_BIT with 0x0000100000000000.
    apply Z.eqb_neq in Hsys. rewrite Hsys. reflexivity.
  - vm_compute. reflexivity.
Qed.

Lemma get_gdt_descriptor_base_8_byte_witness :
  Gdt.get_gdt_descriptor_base (Some Gdt.gdt_8byte_example) 0x28 (Some 7) =
    (LOADER_SUCCESS,
     Some (Z.lor
             (Z.lor
                (Z.shiftr (Z.land (Gdt.descriptor_with_base 0xFFFFAB00)
                                  0x00000000FFFF0000) 16)
                (Z.shiftr (Z.land (Gdt.descriptor_with_base 0xFFFFAB00)
                                  0x000000FF00000000) 16))
             (Z.shiftr (Z.land (Gdt.descriptor_with_base 0xFFFFAB00)
                               0xFF00000000000000) 32)))
  /\ Gdt.get_gdt_descriptor_base (Some Gdt.gdt_8byte_example) 0x28 (Some 7) =
       (LOADER_SUCCESS, Some 0x00000000FFFFAB00).
Proof.
  apply (get_gdt_descriptor_base_8_byte Gdt.gdt_8byte_example 0x28 7
           (Gdt.descriptor_with_base 0xFFFFAB00)).
  - lia.
  - simpl. lia.
  - vm_compute. discriminate.
  - vm_compute. reflexivity.
  - reflexivity.
  - vm_compute. discriminate.
Defined.

(** ** Bit-level reasoning *)

Ltac decide_comparisons :=
  repeat match goal with
         | |- context [?x <=? ?y] =>
           first [ rewrite (proj2 (Z.leb_le x y)) by lia
                 | rewrite (proj2 (Z.leb_gt x y)) by lia ]
         | |- context [?x <? ?y] =>
           first [ rewrite (proj2 (Z.ltb_lt x y)) by lia
                 | rewrite (proj2 (Z.ltb_ge x y)) by lia ]
         end.

Ltac bool_tidy :=
  rewrite ?Bool.andb_false_r, ?Bool.andb_true_r, ?Bool.orb_false_r,
          ?Bool.orb_true_r, ?Bool.andb_false_l, ?Bool.orb_false_l;
  cbn [andb orb].

Ltac bitwise :=
  repeat first
    [ rewrite Z.lor_spec | rewrite Z.land_spec
    | rewrite Z.shiftr_spec by lia | rewrite Z.shiftl_spec by lia
    | rewrite Z.testbit_ones by lia ].

Lemma testbit_above (b k w : Z) :
  0 <= b < 2 ^ w -> w <= k -> Z.testbit b k = false.
Proof.
  intros Hb Hk. destruct (Z.eq_dec b 0) as [->|Hne].
  - apply Z.bits_0.
  - apply Z.bits_above_log2; [lia|].
    destruct (Z_lt_le_dec w 0) as [Hw|Hw].
    + rewrite Z.pow_neg_r in Hb by lia. lia.
    + assert (Z.log2 b < w) by (apply Z.log2_lt_pow2; lia). lia.
Qed.

(** The base of a descriptor written in the standard 8-byte layout is read
    back. *)
Lemma base_low_descriptor_with_base (b : Z) :
  0 <= b < 2 ^ 32 -> Gdt.base_low (Gdt.descriptor_with_base b) = b.
Proof.
  intros Hb. apply Z.bits_inj'. intros k Hk.
  unfold Gdt.base_low, Gdt.descriptor_with_base, Gdt.SYSTEM_BIT.
  unfold Gdt.BASE_MASK1, Gdt.BASE_MASK2, Gdt.BASE_MASK3.
  unfold Gdt.BASE_SHIFT1, Gdt.BASE_SHIFT2, Gdt.BASE_SHIFT3.
  change 0x00000000FFFF0000 with (Z.shiftl (Z.ones 16) 16).
  change 0x000000FF00000000 with (Z.shiftl (Z.ones 8) 32).
  change 0xFF00000000000000 with (Z.shiftl (Z.ones 8) 56).
  change 0x0000100000000000 with (Z.shiftl 1 44).
  change 0xFFFF with (Z.ones 16). change 0xFF with (Z.ones 8).
  change 1 with (Z.ones 1).
  bitwise.
  destruct (Z_lt_le_dec k 16); [|destruct (Z_lt_le_dec k 24);
    [|destruct (Z_lt_le_dec k 32)]];
  decide_comparisons; bool_tidy.
  all: rewrite ?Z.shiftr_spec by lia.
  all: try (f_equal; lia).
  symmetry. apply (testbit_above b k 32); lia.
Qed.

(** The low part of a base has no bit above bit 31. *)
Lemma base_low_high_bits (w k : Z) :
  32 <= k -> Z.testbit (Gdt.base_low w) k = false.
Proof.
  intros Hk. unfold Gdt.base_low.
  unfold Gdt.BASE_MASK1, Gdt.BASE_MASK2, Gdt.BASE_MASK3.
  unfold Gdt.BASE_SHIFT1, Gdt.BASE_SHIFT2, Gdt.BASE_SHIFT3.
  change 0x00000000FFFF0000 with (Z.shiftl (Z.ones 16) 16).
  change 0x000000FF00000000 with (Z.shiftl (Z.ones 8) 32).
  change 0xFF00000000000000 with (Z.shiftl (Z.ones 8) 56).
  bitwise. decide_comparisons. bool_tidy. reflexivity.
Qed.

(** A 16-byte descriptor followed by at least one more entry: the accessor
    succeeds, and bits 32..63 of the base are the low 32 bits of the second
    entry. *)
Lemma get_gdt_descriptor_base_16_byte_inner
    (g : Gdt.global_descriptor_table_register_t) (sel v : Z) :
  0 <= sel < 65536 ->
  0 <= Gdt.limit g < 65536 ->
  Z.shiftr sel 3 <> 0 ->
  Z.shiftr sel 3 + 2 < (Gdt.limit g + 1) / 8 ->
  Z.land (Gdt.entry g (Z.shiftr sel 3)) 0x0000100000000000 = 0 ->
  exists b,
    Gdt.get_gdt_descriptor_base (Some g) sel (Some v) = (LOADER_SUCCESS, Some b)
    /\ Z.shiftr b 32 = Z.land (Gdt.entry g (Z.shiftr sel 3 + 1)) 0xFFFFFFFF.
Proof.
  intros Hsel Hlim Hnz Hin Hsys.
  rewrite get_gdt_descriptor_base_eq by assumption.
  apply Z.eqb_neq in Hnz. rewrite Hnz.
  rewrite (proj2 (Z.leb_gt _ _)) by lia.
  change Gdt.SYSTEM_BIT with 0x0000100000000000. rewrite Hsys.
  change (0 =? 0) with true. cbv iota.
  rewrite (proj2 (Z.leb_gt _ _)) by lia.
  eexists. split; [reflexivity|].
  apply Z.bits_inj'. intros k Hk.
  rewrite Z.shiftr_spec, Z.lor_spec, Z.shiftl_spec by lia.
  rewrite base_low_high_bits by lia.
  replace (k + 32 - 32) with k by ring. reflexivity.
Qed.

(** C4: a GDT of exactly 7 entries whose entries 5 and 6 hold a 16-byte
    descriptor (System bit clear, upper base bits [0x12345678] in the low
    dword of entry 6): the descriptor lies entirely within the GDT, yet
    [get_gdt_descriptor_base] returns failure for selector [0x28] and leaves
    the output alone; with one more entry behind it the same descriptor is
    read. *)
Theorem get_gdt_descriptor_base_16_byte_last :
  Z.shiftr 0x28 3 = 5
  /\ 5 + 1 < (Gdt.limit Gdt.gdt_tss_last + 1) / 8
  /\ Z.land (Gdt.entry Gdt.gdt_tss_last 5) Gdt.SYSTEM_BIT = 0
  /\ Z.land (Gdt.entry Gdt.gdt_tss_last 6) 0xFFFFFFFF = 0x12345678
  /\ Gdt.get_gdt_descriptor_base (Some Gdt.gdt_tss_last) 0x28 (Some 0)
     = (LOADER_FAILURE, Some 0)
  /\ Gdt.get_gdt_descriptor_base (Some Gdt.gdt_tss_inner) 0x28 (Some 0)
     = (LOADER_SUCCESS, Some 0x1234567800000000).
Proof. vm_compute. repeat split; reflexivity. Qed.

(** C6, as stated, fails: with non-null pointers and index 5 inside a GDT of
    6 entries, [get_gdt_descriptor_base] still returns failure, because the
    descriptor has the System bit clear and its second half lies outside
    the GDT; and for the null selector the accessors succeed even when the
    GDT has no entry at all, where index 0 is out of range. *)
Lemma gdt_failure_exactly_counterexample :
  (fst (Gdt.get_gdt_descriptor_base (Some Gdt.gdt_tss_cut) 0x28 (Some 0))
     = LOADER_FAILURE
   /\ Z.shiftr 0x28 3 < (Gdt.limit Gdt.gdt_tss_cut + 1) / 8)
  /\ (Gdt.get_gdt_descriptor_attrib
        (Some {| Gdt.base := []; Gdt.limit := 0 |}) 0 (Some 9)
        = (LOADER_SUCCESS, Some 0)
      /\ Z.shiftr 0 3 >= (0 + 1) / 8).
Proof. vm_compute. repeat split; try reflexivity; discriminate. Qed.

(** C6, amended: both accessors return failure when the GDT register
    pointer or the output pointer is null; with both non-null, a selector
    of index 0 gives output 0 and success; [get_gdt_descriptor_attrib]
    fails exactly when the index is non-zero and at least [(limit+1)/8];
    [get_gdt_descriptor_base] fails in that case and also when the
    descriptor has the System bit clear and the next index is at least
    [(limit+1)/8], and succeeds when the System bit is set or when two
    more entries follow the index. *)
Theorem gdt_descriptor_failure_modes
    (g : Gdt.global_descriptor_table_register_t) (sel v : Z) :
  0 <= sel < 65536 ->
  0 <= Gdt.limit g < 65536 ->
  let i := Z.shiftr sel 3 in
  let n := (Gdt.limit g + 1) / 8 in
  let sys := Z.land (Gdt.entry g i) Gdt.SYSTEM_BIT in
  (forall o, fst (Gdt.get_gdt_descriptor_base None sel o) = LOADER_FAILURE
             /\ fst (Gdt.get_gdt_descriptor_attrib None sel o) = LOADER_FAILURE)
  /\ (fst (Gdt.get_gdt_descriptor_base (Some g) sel None) = LOADER_FAILURE
      /\ fst (Gdt.get_gdt_descriptor_attrib (Some g) sel None) = LOADER_FAILURE)
  /\ (i = 0 ->
      Gdt.get_gdt_descriptor_base (Some g) sel (Some v)
        = (LOADER_SUCCESS, Some 0)
      /\ Gdt.get_gdt_descriptor_attrib (Some g) sel (Some v)
        = (LOADER_SUCCESS, Some 0))
  /\ (fst (Gdt.get_gdt_descriptor_attrib (Some g) sel (Some v))
        = LOADER_FAILURE <-> i <> 0 /\ i >= n)
  /\ (fst (Gdt.get_gdt_descriptor_attrib (Some g) sel (Some v))
        <> LOADER_FAILURE ->
      fst (Gdt.get_gdt_descriptor_attrib (Some g) sel (Some v))
        = LOADER_SUCCESS)
  /\ (i <> 0 -> i >= n ->
      fst (Gdt.get_gdt_descriptor_base (Some g) sel (Some v))
        = LOADER_FAILURE)
  /\ (i <> 0 -> sys = 0 -> i + 1 >= n ->
      fst (Gdt.get_gdt_descriptor_base (Some g) sel (Some v))
        = LOADER_FAILURE)
  /\ (i <> 0 -> i < n -> sys <> 0 ->
      fst (Gdt.get_gdt_descriptor_base (Some g) sel (Some v))
        = LOADER_SUCCESS)
  /\ (i <> 0 -> i + 2 < n ->
      fst (Gdt.get_gdt_descriptor_base (Some g) sel (Some v))
        = LOADER_SUCCESS).
Proof.
  intros Hsel Hlim i n sys.
  rewrite (get_gdt_descriptor_base_eq g sel Hsel Hlim v).
  rewrite (get_gdt_descriptor_attrib_eq g sel Hsel Hlim v).
  fold i n sys.
  repeat match goal with |- _ /\ _ => split end.
  - intros o. split; reflexivity.
  - reflexivity.
  - reflexivity.
  - intros Hi. rewrite Hi. split; reflexivity.
  - split.
    + destruct (Z.eqb_spec i 0); [cbn; intros; discriminate|].
      destruct (Z.leb_spec n i); cbn; [intros _; lia | discriminate].
    + intros [Hnz Hge].
      destruct (Z.eqb_spec i 0); [lia|].
      destruct (Z.leb_spec n i); [reflexivity | lia].
  - destruct (i =? 0); [reflexivity|].
    destruct (n <=? i); cbn; [intros H; now elim H | reflexivity].
  - intros Hnz Hge.
    destruct (Z.eqb_spec i 0); [lia|].
    destruct (Z.leb_spec n i); [reflexivity | lia].
  - intros Hnz Hsys Hge.
    destruct (Z.eqb_spec i 0); [lia|].
    destruct (Z.leb_spec n i); [reflexivity|].
    rewrite Hsys. change (0 =? 0) with true. cbv iota.
    destruct (Z.leb_spec (n - 1) (i + 1)); [reflexivity | lia].
  - intros Hnz Hlt Hsys.
    destruct (Z.eqb_spec i 0); [lia|].
    destruct (Z.leb_spec n i); [lia|].
    destruct (Z.eqb_spec sys 0); [contradiction | reflexivity].
  - intros Hnz Hlt.
    destruct (Z.eqb_spec i 0); [lia|].
    destruct (Z.leb_spec n i); [lia|].
    destruct (sys =? 0); [|reflexivity].
    destruct (Z.leb_spec (n - 1) (i + 1)); [lia | reflexivity].
Qed.

Lemma gdt_descriptor_failure_modes_witness :
  0 <= 0x28 < 65536
  /\ 0 <= Gdt.limit Gdt.gdt_tss_cut < 65536
  /\ fst (Gdt.get_gdt_descriptor_base (Some Gdt.gdt_tss_cut) 0x28 (Some 0))
       = LOADER_FAILURE
  /\ fst (Gdt.get_gdt_descriptor_attrib (Some Gdt.gdt_tss_cut) 0x28 (Some 0))
       = LOADER_SUCCESS.
Proof.
  assert (0 <= 0x28 < 65536) as Hsel by lia.
  assert (0 <= Gdt.limit Gdt.gdt_tss_cut < 65536) as Hlim by (simpl; lia).
  pose proof (gdt_descriptor_failure_modes Gdt.gdt_tss_cut 0x28 0 Hsel Hlim)
    as (_ & _ & _ & Hiff & Hattrib & _ & Hcut & _).
  split; [exact Hsel|]. split; [exact Hlim|]. split.
  - apply Hcut; vm_compute; [discriminate | reflexivity | discriminate].
  - apply Hattrib. rewrite Hiff. vm_compute. intros [_ H]. apply H. reflexivity.
Defined.

(** ** Page table entries *)

Lemma bits_pack_head (w v : Z) (rest : list (Z * Z)) :
  0 <= w -> Pte.bits 0 w (Pte.pack ((w, v) :: rest)) = v mod 2 ^ w.
Proof.
  intros Hw. unfold Pte.bits. cbn [Pte.pack].
  rewrite Z.shiftr_0_r, <- (Z.land_ones v w) by lia.
  apply Z.bits_inj'. intros k Hk. bitwise.
  destruct (Z.ltb_spec k w); decide_comparisons; bool_tidy; [|reflexivity].
  rewrite (Z.testbit_neg_r _ (k - w)) by lia. bool_tidy. reflexivity.
Qed.

Lemma bits_pack_tail (w v off w' : Z) (rest : list (Z * Z)) :
  0 <= w -> 0 <= off -> 0 <= w' ->
  Pte.bits (w + off) w' (Pte.pack ((w, v) :: rest))
  = Pte.bits off w' (Pte.pack rest).
Proof.
  intros Hw Hoff Hw'. unfold Pte.bits. cbn [Pte.pack].
  apply Z.bits_inj'. intros k Hk. bitwise. decide_comparisons. bool_tidy.
  replace (k + (w + off) - w) with (k + off) by ring. reflexivity.
Qed.

Lemma total_bits_nonneg (fs : list (Z * Z)) :
  Forall (fun f => 0 <= fst f) fs -> 0 <= Pte.total_bits fs.
Proof.
  induction 1 as [|f fs Hf _ IH]; cbn [Pte.total_bits fold_right].
  - lia.
  - unfold Pte.total_bits in IH. lia.
Qed.

(** A bit-field sits directly after the fields declared before it. *)
Lemma bits_pack_after (before : list (Z * Z)) (w v : Z) (rest : list (Z * Z)) :
  Forall (fun f => 0 <= fst f) before -> 0 <= w ->
  Pte.bits (Pte.total_bits before) w (Pte.pack (before ++ (w, v) :: rest))
  = v mod 2 ^ w.
Proof.
  intros Hbefore Hw. induction Hbefore as [|[w0 v0] fs Hf Hfs IH].
  - apply bits_pack_head. exact Hw.
  - cbn [Pte.total_bits fold_right fst]. cbn [app].
    rewrite bits_pack_tail.
    + exact IH.
    + exact Hf.
    + apply total_bits_nonneg. exact Hfs.
    + exact Hw.
Qed.

Ltac field_after before :=
  match goal with
  | |- Pte.bits _ ?w (Pte.pte_word ?e) = ?v mod _ =>
    refine (bits_pack_after before w v _ _ _);
    [ repeat constructor; cbn [fst]; lia | lia ]
  end.

(** C8: [pte_t] takes exactly 8 bytes, and its fields sit at these bits of
    the 64-bit word: [p] 0, [rw] 1, [us] 2, [pwt] 3, [pcd] 4, [a] 5, [d] 6,
    [pat] 7, [g] 8, [avl] 9..11, [phys] 12..51, [auto_release] 52..58,
    [mpk] 59..62, [nx] 63. *)
Theorem pte_t_layout (e : Pte.pte_t) :
  Pte.sizeof_pte_t e = 8
  /\ Pte.bits 0 1 (Pte.pte_word e) = Pte.p e mod 2 ^ 1
  /\ Pte.bits 1 1 (Pte.pte_word e) = Pte.rw e mod 2 ^ 1
  /\ Pte.bits 2 1 (Pte.pte_word e) = Pte.us e mod 2 ^ 1
  /\ Pte.bits 3 1 (Pte.pte_word e) = Pte.pwt e mod 2 ^ 1
  /\ Pte.bits 4 1 (Pte.pte_word e) = Pte.pcd e mod 2 ^ 1
  /\ Pte.bits 5 1 (Pte.pte_word e) = Pte.a e mod 2 ^ 1
  /\ Pte.bits 6 1 (Pte.pte_word e) = Pte.d e mod 2 ^ 1
  /\ Pte.bits 7 1 (Pte.pte_word e) = Pte.pat e mod 2 ^ 1
  /\ Pte.bits 8 1 (Pte.pte_word e) = Pte.g e mod 2 ^ 1
  /\ Pte.bits 9 3 (Pte.pte_word e) = Pte.avl e mod 2 ^ 3
  /\ Pte.bits 12 40 (Pte.pte_word e) = Pte.phys e mod 2 ^ 40
  /\ Pte.bits 52 7 (Pte.pte_word e) = Pte.auto_release e mod 2 ^ 7
  /\ Pte.bits 59 4 (Pte.pte_word e) = Pte.mpk e mod 2 ^ 4
  /\ Pte.bits 63 1 (Pte.pte_word e) = Pte.nx e mod 2 ^ 1
  /\ Pte.bits 64 64 (Pte.pte_word e) = 0.
Proof.
  destruct e as [p rw us pwt pcd a d pat g avl phys auto_release mpk nx].
  repeat match goal with |- _ /\ _ => split end.
  - reflexivity.
  - field_after (@nil (Z * Z)).
  - field_after [(1, p)].
  - field_after [(1, p); (1, rw)].
  - field_after [(1, p); (1, rw); (1, us)].
  - field_after [(1, p); (1, rw); (1, us); (1, pwt)].
  - field_after [(1, p); (1, rw); (1, us); (1, pwt); (1, pcd)].
  - field_after [(1, p); (1, rw); (1, us); (1, pwt); (1, pcd); (1, a)].
  - field_after [(1, p); (1, rw); (1, us); (1, pwt); (1, pcd); (1, a); (1, d)].
  - field_after [(1, p); (1, rw); (1, us); (1, pwt); (1, pcd); (1, a); (1, d);
                 (1, pat)].
  - field_after [(1, p); (1, rw); (1, us); (1, pwt); (1, pcd); (1, a); (1, d);
                 (1, pat); (1, g)].
  - field_after [(1, p); (1, rw); (1, us); (1, pwt); (1, pcd); (1, a); (1, d);
                 (1, pat); (1, g); (3, avl)].
  - field_after [(1, p); (1, rw); (1, us); (1, pwt); (1, pcd); (1, a); (1, d);
                 (1, pat); (1, g); (3, avl); (40, phys)].
  - field_after [(1, p); (1, rw); (1, us); (1, pwt); (1, pcd); (1, a); (1, d);
                 (1, pat); (1, g); (3, avl); (40, phys); (7, auto_release)].
  - field_after [(1, p); (1, rw); (1, us); (1, pwt); (1, pcd); (1, a); (1, d);
                 (1, pat); (1, g); (3, avl); (40, phys); (7, auto_release);
                 (4, mpk)].
  - unfold Pte.pte_word, Pte.bit_fields.
    change 64 with (1 + (1 + (1 + (1 + (1 + (1 + (1 + (1 + (1 + (3 + (40 +
                    (7 + (4 + (1 + 0)))))))))))))) at 1.
    rewrite !bits_pack_tail by lia. reflexivity.
Qed.

(** ** Pools and the debug ring *)

Lemma pages_to_bytes (n : Z) :
  0 < n < 2 ^ 32 ->
  u64 (Pool.HYPERVISOR_PAGE_SIZE * u64 n) = 4096 * n /\ 0 < 4096 * n.
Proof.
  intros Hn. unfold Pool.HYPERVISOR_PAGE_SIZE.
  rewrite (u64_small n) by lia. rewrite u64_small by lia. lia.
Qed.

(** The size a pool asks the platform for. *)
Lemma requested_size_pos (default n : Z) (s : Pool.span_t) :
  0 < default -> 0 <= n < 2 ^ 32 ->
  0 < Pool.size
        (if 0 =? n then Pool.set_size default s
         else Pool.set_size (u64 (Pool.HYPERVISOR_PAGE_SIZE * u64 n)) s).
Proof.
  intros Hd Hn. destruct (Z.eqb_spec 0 n) as [|Hne]; cbn [Pool.set_size Pool.size].
  - exact Hd.
  - destruct (pages_to_bytes n ltac:(lia)) as [-> Hpos]. exact Hpos.
Qed.

(** C9: when the allocation that [alloc_mk_stack] makes with
    [platform_alloc], or [alloc_mk_huge_pool] with
    [platform_alloc_contiguous], returns null (for the size asked, whatever
    the allocator does for other sizes), the function returns
    [LOADER_FAILURE] and leaves the span with address and size zero (and
    the heap as it was); and on every exit path the function returns
    [LOADER_FAILURE] with the empty span or [LOADER_SUCCESS] with a positive
    size and a non-null address, so the span invariant holds although the
    size is written before the allocation is attempted. *)
Theorem alloc_null_leaves_empty_span
    (HYPERVISOR_MK_STACK_SIZE HYPERVISOR_HUGE_POOL_SIZE : Z)
    (pick : Platform.policy) (n : Z) (s : Pool.span_t) (h : Platform.heap) :
  0 < HYPERVISOR_MK_STACK_SIZE < 2 ^ 64 ->
  0 < HYPERVISOR_HUGE_POOL_SIZE < 2 ^ 64 ->
  0 <= n < 2 ^ 32 ->
  (fst (Platform.platform_alloc pick
          (if 0 =? n then HYPERVISOR_MK_STACK_SIZE
           else u64 (Pool.HYPERVISOR_PAGE_SIZE * u64 n)) h) = 0 ->
   Pool.alloc_mk_stack HYPERVISOR_MK_STACK_SIZE pick n s h
   = (LOADER_FAILURE, {| Pool.addr := 0; Pool.size := 0 |}, h))
  /\ (fst (Platform.platform_alloc_contiguous pick
             (if 0 =? n then HYPERVISOR_HUGE_POOL_SIZE
              else u64 (Pool.HYPERVISOR_PAGE_SIZE * u64 n)) h) = 0 ->
      Pool.alloc_mk_huge_pool HYPERVISOR_HUGE_POOL_SIZE pick n s h
      = (LOADER_FAILURE, {| Pool.addr := 0; Pool.size := 0 |}, h))
  /\ (Pool.span_ok
        (snd (fst (Pool.alloc_mk_stack HYPERVISOR_MK_STACK_SIZE pick n s h)))
      /\ ((fst (fst (Pool.alloc_mk_stack HYPERVISOR_MK_STACK_SIZE pick n s h))
           = LOADER_FAILURE
           /\ snd (fst (Pool.alloc_mk_stack HYPERVISOR_MK_STACK_SIZE pick n
                          s h))
              = {| Pool.addr := 0; Pool.size := 0 |})
          \/ (fst (fst (Pool.alloc_mk_stack HYPERVISOR_MK_STACK_SIZE pick n
                          s h))
              = LOADER_SUCCESS
              /\ 0 < Pool.size
                       (snd (fst (Pool.alloc_mk_stack
                                    HYPERVISOR_MK_STACK_SIZE pick n s h)))
              /\ Pool.addr
                   (snd (fst (Pool.alloc_mk_stack HYPERVISOR_MK_STACK_SIZE
                                pick n s h))) <> 0)))
  /\ (Pool.span_ok
        (snd (fst (Pool.alloc_mk_huge_pool HYPERVISOR_HUGE_POOL_SIZE pick n
                     s h)))
      /\ ((fst (fst (Pool.alloc_mk_huge_pool HYPERVISOR_HUGE_POOL_SIZE pick n
                       s h))
           = LOADER_FAILURE
           /\ snd (fst (Pool.alloc_mk_huge_pool HYPERVISOR_HUGE_POOL_SIZE
                          pick n s h))
              = {| Pool.addr := 0; Pool.size := 0 |})
          \/ (fst (fst (Pool.alloc_mk_huge_pool HYPERVISOR_HUGE_POOL_SIZE
                          pick n s h))
              = LOADER_SUCCESS
              /\ 0 < Pool.size
                       (snd (fst (Pool.alloc_mk_huge_pool
                                    HYPERVISOR_HUGE_POOL_SIZE pick n s h)))
              /\ Pool.addr
                   (snd (fst (Pool.alloc_mk_huge_pool
                                HYPERVISOR_HUGE_POOL_SIZE pick n s h)))
                 <> 0))).
Proof.
  intros Hstack Hhuge Hn.
  pose proof (requested_size_pos HYPERVISOR_MK_STACK_SIZE n s
                ltac:(lia) Hn) as Hs.
  pose proof (requested_size_pos HYPERVISOR_HUGE_POOL_SIZE n s
                ltac:(lia) Hn) as Hp.
  assert (Hsize : forall default,
             Pool.size
               (if 0 =? n then Pool.set_size default s
                else Pool.set_size
                       (u64 (Pool.HYPERVISOR_PAGE_SIZE * u64 n)) s)
             = (if 0 =? n then default
                else u64 (Pool.HYPERVISOR_PAGE_SIZE * u64 n)))
    by (intros default; destruct (0 =? n); reflexivity).
  unfold Pool.alloc_mk_stack, Pool.alloc_mk_huge_pool.
  unfold Platform.platform_alloc, Platform.platform_alloc_contiguous.
  rewrite <- !Hsize.
  repeat match goal with |- _ /\ _ => split end.
  - match goal with
    | |- context [pick ?b h] => set (ptr := pick b h) in *
    end.
    cbv beta zeta. intros Hnull. destruct (Z.eqb_spec ptr 0) as [Hz|Hz].
    + reflexivity.
    + cbn [fst] in Hnull. contradiction.
  - match goal with
    | |- context [pick ?b h] => set (ptr := pick b h) in *
    end.
    cbv beta zeta. intros Hnull. destruct (Z.eqb_spec ptr 0) as [Hz|Hz].
    + reflexivity.
    + cbn [fst] in Hnull. contradiction.
  - match goal with
    | |- context [pick ?b h] => set (ptr := pick b h) in *
    end.
    destruct (Z.eqb_spec ptr 0) as [Hz|Hz].
    + left. split; reflexivity.
    + cbn [Pool.set_addr Pool.addr]. rewrite (proj2 (Z.eqb_neq 0 ptr)) by lia.
      right. cbn [fst snd Pool.addr Pool.size]. split; [exact Hs | exact Hz].
  - match goal with
    | |- context [pick ?b h] => set (ptr := pick b h) in *
    end.
    destruct (Z.eqb_spec ptr 0) as [Hz|Hz].
    + left. split; reflexivity.
    + cbn [Pool.set_addr Pool.addr]. rewrite (proj2 (Z.eqb_neq 0 ptr)) by lia.
      right. cbn [fst snd Pool.addr Pool.size].
      split; [reflexivity|]. split; [exact Hs | exact Hz].
  - match goal with
    | |- context [pick ?b h] => set (ptr := pick b h) in *
    end.
    destruct (Z.eqb_spec ptr 0) as [Hz|Hz].
    + left. split; reflexivity.
    + cbn [Pool.set_addr Pool.addr]. rewrite (proj2 (Z.eqb_neq 0 ptr)) by lia.
      right. cbn [fst snd Pool.addr Pool.size]. split; [exact Hp | exact Hz].
  - match goal with
    | |- context [pick ?b h] => set (ptr := pick b h) in *
    end.
    destruct (Z.eqb_spec ptr 0) as [Hz|Hz].
    + left. split; reflexivity.
    + cbn [Pool.set_addr Pool.addr]. rewrite (proj2 (Z.eqb_neq 0 ptr)) by lia.
      right. cbn [fst snd Pool.addr Pool.size].
      split; [reflexivity|]. split; [exact Hp | exact Hz].
Qed.

Lemma alloc_null_leaves_empty_span_witness :
  fst (Platform.platform_alloc Platform.two_pages_left 0x1000 ∅) = 0x7000
  /\ Pool.alloc_mk_stack 0x10000 Platform.two_pages_left 3
       {| Pool.addr := 0x5000; Pool.size := 16 |} ∅
     = (LOADER_FAILURE, {| Pool.addr := 0; Pool.size := 0 |}, ∅)
  /\ Pool.alloc_mk_huge_pool 0x100000 Platform.two_pages_left 0
       {| Pool.addr := 0x5000; Pool.size := 16 |} ∅
     = (LOADER_FAILURE, {| Pool.addr := 0; Pool.size := 0 |}, ∅).
Proof.
  split; [reflexivity|]. split.
  - apply (alloc_null_leaves_empty_span 0x10000 0x100000
             Platform.two_pages_left 3
             {| Pool.addr := 0x5000; Pool.size := 16 |} ∅); try lia.
    reflexivity.
  - apply (alloc_null_leaves_empty_span 0x10000 0x100000
             Platform.two_pages_left 0
             {| Pool.addr := 0x5000; Pool.size := 16 |} ∅); try lia.
    reflexivity.
Defined.

(** C10: after [free_mk_debug_ring] the handle is null, and a second call
    on the same handle changes neither the handle nor the heap: calling it
    twice is the same as calling it once. *)
Theorem free_mk_debug_ring_idempotent
    (HYPERVISOR_DEBUG_RING_SIZE ring : Z) (h : Platform.heap) :
  fst (Pool.free_mk_debug_ring HYPERVISOR_DEBUG_RING_SIZE ring h) = 0
  /\ Pool.free_mk_debug_ring HYPERVISOR_DEBUG_RING_SIZE
       (fst (Pool.free_mk_debug_ring HYPERVISOR_DEBUG_RING_SIZE ring h))
       (snd (Pool.free_mk_debug_ring HYPERVISOR_DEBUG_RING_SIZE ring h))
     = Pool.free_mk_debug_ring HYPERVISOR_DEBUG_RING_SIZE ring h.
Proof.
  unfold Pool.free_mk_debug_ring. cbn [fst snd]. split; reflexivity.
Qed.

(** The first call does release a live ring. *)
Example free_mk_debug_ring_releases :
  Pool.free_mk_debug_ring 0x1000 0x7000 (<[0x7000 := 0x1000]> ∅)
  = (0, ∅).
Proof.
  unfold Pool.free_mk_debug_ring, Platform.platform_free. cbn [Z.eqb].
  rewrite delete_insert_eq. rewrite delete_empty. reflexivity.
Qed.

(** ** Argument validation *)

Lemma same_but_errors_refl (w : Start.world) : Start.same_but_errors w w.
Proof. repeat split. Qed.

Lemma same_but_errors_trans (w1 w2 w3 : Start.world) :
  Start.same_but_errors w1 w2 -> Start.same_but_errors w2 w3 -> Start.same_but_errors w1 w3.
Proof.
  unfold Start.same_but_errors. intros (A1 & A2 & A3 & A4) (B1 & B2 & B3 & B4).
  repeat split; congruence.
Qed.

Lemma BFERROR_same (msg : string) (w : Start.world) :
  Start.same_but_errors w (snd (Start.BFERROR msg w)).
Proof. repeat split. Qed.

Create HintDb loader.
#[local] Hint Resolve same_but_errors_refl BFERROR_same : loader.

Lemma failure_is_not_success : LOADER_FAILURE <> LOADER_SUCCESS.
Proof. discriminate. Qed.

Ltac same_world := solve [ auto with loader | repeat split ].

Ltac absurd_code :=
  let H := fresh in intros H; exfalso; exact (failure_is_not_success H).

Section VerifyFacts.

Variable MAX_SIZE : Z.
Variable args : Start.start_vmm_args_t.

(** What the loop requires of one extension slot. *)
Let slot_ok (j : Z) : Prop :=
  (Pool.addr (Start.ext_elf_file args j) = 0
   <-> Pool.size (Start.ext_elf_file args j) = 0)
  /\ Pool.size (Start.ext_elf_file args j) < MAX_SIZE.

Lemma verify_ext_elf_files_spec (n : nat) :
  forall (idx : Z) (w : Start.world),
  0 <= idx -> idx + Z.of_nat n < 2 ^ 64 ->
  let r := Start.verify_ext_elf_files MAX_SIZE args n idx w in
  (fst r = LOADER_SUCCESS \/ fst r = LOADER_FAILURE)
  /\ Start.same_but_errors w (snd r)
  /\ (fst r = LOADER_SUCCESS <->
      forall j, idx <= j < idx + Z.of_nat n -> slot_ok j).
Proof.
  induction n as [|n IH]; intros idx w Hidx Hn.
  - cbn. split; [left; reflexivity|]. split; [same_world|].
    split; [intros _ j Hj; lia | reflexivity].
  - cbn [Start.verify_ext_elf_files].
    set (a := Pool.addr (Start.ext_elf_file args idx)).
    set (s := Pool.size (Start.ext_elf_file args idx)).
    assert (slot_ok idx <-> (a = 0 <-> s = 0) /\ s < MAX_SIZE) as Hslot
      by reflexivity.
    clearbody a s.
    destruct (Z.eqb_spec 0 a) as [Ha|Ha], (Z.eqb_spec 0 s) as [Hs|Hs];
      cbn [andb negb].
    3: { cbn. split; [right; reflexivity|]. split; [same_world|].
         split; [absurd_code|]. intros H. specialize (H idx ltac:(lia)).
         apply Hslot in H. lia. }
    2: { cbn. split; [right; reflexivity|]. split; [same_world|].
         split; [absurd_code|]. intros H. specialize (H idx ltac:(lia)).
         apply Hslot in H. lia. }
    all: destruct (Z.leb_spec MAX_SIZE s) as [Hm|Hm].
    1, 3: cbn; (split; [right; reflexivity|]); (split; [same_world|]);
          (split; [absurd_code|]); intros H; specialize (H idx ltac:(lia));
          apply Hslot in H; lia.
    all: rewrite (u64_small (idx + 1)) by lia;
         specialize (IH (idx + 1) w ltac:(lia) ltac:(lia));
         cbv zeta in IH; destruct IH as (IH1 & IH2 & IH3);
         (split; [exact IH1|]); (split; [exact IH2|]);
         rewrite IH3; split.
    1, 3: intros H j Hj; destruct (Z.eq_dec j idx) as [->|Hne];
          [apply Hslot; lia | apply H; lia].
    all: intros H j Hj; apply H; lia.
Qed.

End VerifyFacts.

Lemma verify_start_vmm_args_spec
    (MAX_SIZE MAX_EXT : Z) (args : Start.start_vmm_args_t) (w : Start.world) :
  0 <= MAX_EXT < 2 ^ 64 ->
  0 <= Pool.size (Start.mk_elf_file args) ->
  let r := Start.verify_start_vmm_args MAX_SIZE MAX_EXT args w in
  (fst r = LOADER_SUCCESS \/ fst r = LOADER_FAILURE)
  /\ Start.same_but_errors w (snd r)
  /\ (fst r = LOADER_SUCCESS <->
      Start.ver args = 1
      /\ Pool.addr (Start.mk_elf_file args) <> 0
      /\ 0 < Pool.size (Start.mk_elf_file args) < MAX_SIZE
      /\ Pool.addr (Start.ext_elf_file args 0) <> 0
      /\ forall i, 0 <= i < MAX_EXT ->
           (Pool.addr (Start.ext_elf_file args i) = 0
            <-> Pool.size (Start.ext_elf_file args i) = 0)
           /\ Pool.size (Start.ext_elf_file args i) < MAX_SIZE).
Proof.
  intros Hext Hsize. unfold Start.verify_start_vmm_args.
  destruct (Z.eqb_spec 1 (Start.ver args)) as [Hv|Hv]; cbn [negb].
  2: { cbn. split; [right; reflexivity|]. split; [same_world|].
       split; [absurd_code | intros [H _]; lia]. }
  destruct (Z.eqb_spec 0 (Pool.addr (Start.mk_elf_file args))) as [Ha|Ha].
  { cbn. split; [right; reflexivity|]. split; [same_world|].
    split; [absurd_code | intros (_ & H & _); lia]. }
  destruct (Z.eqb_spec 0 (Pool.size (Start.mk_elf_file args))) as [Hs|Hs].
  { cbn. split; [right; reflexivity|]. split; [same_world|].
    split; [absurd_code | intros (_ & _ & H & _); lia]. }
  destruct (Z.leb_spec MAX_SIZE (Pool.size (Start.mk_elf_file args))) as [Hm|Hm].
  { cbn. split; [right; reflexivity|]. split; [same_world|].
    split; [absurd_code | intros (_ & _ & H & _); lia]. }
  destruct (Z.eqb_spec 0 (Pool.addr (Start.ext_elf_file args 0))) as [He|He].
  { cbn. split; [right; reflexivity|]. split; [same_world|].
    split; [absurd_code | intros (_ & _ & _ & H & _); lia]. }
  pose proof (verify_ext_elf_files_spec MAX_SIZE args (Z.to_nat MAX_EXT) 0 w
                ltac:(lia) ltac:(lia)) as Hloop.
  cbv zeta in Hloop. rewrite Z2Nat.id in Hloop by lia.
  destruct Hloop as (H1 & H2 & H3).
  split; [exact H1|]. split; [exact H2|]. rewrite H3. split.
  - intros H. repeat split; try lia; apply H; lia.
  - intros (_ & _ & _ & _ & H) j Hj. apply H. lia.
Qed.

(** C3: [verify_start_vmm_args] accepts the copied arguments exactly when
    the version is 1, the microkernel ELF has a non-null address and a size
    strictly between 0 and [MAX_ELF_FILE_SIZE], the first extension has a
    non-null address, and every extension slot has a null address exactly
    when its size is 0 and a size below [MAX_ELF_FILE_SIZE]; and when it
    rejects them, [start_vmm] returns failure having called nothing: only
    error lines were printed. *)
Theorem verify_start_vmm_args_accepts_iff
    (P : Start.platform) (MAX_SIZE MAX_EXT : Z)
    (args : Start.start_vmm_args_t) (ioctl_args : Z) (w : Start.world) :
  0 <= MAX_EXT < 2 ^ 64 ->
  0 <= Pool.size (Start.mk_elf_file args) ->
  (fst (Start.verify_start_vmm_args MAX_SIZE MAX_EXT args w) = LOADER_SUCCESS
   <->
   Start.ver args = 1
   /\ Pool.addr (Start.mk_elf_file args) <> 0
   /\ 0 < Pool.size (Start.mk_elf_file args) < MAX_SIZE
   /\ Pool.addr (Start.ext_elf_file args 0) <> 0
   /\ forall i, 0 <= i < MAX_EXT ->
        (Pool.addr (Start.ext_elf_file args i) = 0
         <-> Pool.size (Start.ext_elf_file args i) = 0)
        /\ Pool.size (Start.ext_elf_file args i) < MAX_SIZE)
  /\ (fst (Start.verify_start_vmm_args MAX_SIZE MAX_EXT args w)
        <> LOADER_SUCCESS ->
      ioctl_args <> 0 ->
      Start.platform_copy_from_user P ioctl_args = (0, args) ->
      fst (Start.start_vmm P MAX_SIZE MAX_EXT ioctl_args w) = LOADER_FAILURE
      /\ Start.trace (snd (Start.start_vmm P MAX_SIZE MAX_EXT ioctl_args w))
         = Start.trace w
      /\ Start.same_but_errors w
           (snd (Start.start_vmm P MAX_SIZE MAX_EXT ioctl_args w))).
Proof.
  intros Hext Hsize.
  destruct (verify_start_vmm_args_spec MAX_SIZE MAX_EXT args w Hext Hsize)
    as (Hcode & Hsame & Hiff).
  split; [exact Hiff|].
  intros Hreject Hptr Hcopy.
  destruct Hcode as [Hcode|Hcode]; [contradiction|].
  assert (Start.start_vmm P MAX_SIZE MAX_EXT ioctl_args w
          = (LOADER_FAILURE,
             snd (Start.BFERROR "verify_start_vmm_args failed"
                    (snd (Start.verify_start_vmm_args MAX_SIZE MAX_EXT args w)))))
    as ->.
  { unfold Start.start_vmm.
    rewrite (proj2 (Z.eqb_neq 0 ioctl_args)) by lia.
    rewrite Hcopy. change (Start.nonzero 0) with false. cbv iota.
    unfold Start.bind at 1. rewrite Hcode. reflexivity. }
  destruct Hsame as (S1 & S2 & S3 & S4).
  split; [reflexivity|]. split; [exact S4|]. repeat split; assumption.
Qed.

Lemma verify_start_vmm_args_accepts_iff_witness :
  0 <= 1 < 2 ^ 64
  /\ 0 <= Pool.size (Start.mk_elf_file Start.version_2_args)
  /\ fst (Start.start_vmm (Start.cooperative Start.version_2_args)
            0x800000 1 0x1000 Start.stopped_world) = LOADER_FAILURE
  /\ Start.trace
       (snd (Start.start_vmm (Start.cooperative Start.version_2_args)
               0x800000 1 0x1000 Start.stopped_world)) = [].
Proof.
  assert (0 <= 1 < 2 ^ 64) as H1 by lia.
  assert (0 <= Pool.size (Start.mk_elf_file Start.version_2_args)) as H2
    by (simpl; lia).
  destruct (verify_start_vmm_args_accepts_iff
              (Start.cooperative Start.version_2_args) 0x800000 1
              Start.version_2_args 0x1000 Start.stopped_world H1 H2)
    as [_ Hreject].
  split; [exact H1|]. split; [exact H2|].
  destruct Hreject as (Hf & Ht & _).
  - vm_compute. discriminate.
  - lia.
  - reflexivity.
  - split; [exact Hf | exact Ht].
Defined.

(** ** The start state machine *)

Section OrchestratorFacts.

Import Start.
Local Open Scope loader_scope.

Variable P : platform.

(** One checked call of the acquisition sequence. *)
Lemma checked_call (f : Ext.func) (msg : string) (on_fail on_ok : M Z)
    (w : world) :
  (r <- call P f ;; if nonzero r then BFERROR msg ;; on_fail else on_ok) w
  = if nonzero (ext_ret P f)
    then on_fail (snd (BFERROR msg (snd (emit [Call f] w))))
    else on_ok (snd (emit [Call f] w)).
Proof.
  unfold bind, call. cbn [ret fst snd bind].
  destruct (nonzero (ext_ret P f)); reflexivity.
Qed.

(** The checked forward fan-out. *)
Lemma checked_fan_out (msg : string) (on_fail on_ok : M Z) (w : world) :
  (r <- platform_on_each_cpu P start_vmm_per_cpu PLATFORM_FORWARD ;;
   if nonzero r then BFERROR msg ;; on_fail else on_ok) w
  = if step_fails P FanOut
    then on_fail (snd (BFERROR msg (snd (emit (attempt P FanOut) w))))
    else on_ok (snd (emit (attempt P FanOut) w)).
Proof.
  unfold bind, platform_on_each_cpu.
  cbn [ret fst snd bind cpu_order step_fails attempt].
  destruct (existsb _ _); reflexivity.
Qed.

(** The label [start_vmm_per_cpu_failed]: stop the processors in reverse
    order, print a line when that fails, and fall through. *)
Lemma start_vmm_per_cpu_failed_eq (w : world) :
  start_vmm_per_cpu_failed P w
  = map_mk_huge_pool_failed
      (snd ((if stop_fails P
             then BFERROR "stop_vmm_per_cpu failed" else ret tt)
              (snd (emit (matching_release P FanOut) w)))).
Proof.
  unfold start_vmm_per_cpu_failed, platform_on_each_cpu, bind, stop_fails.
  cbn [ret fst snd cpu_order matching_release].
  destruct (existsb _ _); reflexivity.
Qed.

Ltac enter_stopped Hst :=
  unfold alloc_and_start_the_vmm;
  match goal with
  | |- context [bind get_status (fun s => bind _ (fun _ => bind _ (fun s0 =>
         if _ then _ else bind _ (fun _ => bind _ (fun _ => ?rest)))))] =>
    let k := fresh "k" in
    set (k := rest);
    unfold bind, get_status; cbn [fst snd]; rewrite Hst;
    cbn [vmm_status_eqb ret fst snd]; rewrite Hst; cbn [vmm_status_eqb];
    subst k
  end.

Ltac unwind :=
  cbv [alloc_and_copy_mk_root_page_table_failed
       alloc_and_copy_mk_elf_file_from_user_failed
       alloc_and_copy_ext_elf_files_from_user_failed
       alloc_and_copy_mk_elf_segments_failed
       alloc_mk_page_pool_failed alloc_mk_huge_pool_failed
       map_mk_debug_ring_failed map_mk_code_aliases_failed
       map_mk_elf_file_failed map_ext_elf_files_failed
       map_mk_elf_segments_failed map_mk_page_pool_failed
       map_mk_huge_pool_failed bind ret call_void];
  cbn [emit BFERROR set_epos set_spos set_status fst snd
       g_vmm_status epos spos trace errors].

Ltac steps_before Hbefore :=
  cbn [firstn acquisition_sequence In] in Hbefore;
  repeat match type of Hbefore with
         | forall t, ?a = t \/ _ -> _ =>
           let H := fresh "Hok" in
           let Hrest := fresh "Hrest" in
           pose proof (Hbefore a (or_introl eq_refl)) as H;
           cbn [step_fails] in H;
           assert (forall t, _ -> step_fails P t = false) as Hrest
             by (intros t Ht; apply Hbefore; right; exact Ht);
           clear Hbefore; rename Hrest into Hbefore
         end;
  clear Hbefore.

Ltac run_steps Hfail :=
  repeat first
    [ rewrite checked_call;
      match goal with
      | H : nonzero (ext_ret P ?f) = _
        |- context [nonzero (ext_ret P ?f)] => rewrite H
      end
    | rewrite checked_fan_out, Hfail ].

Ltac same_trace :=
  cbn [firstn flat_map attempt rollback rev acquisition_sequence
       matching_release app];
  rewrite <- ?app_assoc; cbn [app]; rewrite ?app_nil_r; reflexivity.

(** With the VMM stopped, a failure of step [k] after the success of the
    steps before it. *)
Lemma rollback_when_stopped (args : start_vmm_args_t)
    (w : world) (k : nat) (s : step) :
  g_vmm_status w = VMM_STATUS_STOPPED ->
  nth_error acquisition_sequence k = Some s ->
  (forall t, In t (firstn k acquisition_sequence) -> step_fails P t = false) ->
  step_fails P s = true ->
  exists w',
    alloc_and_start_the_vmm P args w = (LOADER_FAILURE, w')
    /\ trace w'
       = trace w ++ flat_map (attempt P) (firstn (S k) acquisition_sequence)
         ++ rollback P k s
    /\ g_vmm_status w' = VMM_STATUS_STOPPED.
Proof.
  intros Hst Hk Hbefore Hfail.
  destruct k as [|[|[|[|[|[|[|[|[|[|[|[|[|[|k]]]]]]]]]]]]]];
    cbn [nth_error acquisition_sequence] in Hk;
    [ injection Hk as <- .. | destruct k; discriminate ].
  all: steps_before Hbefore.
  all: enter_stopped Hst.
  all: try match type of Hfail with
           | step_fails _ (Acquire _) = _ => cbn [step_fails] in Hfail
           end.
  all: run_steps Hfail.
  1-13: unwind; eexists; (split; [reflexivity|]); cbn [trace g_vmm_status];
        split; [| exact Hst]; same_trace.
  rewrite start_vmm_per_cpu_failed_eq.
  destruct (stop_fails P);
    unwind; eexists; (split; [reflexivity|]);
    cbn [trace g_vmm_status]; (split; [| exact Hst]); same_trace.
Qed.

(** With the VMM stopped, a failure of the fan-out whose rollback may fail
    as well: the whole world after the call. *)
Lemma fan_out_failure_when_stopped (args : start_vmm_args_t) (w : world) :
  g_vmm_status w = VMM_STATUS_STOPPED ->
  (forall t, In t (firstn 13 acquisition_sequence) -> step_fails P t = false) ->
  step_fails P FanOut = true ->
  alloc_and_start_the_vmm P args w
  = (LOADER_FAILURE,
     {| g_vmm_status := VMM_STATUS_STOPPED;
        epos := 0;
        spos := 0;
        trace := trace w ++ flat_map (attempt P) acquisition_sequence
                 ++ rollback P 13 FanOut;
        errors := errors w ++ ["start_vmm_per_cpu failed"]
                  ++ (if stop_fails P then ["stop_vmm_per_cpu failed"]
                      else []) |}).
Proof.
  intros Hst Hbefore Hfail.
  steps_before Hbefore.
  enter_stopped Hst.
  run_steps Hfail.
  rewrite start_vmm_per_cpu_failed_eq.
  destruct (stop_fails P); unwind; rewrite Hst; f_equal; f_equal.
  all: try (rewrite <- ?app_assoc; reflexivity).
  all: same_trace.
Qed.

(** With the VMM stopped and no failing step, the VMM runs. *)
Lemma start_when_stopped (args : start_vmm_args_t) (w : world) :
  g_vmm_status w = VMM_STATUS_STOPPED ->
  (forall t, In t acquisition_sequence -> step_fails P t = false) ->
  alloc_and_start_the_vmm P args w
  = (LOADER_SUCCESS,
     {| g_vmm_status := VMM_STATUS_RUNNING;
        epos := 0;
        spos := 0;
        trace := trace w ++ flat_map (attempt P) acquisition_sequence;
        errors := errors w |}).
Proof.
  intros Hst Hall.
  assert (step_fails P FanOut = false) as Hfan
    by (apply Hall; cbn; tauto).
  assert (forall t, In t (firstn 13 acquisition_sequence) ->
                    step_fails P t = false) as Hbefore
    by (intros t Ht; apply Hall; cbn in Ht |- *; tauto).
  clear Hall. steps_before Hbefore.
  enter_stopped Hst.
  run_steps Hfan.
  unwind. f_equal. f_equal. same_trace.
Qed.

(** A corrupt VMM is not started: nothing is called and the status
    stays. *)
Lemma corrupt_fails_fast (args : start_vmm_args_t) (w : world) :
  g_vmm_status w = VMM_STATUS_CORRUPT ->
  alloc_and_start_the_vmm P args w
  = (LOADER_FAILURE,
     snd (BFERROR "Unable to start, previous VMM failed to properly stop" w)).
Proof.
  intros Hst. unfold alloc_and_start_the_vmm.
  match goal with
  | |- context [bind get_status (fun s => bind _ (fun _ => bind _ (fun s0 =>
         if _ then _ else ?rest)))] =>
    set (k := rest)
  end.
  unfold bind, get_status. cbn [fst snd]. rewrite Hst.
  cbn [vmm_status_eqb ret fst snd]. rewrite Hst. reflexivity.
Qed.

Lemma entry_world_not_running (w : world) :
  g_vmm_status (entry_world P w) <> VMM_STATUS_RUNNING.
Proof.
  unfold entry_world. destruct (g_vmm_status w) eqn:E; cbn [vmm_status_eqb].
  - rewrite E. discriminate.
  - unfold stop_and_free_the_vmm, bind, platform_on_each_cpu.
    cbn [emit ret fst snd].
    destruct (existsb _ _); cbn; discriminate.
  - rewrite E. discriminate.
Qed.

(** Starting is starting from the entry world. *)
Lemma alloc_and_start_from_entry (args : start_vmm_args_t) (w : world) :
  alloc_and_start_the_vmm P args w
  = alloc_and_start_the_vmm P args (entry_world P w).
Proof.
  pose proof (entry_world_not_running w) as Hnr.
  unfold alloc_and_start_the_vmm.
  match goal with
  | |- bind get_status (fun s => bind _ (fun _ => ?rest)) w = _ =>
    set (k := rest)
  end.
  unfold bind, get_status. cbn [fst snd]. f_equal.
  unfold entry_world in *.
  destruct (g_vmm_status w) eqn:E; cbn [vmm_status_eqb] in *.
  - rewrite E. reflexivity.
  - destruct (g_vmm_status (snd (stop_and_free_the_vmm P w))) eqn:E2;
      try contradiction; reflexivity.
  - rewrite E. reflexivity.
Qed.

End OrchestratorFacts.

(** C2: when step [k] of the acquisition sequence (root page table,
    microkernel ELF, extension ELFs, ELF segments, page pool, huge pool, the
    seven mappings, the per-CPU fan-out) fails after the steps before it
    succeeded, [alloc_and_start_the_vmm] returns failure, has called, after
    the attempted steps, exactly the releases that match the completed
    steps, the last completed step first (preceded, when the fan-out itself
    failed, by [stop_vmm_per_cpu] on the processors in reverse order), and
    does not leave the status at running. *)
Theorem rollback_releases_in_reverse
    (P : Start.platform) (args : Start.start_vmm_args_t) (w : Start.world)
    (k : nat) (s : Start.step) :
  Start.g_vmm_status (Start.entry_world P w) <> Start.VMM_STATUS_CORRUPT ->
  nth_error Start.acquisition_sequence k = Some s ->
  (forall t, In t (firstn k Start.acquisition_sequence) ->
             Start.step_fails P t = false) ->
  Start.step_fails P s = true ->
  fst (Start.alloc_and_start_the_vmm P args w) = LOADER_FAILURE
  /\ Start.trace (snd (Start.alloc_and_start_the_vmm P args w))
     = Start.trace (Start.entry_world P w)
       ++ flat_map (Start.attempt P) (firstn (S k) Start.acquisition_sequence)
       ++ (match s with
           | Start.FanOut =>
             map (Start.OnCpu Start.stop_vmm_per_cpu)
                 (rev (seq 0 (Start.cpus P)))
           | Start.Acquire _ => []
           end
           ++ flat_map (Start.matching_release P)
                       (rev (firstn k Start.acquisition_sequence)))
  /\ Start.g_vmm_status (snd (Start.alloc_and_start_the_vmm P args w))
     <> Start.VMM_STATUS_RUNNING.
Proof.
  intros Hentry Hk Hbefore Hfail.
  rewrite alloc_and_start_from_entry.
  pose proof (entry_world_not_running P w) as Hnr.
  assert (Start.g_vmm_status (Start.entry_world P w)
          = Start.VMM_STATUS_STOPPED) as Hst
    by (destruct (Start.g_vmm_status (Start.entry_world P w));
        [reflexivity | contradiction | contradiction]).
  destruct (rollback_when_stopped P args (Start.entry_world P w) k s
              Hst Hk Hbefore Hfail) as (w' & -> & Htrace & Hstatus).
  cbn [fst snd]. split; [reflexivity|]. split.
  - rewrite Htrace. unfold Start.rollback. destruct s; reflexivity.
  - rewrite Hstatus. discriminate.
Qed.

Lemma rollback_releases_in_reverse_witness :
  Start.g_vmm_status
    (Start.entry_world (Start.failing_at Start.Ext.map_mk_page_pool)
                       Start.running_world)
    <> Start.VMM_STATUS_CORRUPT
  /\ fst (Start.alloc_and_start_the_vmm
            (Start.failing_at Start.Ext.map_mk_page_pool)
            Start.happy_args Start.running_world) = LOADER_FAILURE
  /\ Start.g_vmm_status
       (snd (Start.alloc_and_start_the_vmm
               (Start.failing_at Start.Ext.map_mk_page_pool)
               Start.happy_args Start.running_world))
     <> Start.VMM_STATUS_RUNNING.
Proof.
  assert (Start.g_vmm_status
            (Start.entry_world (Start.failing_at Start.Ext.map_mk_page_pool)
                               Start.running_world)
          <> Start.VMM_STATUS_CORRUPT) as Hentry
    by (vm_compute; discriminate).
  split; [exact Hentry|].
  destruct (rollback_releases_in_reverse
              (Start.failing_at Start.Ext.map_mk_page_pool)
              Start.happy_args Start.running_world 11
              (Start.Acquire Start.Ext.map_mk_page_pool) Hentry)
    as (Hret & _ & Hstatus).
  - reflexivity.
  - intros t Ht. cbn in Ht.
    repeat (destruct Ht as [<-|Ht]; [vm_compute; reflexivity|]).
    destruct Ht.
  - vm_compute. reflexivity.
  - split; [exact Hret | exact Hstatus].
Defined.

(** C1, as stated, fails: on four processors with [start_vmm_per_cpu]
    failing on processor 2 and [stop_vmm_per_cpu] failing on processor 1,
    both fan-outs fail, yet the status after the failed start is stopped,
    not corrupt; and the next start request performs the acquisition and
    succeeds. *)
Lemma corrupt_after_failed_rollback_counterexample :
  Start.step_fails (Start.cpu_2_fails true) Start.FanOut = true
  /\ Start.stop_fails (Start.cpu_2_fails true) = true
  /\ fst (Start.alloc_and_start_the_vmm (Start.cpu_2_fails true)
            Start.happy_args Start.stopped_world) = LOADER_FAILURE
  /\ Start.g_vmm_status
       (snd (Start.alloc_and_start_the_vmm (Start.cpu_2_fails true)
               Start.happy_args Start.stopped_world))
     = Start.VMM_STATUS_STOPPED
  /\ Start.start_vmm (Start.cooperative Start.happy_args) 0x800000 1 0x1000
       {| Start.g_vmm_status := Start.VMM_STATUS_STOPPED;
          Start.epos := 0; Start.spos := 0;
          Start.trace := []; Start.errors := [] |}
     = (LOADER_SUCCESS,
        {| Start.g_vmm_status := Start.VMM_STATUS_RUNNING;
           Start.epos := 0; Start.spos := 0;
           Start.trace :=
             flat_map (Start.attempt (Start.cooperative Start.happy_args))
                      Start.acquisition_sequence;
           Start.errors := [] |})
  /\ fst (Start.start_vmm (Start.cooperative Start.happy_args)
            0x800000 1 0x1000
            (snd (Start.alloc_and_start_the_vmm (Start.cpu_2_fails true)
                    Start.happy_args Start.stopped_world)))
     = LOADER_SUCCESS.
Proof. vm_compute. repeat split; reflexivity. Qed.

(** C1, amended: when the forward fan-out fails and the reverse fan-out of
    [stop_vmm_per_cpu] fails as well, [alloc_and_start_the_vmm] prints
    that, still releases the pools, the ELF copies and the root page table,
    returns failure and leaves the status stopped; a start request fails
    immediately, calling nothing, when the status is corrupt. *)
Theorem failed_rollback_is_only_logged
    (P : Start.platform) (args : Start.start_vmm_args_t) (w : Start.world) :
  Start.g_vmm_status (Start.entry_world P w) <> Start.VMM_STATUS_CORRUPT ->
  (forall t, In t (firstn 13 Start.acquisition_sequence) ->
             Start.step_fails P t = false) ->
  Start.step_fails P Start.FanOut = true ->
  Start.stop_fails P = true ->
  (fst (Start.alloc_and_start_the_vmm P args w) = LOADER_FAILURE
   /\ Start.g_vmm_status (snd (Start.alloc_and_start_the_vmm P args w))
      = Start.VMM_STATUS_STOPPED
   /\ Start.errors (snd (Start.alloc_and_start_the_vmm P args w))
      = Start.errors (Start.entry_world P w)
        ++ ["start_vmm_per_cpu failed"; "stop_vmm_per_cpu failed"]
   /\ Start.trace (snd (Start.alloc_and_start_the_vmm P args w))
      = Start.trace (Start.entry_world P w)
        ++ flat_map (Start.attempt P) Start.acquisition_sequence
        ++ map (Start.OnCpu Start.stop_vmm_per_cpu)
               (rev (seq 0 (Start.cpus P)))
        ++ map Start.Call
             [ Start.Ext.free_mk_huge_pool; Start.Ext.free_mk_page_pool;
               Start.Ext.free_mk_elf_segments; Start.Ext.free_ext_elf_files;
               Start.Ext.free_mk_elf_file; Start.Ext.free_mk_root_page_table ])
  /\ (forall (P' : Start.platform) (args' : Start.start_vmm_args_t)
             (w' : Start.world),
        Start.g_vmm_status w' = Start.VMM_STATUS_CORRUPT ->
        fst (Start.alloc_and_start_the_vmm P' args' w') = LOADER_FAILURE
        /\ Start.trace (snd (Start.alloc_and_start_the_vmm P' args' w'))
           = Start.trace w'
        /\ Start.g_vmm_status (snd (Start.alloc_and_start_the_vmm P' args' w'))
           = Start.VMM_STATUS_CORRUPT).
Proof.
  intros Hentry Hbefore Hfail Hstop. split.
  - rewrite alloc_and_start_from_entry.
    pose proof (entry_world_not_running P w) as Hnr.
    assert (Start.g_vmm_status (Start.entry_world P w)
            = Start.VMM_STATUS_STOPPED) as Hst
      by (destruct (Start.g_vmm_status (Start.entry_world P w));
          [reflexivity | contradiction | contradiction]).
    rewrite (fan_out_failure_when_stopped P args _ Hst Hbefore Hfail).
    rewrite Hstop. cbn [fst snd Start.g_vmm_status Start.errors Start.trace].
    repeat split; reflexivity.
  - intros P' args' w' Hcorrupt.
    rewrite (corrupt_fails_fast P' args' w' Hcorrupt).
    cbn [fst snd Start.BFERROR Start.trace Start.g_vmm_status].
    repeat split; try reflexivity. exact Hcorrupt.
Qed.

Lemma failed_rollback_is_only_logged_witness :
  Start.g_vmm_status
    (Start.entry_world (Start.cpu_2_fails true) Start.stopped_world)
    <> Start.VMM_STATUS_CORRUPT
  /\ Start.step_fails (Start.cpu_2_fails true) Start.FanOut = true
  /\ Start.stop_fails (Start.cpu_2_fails true) = true
  /\ Start.g_vmm_status
       (snd (Start.alloc_and_start_the_vmm (Start.cpu_2_fails true)
               Start.happy_args Start.stopped_world))
     = Start.VMM_STATUS_STOPPED.
Proof.
  assert (Start.g_vmm_status
            (Start.entry_world (Start.cpu_2_fails true) Start.stopped_world)
          <> Start.VMM_STATUS_CORRUPT) as Hentry
    by (vm_compute; discriminate).
  assert (Start.step_fails (Start.cpu_2_fails true) Start.FanOut = true)
    as Hfail by reflexivity.
  assert (Start.stop_fails (Start.cpu_2_fails true) = true)
    as Hstop by reflexivity.
  split; [exact Hentry|]. split; [exact Hfail|]. split; [exact Hstop|].
  destruct (failed_rollback_is_only_logged (Start.cpu_2_fails true)
              Start.happy_args Start.stopped_world Hentry)
    as [(_ & Hstatus & _) _].
  - intros t Ht. cbn in Ht.
    repeat (destruct Ht as [<-|Ht]; [reflexivity|]).
    destruct Ht.
  - exact Hfail.
  - exact Hstop.
  - exact Hstatus.
Defined.

(** A start on four cooperative processors: every step is attempted in
    order and the VMM runs. *)
Example happy_start :
  Start.start_vmm (Start.cooperative Start.happy_args) 0x800000 1 0x1000
    Start.stopped_world
  = (LOADER_SUCCESS,
     {| Start.g_vmm_status := Start.VMM_STATUS_RUNNING;
        Start.epos := 0; Start.spos := 0;
        Start.trace :=
          map Start.Call
            [ Start.Ext.alloc_mk_root_page_table;
              Start.Ext.alloc_and_copy_mk_elf_file_from_user;
              Start.Ext.alloc_and_copy_ext_elf_files_from_user;
              Start.Ext.alloc_and_copy_mk_elf_segments;
              Start.Ext.alloc_mk_page_pool; Start.Ext.alloc_mk_huge_pool;
              Start.Ext.map_mk_debug_ring; Start.Ext.map_mk_code_aliases;
              Start.Ext.map_mk_elf_file; Start.Ext.map_ext_elf_files;
              Start.Ext.map_mk_elf_segments; Start.Ext.map_mk_page_pool;
              Start.Ext.map_mk_huge_pool ]
          ++ map (Start.OnCpu Start.start_vmm_per_cpu) [0; 1; 2; 3]%nat;
        Start.errors := [] |}).
Proof. vm_compute. reflexivity. Qed.

(** The page pool cannot be mapped: the six allocations are released in
    reverse order. *)
Example rollback_at_map_mk_page_pool :
  Start.alloc_and_start_the_vmm (Start.failing_at Start.Ext.map_mk_page_pool)
    Start.happy_args Start.stopped_world
  = (LOADER_FAILURE,
     {| Start.g_vmm_status := Start.VMM_STATUS_STOPPED;
        Start.epos := 0; Start.spos := 0;
        Start.trace :=
          map Start.Call
            [ Start.Ext.alloc_mk_root_page_table;
              Start.Ext.alloc_and_copy_mk_elf_file_from_user;
              Start.Ext.alloc_and_copy_ext_elf_files_from_user;
              Start.Ext.alloc_and_copy_mk_elf_segments;
              Start.Ext.alloc_mk_page_pool; Start.Ext.alloc_mk_huge_pool;
              Start.Ext.map_mk_debug_ring; Start.Ext.map_mk_code_aliases;
              Start.Ext.map_mk_elf_file; Start.Ext.map_ext_elf_files;
              Start.Ext.map_mk_elf_segments; Start.Ext.map_mk_page_pool;
              Start.Ext.free_mk_huge_pool; Start.Ext.free_mk_page_pool;
              Start.Ext.free_mk_elf_segments; Start.Ext.free_ext_elf_files;
              Start.Ext.free_mk_elf_file; Start.Ext.free_mk_root_page_table ];
        Start.errors := ["map_mk_page_pool failed"] |}).
Proof. vm_compute. reflexivity. Qed.

(** Processor 2 fails to start and every processor stops: the processors
    are stopped from the last to the first and the status is stopped. *)
Example partial_cpu_failure :
  Start.trace
    (snd (Start.alloc_and_start_the_vmm (Start.cpu_2_fails false)
            Start.happy_args Start.stopped_world))
  = flat_map (Start.attempt (Start.cpu_2_fails false))
             Start.acquisition_sequence
    ++ map (Start.OnCpu Start.stop_vmm_per_cpu) [3; 2; 1; 0]%nat
    ++ map Start.Call
         [ Start.Ext.free_mk_huge_pool; Start.Ext.free_mk_page_pool;
           Start.Ext.free_mk_elf_segments; Start.Ext.free_ext_elf_files;
           Start.Ext.free_mk_elf_file; Start.Ext.free_mk_root_page_table ]
  /\ Start.g_vmm_status
       (snd (Start.alloc_and_start_the_vmm (Start.cpu_2_fails false)
               Start.happy_args Start.stopped_world))
     = Start.VMM_STATUS_STOPPED.
Proof. vm_compute. split; reflexivity. Qed.

(** ** VMCS control fields *)

(** The value a control field is first set to: the low half of the
    capability MSR and-ed with its high half. *)
Lemma low_and_high (msr : Z) :
  0 <= msr < 2 ^ 64 ->
  Z.land (Z.land (Z.shiftr msr 0) 0x00000000FFFFFFFF)
         (Z.land (Z.shiftr msr 32) 0x00000000FFFFFFFF)
  = Z.land (Vcpu.low32 msr) (Vcpu.high32 msr).
Proof.
  intros Hm. unfold Vcpu.low32, Vcpu.high32.
  change 0x00000000FFFFFFFF with (Z.ones 32).
  rewrite Z.shiftr_0_r, !Z.land_ones, Z.shiftr_div_pow2 by lia.
  rewrite (Z.mod_small (msr / 2 ^ 32)); [reflexivity|].
  split.
  - apply Z.div_pos; lia.
  - apply Z.div_lt_upper_bound; lia.
Qed.

Lemma enable_if_allowed_get (m : Vcpu.msrs) (f f' : Vcpu.control_field)
    (mask : Z) (s : Vcpu.vmcs) :
  Vcpu.get f' (Vcpu.enable_if_allowed m f mask s)
  = match f, f' with
    | Vcpu.Pin, Vcpu.Pin | Vcpu.Primary, Vcpu.Primary
    | Vcpu.Secondary, Vcpu.Secondary | Vcpu.Exit, Vcpu.Exit
    | Vcpu.Entry, Vcpu.Entry =>
      Z.lor (Vcpu.get f' s) (Vcpu.if_allowed (Vcpu.capability m f) mask)
    | _, _ => Vcpu.get f' s
    end.
Proof.
  unfold Vcpu.enable_if_allowed, Vcpu.if_allowed.
  destruct (Vcpu.allowed1 (Vcpu.capability m f) mask).
  - destruct f, f'; reflexivity.
  - destruct f, f'; cbn [Vcpu.get]; rewrite ?Z.lor_0_r; reflexivity.
Qed.

Lemma enable_get (f f' : Vcpu.control_field) (mask : Z) (s : Vcpu.vmcs) :
  Vcpu.get f' (Vcpu.enable f mask s)
  = match f, f' with
    | Vcpu.Pin, Vcpu.Pin | Vcpu.Primary, Vcpu.Primary
    | Vcpu.Secondary, Vcpu.Secondary | Vcpu.Exit, Vcpu.Exit
    | Vcpu.Entry, Vcpu.Entry => Z.lor (Vcpu.get f' s) mask
    | _, _ => Vcpu.get f' s
    end.
Proof. destruct f, f'; reflexivity. Qed.

Lemma set_get (f f' : Vcpu.control_field) (v : Z) (s : Vcpu.vmcs) :
  Vcpu.get f' (Vcpu.set f v s)
  = match f, f' with
    | Vcpu.Pin, Vcpu.Pin | Vcpu.Primary, Vcpu.Primary
    | Vcpu.Secondary, Vcpu.Secondary | Vcpu.Exit, Vcpu.Exit
    | Vcpu.Entry, Vcpu.Entry => v
    | _, _ => Vcpu.get f' s
    end.
Proof. destruct f, f'; reflexivity. Qed.

Lemma set_address_get (f : Vcpu.control_field) (v : Z) (s : Vcpu.vmcs) :
  Vcpu.get f (Vcpu.set_address_of_msr_bitmap v s) = Vcpu.get f s
  /\ Vcpu.get f (Vcpu.set_address_of_io_bitmap_a v s) = Vcpu.get f s
  /\ Vcpu.get f (Vcpu.set_address_of_io_bitmap_b v s) = Vcpu.get f s.
Proof. destruct f; repeat split. Qed.

Lemma set_address_of_msr_bitmap_get
    (f : Vcpu.control_field) (v : Z) (s : Vcpu.vmcs) :
  Vcpu.get f (Vcpu.set_address_of_msr_bitmap v s) = Vcpu.get f s.
Proof. apply set_address_get. Qed.

Lemma set_address_of_io_bitmap_a_get
    (f : Vcpu.control_field) (v : Z) (s : Vcpu.vmcs) :
  Vcpu.get f (Vcpu.set_address_of_io_bitmap_a v s) = Vcpu.get f s.
Proof. apply set_address_get. Qed.

Lemma set_address_of_io_bitmap_b_get
    (f : Vcpu.control_field) (v : Z) (s : Vcpu.vmcs) :
  Vcpu.get f (Vcpu.set_address_of_io_bitmap_b v s) = Vcpu.get f s.
Proof. apply set_address_get. Qed.

Lemma get_pin (s : Vcpu.vmcs) :
  Vcpu.pin_based_vm_execution_controls s = Vcpu.get Vcpu.Pin s.
Proof. reflexivity. Qed.

Lemma get_primary (s : Vcpu.vmcs) :
  Vcpu.primary_processor_based_vm_execution_controls s
  = Vcpu.get Vcpu.Primary s.
Proof. reflexivity. Qed.

Lemma get_secondary (s : Vcpu.vmcs) :
  Vcpu.secondary_processor_based_vm_execution_controls s
  = Vcpu.get Vcpu.Secondary s.
Proof. reflexivity. Qed.

Lemma get_exit (s : Vcpu.vmcs) :
  Vcpu.vm_exit_controls s = Vcpu.get Vcpu.Exit s.
Proof. reflexivity. Qed.

Lemma get_entry (s : Vcpu.vmcs) :
  Vcpu.vm_entry_controls s = Vcpu.get Vcpu.Entry s.
Proof. reflexivity. Qed.

(** C7: [write_control_state] sets the pin-based, primary processor-based,
    VM-exit and VM-entry controls to the low 32 bits of their capability
    MSR and-ed with its high 32 bits, and then ors in the controls it
    wants: use MSR bitmap, use I/O bitmaps and (when allowed) activate
    secondary controls in the primary controls; save debug controls, host
    address-space size, save and load IA32_PAT, save and load IA32_EFER
    (and, when allowed, load IA32_PERF_GLOBAL_CTRL) in the exit controls;
    load debug controls, IA-32e mode guest, load IA32_PAT, load IA32_EFER
    (and, when allowed, load IA32_PERF_GLOBAL_CTRL) in the entry controls;
    RDTSCP, INVPCID and XSAVES/XRSTORS in the secondary controls, each only
    when allowed and only on a host vcpu. *)
Theorem write_control_state_fields
    (K : Vcpu.control_masks) (m : Vcpu.msrs) (this : Vcpu.vcpu)
    (s : Vcpu.vmcs) :
  0 <= Vcpu.ia32_vmx_true_pinbased_ctls m < 2 ^ 64 ->
  0 <= Vcpu.ia32_vmx_true_procbased_ctls m < 2 ^ 64 ->
  0 <= Vcpu.ia32_vmx_true_exit_ctls m < 2 ^ 64 ->
  0 <= Vcpu.ia32_vmx_true_entry_ctls m < 2 ^ 64 ->
  let s' := Vcpu.write_control_state K m this s in
  Vcpu.pin_based_vm_execution_controls s'
  = Z.land (Vcpu.low32 (Vcpu.ia32_vmx_true_pinbased_ctls m))
           (Vcpu.high32 (Vcpu.ia32_vmx_true_pinbased_ctls m))
  /\ Vcpu.primary_processor_based_vm_execution_controls s'
     = Z.lor
         (Z.lor
            (Z.lor
               (Z.land (Vcpu.low32 (Vcpu.ia32_vmx_true_procbased_ctls m))
                       (Vcpu.high32 (Vcpu.ia32_vmx_true_procbased_ctls m)))
               (Vcpu.use_msr_bitmap K))
            (Vcpu.use_io_bitmaps K))
         (Vcpu.if_allowed (Vcpu.ia32_vmx_true_procbased_ctls m)
                          (Vcpu.activate_secondary_controls K))
  /\ Vcpu.secondary_processor_based_vm_execution_controls s'
     = (if Vcpu.is_host_vcpu this then
          Z.lor
            (Z.lor
               (Z.lor (Vcpu.secondary_processor_based_vm_execution_controls s)
                      (Vcpu.if_allowed (Vcpu.ia32_vmx_procbased_ctls2 m)
                                       (Vcpu.enable_rdtscp K)))
               (Vcpu.if_allowed (Vcpu.ia32_vmx_procbased_ctls2 m)
                                (Vcpu.enable_invpcid K)))
            (Vcpu.if_allowed (Vcpu.ia32_vmx_procbased_ctls2 m)
                             (Vcpu.enable_xsaves_xrstors K))
        else Vcpu.secondary_processor_based_vm_execution_controls s)
  /\ Vcpu.vm_exit_controls s'
     = Z.lor
         (Z.lor
            (Z.lor
               (Z.lor
                  (Z.lor
                     (Z.lor
                        (Z.lor
                           (Z.land
                              (Vcpu.low32 (Vcpu.ia32_vmx_true_exit_ctls m))
                              (Vcpu.high32 (Vcpu.ia32_vmx_true_exit_ctls m)))
                           (Vcpu.exit_save_debug_controls K))
                        (Vcpu.exit_host_address_space_size K))
                     (Vcpu.if_allowed (Vcpu.ia32_vmx_true_exit_ctls m)
                        (Vcpu.exit_load_ia32_perf_global_ctrl K)))
                  (Vcpu.exit_save_ia32_pat K))
               (Vcpu.exit_load_ia32_pat K))
            (Vcpu.exit_save_ia32_efer K))
         (Vcpu.exit_load_ia32_efer K)
  /\ Vcpu.vm_entry_controls s'
     = Z.lor
         (Z.lor
            (Z.lor
               (Z.lor
                  (Z.lor
                     (Z.land
                        (Vcpu.low32 (Vcpu.ia32_vmx_true_entry_ctls m))
                        (Vcpu.high32 (Vcpu.ia32_vmx_true_entry_ctls m)))
                     (Vcpu.entry_load_debug_controls K))
                  (Vcpu.entry_ia_32e_mode_guest K))
               (Vcpu.if_allowed (Vcpu.ia32_vmx_true_entry_ctls m)
                  (Vcpu.entry_load_ia32_perf_global_ctrl K)))
            (Vcpu.entry_load_ia32_pat K))
         (Vcpu.entry_load_ia32_efer K).
Proof.
  intros Hpin Hproc Hexit Hentry s'.
  rewrite <- (low_and_high _ Hpin), <- (low_and_high _ Hproc),
          <- (low_and_high _ Hexit), <- (low_and_high _ Hentry).
  subst s'. unfold Vcpu.write_control_state, Vcpu.run.
  rewrite (get_pin (fold_left _ _ _)), (get_primary (fold_left _ _ _)),
          (get_secondary (fold_left _ _ _)), (get_exit (fold_left _ _ _)),
          (get_entry (fold_left _ _ _)).
  destruct (Vcpu.is_host_vcpu this); cbn [app fold_left];
    repeat (rewrite ?enable_if_allowed_get, ?enable_get, ?set_get,
                    ?set_address_of_msr_bitmap_get,
                    ?set_address_of_io_bitmap_a_get,
                    ?set_address_of_io_bitmap_b_get; cbv iota);
    repeat split; reflexivity.
Qed.

Lemma write_control_state_fields_witness :
  0 <= Vcpu.ia32_vmx_true_pinbased_ctls Vcpu.example_msrs < 2 ^ 64
  /\ 0 <= Vcpu.ia32_vmx_true_procbased_ctls Vcpu.example_msrs < 2 ^ 64
  /\ 0 <= Vcpu.ia32_vmx_true_exit_ctls Vcpu.example_msrs < 2 ^ 64
  /\ 0 <= Vcpu.ia32_vmx_true_entry_ctls Vcpu.example_msrs < 2 ^ 64
  /\ Vcpu.pin_based_vm_execution_controls
       (Vcpu.write_control_state Vcpu.intel_masks Vcpu.example_msrs
          Vcpu.host_vcpu Vcpu.cleared_vmcs) = 0x16
  /\ Vcpu.primary_processor_based_vm_execution_controls
       (Vcpu.write_control_state Vcpu.intel_masks Vcpu.example_msrs
          Vcpu.host_vcpu Vcpu.cleared_vmcs) = 0x96006172.
Proof.
  assert (0 <= Vcpu.ia32_vmx_true_pinbased_ctls Vcpu.example_msrs < 2 ^ 64)
    as H1 by (simpl; lia).
  assert (0 <= Vcpu.ia32_vmx_true_procbased_ctls Vcpu.example_msrs < 2 ^ 64)
    as H2 by (simpl; lia).
  assert (0 <= Vcpu.ia32_vmx_true_exit_ctls Vcpu.example_msrs < 2 ^ 64)
    as H3 by (simpl; lia).
  assert (0 <= Vcpu.ia32_vmx_true_entry_ctls Vcpu.example_msrs < 2 ^ 64)
    as H4 by (simpl; lia).
  destruct (write_control_state_fields Vcpu.intel_masks Vcpu.example_msrs
              Vcpu.host_vcpu Vcpu.cleared_vmcs H1 H2 H3 H4)
    as (Hpin & Hprimary & _).
  split; [exact H1|]. split; [exact H2|]. split; [exact H3|].
  split; [exact H4|]. split.
  - rewrite Hpin. reflexivity.
  - rewrite Hprimary. reflexivity.
Defined.

(** On the example processor, a host vcpu ends with these controls. *)
Example write_control_state_example :
  Vcpu.write_control_state Vcpu.intel_masks Vcpu.example_msrs
    Vcpu.host_vcpu Vcpu.cleared_vmcs
  = {| Vcpu.pin_based_vm_execution_controls := 0x16;
       Vcpu.primary_processor_based_vm_execution_controls := 0x96006172;
       Vcpu.secondary_processor_based_vm_execution_controls := 0x101008;
       Vcpu.vm_exit_controls := 0x3F7FFF;
       Vcpu.vm_entry_controls := 0xF3FF;
       Vcpu.address_of_msr_bitmap := 0x1000;
       Vcpu.address_of_io_bitmap_a := 0x2000;
       Vcpu.address_of_io_bitmap_b := 0x3000 |}.
Proof. vm_compute. reflexivity. Qed.

(** ** Further properties of the GDT accessors *)

(** X1: both accessors return [LOADER_SUCCESS] or [LOADER_FAILURE], and
    whenever one returns failure the output cell is exactly as it was:
    nothing is written on a failure path. *)
Theorem gdt_failure_keeps_output
    (gdtr : option Gdt.global_descriptor_table_register_t) (sel : Z)
    (out : option Z) :
  (fst (Gdt.get_gdt_descriptor_base gdtr sel out) = LOADER_FAILURE ->
   snd (Gdt.get_gdt_descriptor_base gdtr sel out) = out)
  /\ (fst (Gdt.get_gdt_descriptor_attrib gdtr sel out) = LOADER_FAILURE ->
      snd (Gdt.get_gdt_descriptor_attrib gdtr sel out) = out)
  /\ (fst (Gdt.get_gdt_descriptor_base gdtr sel out) = LOADER_FAILURE
      \/ fst (Gdt.get_gdt_descriptor_base gdtr sel out) = LOADER_SUCCESS)
  /\ (fst (Gdt.get_gdt_descriptor_attrib gdtr sel out) = LOADER_FAILURE
      \/ fst (Gdt.get_gdt_descriptor_attrib gdtr sel out) = LOADER_SUCCESS).
Proof.
  unfold Gdt.get_gdt_descriptor_base, Gdt.get_gdt_descriptor_attrib.
  destruct gdtr as [g|], out as [v|]; cbn [fst snd];
    repeat match goal with
           | |- context [if ?c then _ else _] => destruct c; cbn [fst snd]
           end;
    repeat split; intros; try reflexivity; try (now left); try (now right);
    try (exfalso; eapply failure_is_not_success; eauto; fail).
  all: exfalso; apply failure_is_not_success; symmetry; assumption.
Qed.

Lemma gdt_failure_keeps_output_witness :
  fst (Gdt.get_gdt_descriptor_base (Some Gdt.gdt_tss_cut) 0x28 (Some 7))
    = LOADER_FAILURE
  /\ snd (Gdt.get_gdt_descriptor_base (Some Gdt.gdt_tss_cut) 0x28 (Some 7))
     = Some 7.
Proof.
  assert (fst (Gdt.get_gdt_descriptor_base (Some Gdt.gdt_tss_cut) 0x28
                 (Some 7)) = LOADER_FAILURE) as H by (vm_compute; reflexivity).
  split; [exact H|].
  apply (gdt_failure_keeps_output (Some Gdt.gdt_tss_cut) 0x28 (Some 7)).
  exact H.
Defined.

(** X2: the three low bits of a selector (RPL and TI) are ignored: two
    selectors with the same index give the same result and output. *)
Theorem gdt_selector_low_bits_ignored
    (gdtr : option Gdt.global_descriptor_table_register_t) (sel sel' : Z)
    (out : option Z) :
  0 <= sel < 65536 -> 0 <= sel' < 65536 ->
  Z.shiftr sel 3 = Z.shiftr sel' 3 ->
  Gdt.get_gdt_descriptor_base gdtr sel out
  = Gdt.get_gdt_descriptor_base gdtr sel' out
  /\ Gdt.get_gdt_descriptor_attrib gdtr sel out
     = Gdt.get_gdt_descriptor_attrib gdtr sel' out.
Proof.
  intros Hs Hs' Heq.
  unfold Gdt.get_gdt_descriptor_base, Gdt.get_gdt_descriptor_attrib.
  rewrite (u64_small sel), (u64_small sel') by lia. rewrite Heq.
  split; reflexivity.
Qed.

Lemma gdt_selector_low_bits_ignored_witness :
  Gdt.get_gdt_descriptor_base (Some Gdt.gdt_8byte_example) 0x28 (Some 0)
  = Gdt.get_gdt_descriptor_base (Some Gdt.gdt_8byte_example) 0x2B (Some 0)
  /\ Gdt.get_gdt_descriptor_attrib (Some Gdt.gdt_8byte_example) 0x28 (Some 0)
     = Gdt.get_gdt_descriptor_attrib (Some Gdt.gdt_8byte_example) 0x2B
         (Some 0).
Proof.
  apply (gdt_selector_low_bits_ignored (Some Gdt.gdt_8byte_example)
           0x28 0x2B (Some 0)); [lia | lia | reflexivity].
Defined.

Lemma base_low_bits (w k : Z) :
  0 <= k ->
  Z.testbit (Gdt.base_low w) k
  = if k <? 24 then Z.testbit w (k + 16)
    else if k <? 32 then Z.testbit w (k + 32) else false.
Proof.
  intros Hk. unfold Gdt.base_low.
  unfold Gdt.BASE_MASK1, Gdt.BASE_MASK2, Gdt.BASE_MASK3.
  unfold Gdt.BASE_SHIFT1, Gdt.BASE_SHIFT2, Gdt.BASE_SHIFT3.
  change 0x00000000FFFF0000 with (Z.shiftl (Z.ones 16) 16).
  change 0x000000FF00000000 with (Z.shiftl (Z.ones 8) 32).
  change 0xFF00000000000000 with (Z.shiftl (Z.ones 8) 56).
  bitwise.
  destruct (Z_lt_le_dec k 16); [|destruct (Z_lt_le_dec k 24);
    [|destruct (Z_lt_le_dec k 32)]];
  decide_comparisons; bool_tidy; reflexivity.
Qed.

Lemma nonneg_of_bits (b n : Z) :
  0 <= n ->
  (forall k, n <= k -> Z.testbit b k = false) -> 0 <= b < 2 ^ n.
Proof.
  intros Hn Hhigh.
  assert (0 <= b) as Hb.
  { apply Z.bits_iff_nonneg_ex. exists n. intros m Hm. apply Hhigh. lia. }
  split; [exact Hb|].
  destruct (Z.eq_dec b 0) as [->|Hne]; [apply Z.pow_pos_nonneg; lia|].
  apply Z.log2_lt_pow2; [lia|].
  destruct (Z_lt_le_dec (Z.log2 b) n) as [|Hge]; [assumption|].
  pose proof (Z.bit_log2 b ltac:(lia)) as Hbit.
  rewrite Hhigh in Hbit by lia. discriminate.
Qed.

Lemma land_pow2 (w n : Z) :
  0 <= n -> Z.land w (2 ^ n) = if Z.testbit w n then 2 ^ n else 0.
Proof.
  intros Hn. apply Z.bits_inj'. intros k Hk.
  rewrite Z.land_spec, Z.pow2_bits_eqb by lia.
  destruct (Z.eqb_spec n k) as [->|Hne].
  - destruct (Z.testbit w k); [|rewrite Z.bits_0; reflexivity].
    rewrite Z.pow2_bits_eqb, Z.eqb_refl by lia. reflexivity.
  - rewrite Bool.andb_false_r.
    destruct (Z.testbit w n); [|rewrite Z.bits_0; reflexivity].
    rewrite Z.pow2_bits_eqb by lia.
    symmetry. apply Z.eqb_neq. exact Hne.
Qed.

Lemma land_pow2_eqb (w n : Z) :
  0 <= n -> (Z.land w (2 ^ n) =? 0) = negb (Z.testbit w n).
Proof.
  intros Hn. rewrite land_pow2 by exact Hn.
  destruct (Z.testbit w n); [|reflexivity].
  apply Z.eqb_neq. pose proof (Z.pow_pos_nonneg 2 n). lia.
Qed.

(** X3: the base a successful [get_gdt_descriptor_base] stores for a
    non-null selector, bit by bit: bits 0..23 are bits 16..39 of the
    descriptor, bits 24..31 are its bits 56..63, and bits 32..63 are the low
    32 bits of the next entry when the System bit (bit 44) is clear and zero
    when it is set; the base fits 64 bits. *)
Theorem gdt_base_bits
    (g : Gdt.global_descriptor_table_register_t) (sel v b : Z) :
  0 <= sel < 65536 ->
  0 <= Gdt.limit g < 65536 ->
  Z.shiftr sel 3 <> 0 ->
  Gdt.get_gdt_descriptor_base (Some g) sel (Some v)
    = (LOADER_SUCCESS, Some b) ->
  0 <= b < 2 ^ 64
  /\ forall k, 0 <= k ->
       Z.testbit b k
       = if k <? 24 then Z.testbit (Gdt.entry g (Z.shiftr sel 3)) (k + 16)
         else if k <? 32
         then Z.testbit (Gdt.entry g (Z.shiftr sel 3)) (k + 32)
         else if k <? 64 then
           negb (Z.testbit (Gdt.entry g (Z.shiftr sel 3)) 44)
           && Z.testbit (Gdt.entry g (Z.shiftr sel 3 + 1)) (k - 32)
         else false.
Proof.
  intros Hsel Hlim Hnz Hget.
  rewrite get_gdt_descriptor_base_eq in Hget by assumption.
  rewrite (proj2 (Z.eqb_neq _ _) Hnz) in Hget.
  set (w := Gdt.entry g (Z.shiftr sel 3)) in *.
  set (w1 := Gdt.entry g (Z.shiftr sel 3 + 1)) in *.
  unfold Gdt.SYSTEM_BIT in Hget.
  change 0x0000100000000000 with (2 ^ 44) in Hget.
  rewrite land_pow2_eqb in Hget by lia.
  assert (forall k, 0 <= k ->
            Z.testbit b k
            = if k <? 24 then Z.testbit w (k + 16)
              else if k <? 32 then Z.testbit w (k + 32)
              else if k <? 64 then negb (Z.testbit w 44) && Z.testbit w1 (k - 32)
              else false) as Hbits.
  { intros k Hk.
    destruct (_ <=? _) in Hget; [discriminate (f_equal fst Hget)|].
    destruct (Z.testbit w 44); cbn [negb andb] in *.
    - injection Hget as <-. rewrite base_low_bits by lia.
      destruct (k <? 24), (k <? 32), (k <? 64); reflexivity.
    - destruct (_ <=? _) in Hget; [discriminate (f_equal fst Hget)|].
      injection Hget as <-.
      rewrite Z.lor_spec, base_low_bits by lia.
      unfold Gdt.BASE_MASK4. change 0x00000000FFFFFFFF with (Z.ones 32).
      bitwise.
      destruct (Z.ltb_spec k 24); [|destruct (Z.ltb_spec k 32);
        [|destruct (Z.ltb_spec k 64)]];
      decide_comparisons; bool_tidy;
      rewrite ?(Z.testbit_neg_r _ (k - 32)) by lia; bool_tidy; reflexivity. }
  split; [|exact Hbits].
  apply nonneg_of_bits; [lia|]. intros k Hk. rewrite Hbits by lia.
  decide_comparisons. reflexivity.
Qed.

Lemma gdt_base_bits_witness :
  0 <= 0x1234567800000000 < 2 ^ 64
  /\ Z.testbit 0x1234567800000000 35
     = Z.testbit (Gdt.entry Gdt.gdt_tss_inner 6) 3.
Proof.
  destruct (gdt_base_bits Gdt.gdt_tss_inner 0x28 0 0x1234567800000000)
    as [Hrange Hbits].
  - lia.
  - simpl. lia.
  - vm_compute. discriminate.
  - vm_compute. reflexivity.
  - split; [exact Hrange|]. rewrite (Hbits 35) by lia. reflexivity.
Defined.

(** X4: the attributes a successful [get_gdt_descriptor_attrib] stores for
    a non-null selector, bit by bit: bits 0..7 are bits 40..47 of the
    descriptor, bits 12..15 are its bits 52..55, and bits 8..11 are zero
    (the limit bits 48..51 of the descriptor are dropped); the value fits 16
    bits. *)
Theorem gdt_attrib_bits
    (g : Gdt.global_descriptor_table_register_t) (sel v a : Z) :
  0 <= sel < 65536 ->
  0 <= Gdt.limit g < 65536 ->
  Z.shiftr sel 3 <> 0 ->
  Gdt.get_gdt_descriptor_attrib (Some g) sel (Some v)
    = (LOADER_SUCCESS, Some a) ->
  0 <= a < 2 ^ 16
  /\ forall k, 0 <= k ->
       Z.testbit a k
       = if k <? 8 then Z.testbit (Gdt.entry g (Z.shiftr sel 3)) (k + 40)
         else if k <? 12 then false
         else if k <? 16
         then Z.testbit (Gdt.entry g (Z.shiftr sel 3)) (k + 40)
         else false.
Proof.
  intros Hsel Hlim Hnz Hget.
  rewrite get_gdt_descriptor_attrib_eq in Hget by assumption.
  rewrite (proj2 (Z.eqb_neq _ _) Hnz) in Hget.
  set (w := Gdt.entry g (Z.shiftr sel 3)) in *.
  assert (forall k, 0 <= k ->
            Z.testbit a k
            = if k <? 8 then Z.testbit w (k + 40)
              else if k <? 12 then false
              else if k <? 16 then Z.testbit w (k + 40) else false) as Hbits.
  { intros k Hk.
    destruct (_ <=? _) in Hget; [discriminate (f_equal fst Hget)|].
    injection Hget as <-.
    unfold u16. rewrite <- !Z.land_ones by lia.
    unfold Gdt.ATTRIB_MASK1, Gdt.ATTRIB_MASK2.
    change 0x0000FF0000000000 with (Z.shiftl (Z.ones 8) 40).
    change 0x00F0000000000000 with (Z.shiftl (Z.ones 4) 52).
    bitwise.
    destruct (Z.ltb_spec k 8); [|destruct (Z.ltb_spec k 12);
      [|destruct (Z.ltb_spec k 16)]];
    decide_comparisons; bool_tidy; reflexivity. }
  split; [|exact Hbits].
  apply nonneg_of_bits; [lia|]. intros k Hk. rewrite Hbits by lia.
  decide_comparisons. reflexivity.
Qed.

Lemma gdt_attrib_bits_witness :
  exists a,
    Gdt.get_gdt_descriptor_attrib (Some Gdt.gdt_tss_inner) 0x28 (Some 0)
      = (LOADER_SUCCESS, Some a)
    /\ 0 <= a < 2 ^ 16
    /\ Z.testbit a 9 = false.
Proof.
  exists 0x89.
  assert (Gdt.get_gdt_descriptor_attrib (Some Gdt.gdt_tss_inner) 0x28 (Some 0)
          = (LOADER_SUCCESS, Some 0x89)) as Hget by (vm_compute; reflexivity).
  destruct (gdt_attrib_bits Gdt.gdt_tss_inner 0x28 0 0x89)
    as [Hrange Hbits].
  - lia.
  - simpl. lia.
  - vm_compute. discriminate.
  - exact Hget.
  - split; [exact Hget|]. split; [exact Hrange|].
    rewrite (Hbits 9) by lia. reflexivity.
Defined.

(** X5: whenever [get_gdt_descriptor_base] succeeds for a GDT and a
    selector, [get_gdt_descriptor_attrib] succeeds for them as well. *)
Theorem gdt_base_success_attrib_success
    (g : Gdt.global_descriptor_table_register_t) (sel v v' : Z) :
  0 <= sel < 65536 ->
  0 <= Gdt.limit g < 65536 ->
  fst (Gdt.get_gdt_descriptor_base (Some g) sel (Some v)) = LOADER_SUCCESS ->
  fst (Gdt.get_gdt_descriptor_attrib (Some g) sel (Some v')) = LOADER_SUCCESS.
Proof.
  intros Hsel Hlim.
  rewrite get_gdt_descriptor_base_eq, get_gdt_descriptor_attrib_eq
    by assumption.
  destruct (_ =? 0); [reflexivity|].
  destruct (_ <=? _); [|reflexivity].
  cbn [fst]. intros H. now apply failure_is_not_success in H.
Qed.

Lemma gdt_base_success_attrib_success_witness :
  fst (Gdt.get_gdt_descriptor_base (Some Gdt.gdt_tss_inner) 0x28 (Some 0))
    = LOADER_SUCCESS
  /\ fst (Gdt.get_gdt_descriptor_attrib (Some Gdt.gdt_tss_inner) 0x28
            (Some 1)) = LOADER_SUCCESS.
Proof.
  assert (fst (Gdt.get_gdt_descriptor_base (Some Gdt.gdt_tss_inner) 0x28
                 (Some 0)) = LOADER_SUCCESS) as H by (vm_compute; reflexivity).
  split; [exact H|].
  apply (gdt_base_success_attrib_success Gdt.gdt_tss_inner 0x28 0 1);
    [lia | simpl; lia | exact H].
Defined.

(** ** Further properties of the pools *)

(** X6: when the platform allocator returns a non-null pointer,
    [alloc_mk_stack] and [alloc_mk_huge_pool] return success with exactly
    that address and with the default size for 0 pages and [4096 * n] bytes
    for [n] pages (the 64-bit product never wraps for a 32-bit [n]); the
    heap gains that one region, and what the span held before does not
    matter. *)
Theorem alloc_success_records_region
    (HYPERVISOR_MK_STACK_SIZE HYPERVISOR_HUGE_POOL_SIZE : Z)
    (pick : Platform.policy) (n p q : Z) (s : Pool.span_t)
    (h : Platform.heap) :
  0 <= n < 2 ^ 32 ->
  pick (if n =? 0 then HYPERVISOR_MK_STACK_SIZE else 4096 * n) h = p ->
  pick (if n =? 0 then HYPERVISOR_HUGE_POOL_SIZE else 4096 * n) h = q ->
  p <> 0 -> q <> 0 ->
  Pool.alloc_mk_stack HYPERVISOR_MK_STACK_SIZE pick n s h
  = (LOADER_SUCCESS,
     {| Pool.addr := p;
        Pool.size := if n =? 0 then HYPERVISOR_MK_STACK_SIZE else 4096 * n |},
     <[p := if n =? 0 then HYPERVISOR_MK_STACK_SIZE else 4096 * n]> h)
  /\ Pool.alloc_mk_huge_pool HYPERVISOR_HUGE_POOL_SIZE pick n s h
     = (LOADER_SUCCESS,
        {| Pool.addr := q;
           Pool.size :=
             if n =? 0 then HYPERVISOR_HUGE_POOL_SIZE else 4096 * n |},
        <[q := if n =? 0 then HYPERVISOR_HUGE_POOL_SIZE else 4096 * n]> h).
Proof.
  intros Hn Hp Hq Hpz Hqz.
  unfold Pool.alloc_mk_stack, Pool.alloc_mk_huge_pool.
  unfold Platform.platform_alloc, Platform.platform_alloc_contiguous.
  rewrite (Z.eqb_sym 0 n).
  destruct (Z.eqb_spec n 0) as [Hz|Hz]; cbn [Pool.set_size Pool.size].
  - cbv iota in Hp, Hq. rewrite Hp, Hq.
    rewrite (proj2 (Z.eqb_neq p 0)), (proj2 (Z.eqb_neq q 0)) by assumption.
    cbn [Pool.set_addr Pool.addr Pool.size].
    rewrite (proj2 (Z.eqb_neq 0 p)), (proj2 (Z.eqb_neq 0 q)) by lia.
    split; reflexivity.
  - destruct (pages_to_bytes n ltac:(lia)) as [-> _].
    cbv iota in Hp, Hq. assert (q = p) as -> by congruence. rewrite Hp.
    rewrite (proj2 (Z.eqb_neq p 0)) by assumption.
    cbn [Pool.set_addr Pool.addr Pool.size].
    rewrite (proj2 (Z.eqb_neq 0 p)) by lia.
    split; reflexivity.
Qed.

Lemma alloc_success_records_region_witness :
  Pool.alloc_mk_stack 0x10000 (fun _ _ => 0x7000) 0xFFFFFFFF
    {| Pool.addr := 1; Pool.size := 2 |} ∅
  = (LOADER_SUCCESS,
     {| Pool.addr := 0x7000; Pool.size := 4096 * 0xFFFFFFFF |},
     <[0x7000 := 4096 * 0xFFFFFFFF]> ∅).
Proof.
  apply (alloc_success_records_region 0x10000 0x100000
           (fun _ _ => 0x7000) 0xFFFFFFFF 0x7000 0x7000
           {| Pool.addr := 1; Pool.size := 2 |} ∅);
    [lia | reflexivity | reflexivity | lia | lia].
Defined.

(** X7: [free_mk_debug_ring] releases its own handle and nothing else: every
    other live region stays as it was, a non-null handle is no longer live
    afterwards, and a null handle leaves the heap unchanged. *)
Theorem free_mk_debug_ring_frame
    (HYPERVISOR_DEBUG_RING_SIZE ring : Z) (h : Platform.heap) :
  (forall other : Z,
     other <> ring ->
     snd (Pool.free_mk_debug_ring HYPERVISOR_DEBUG_RING_SIZE ring h) !! other
     = h !! other)
  /\ (ring <> 0 ->
      snd (Pool.free_mk_debug_ring HYPERVISOR_DEBUG_RING_SIZE ring h) !! ring
      = None)
  /\ (ring = 0 ->
      snd (Pool.free_mk_debug_ring HYPERVISOR_DEBUG_RING_SIZE ring h) = h).
Proof.
  unfold Pool.free_mk_debug_ring, Platform.platform_free. cbn [snd].
  destruct (Z.eqb_spec ring 0) as [Hz|Hz].
  - split; [reflexivity|]. split; [contradiction | reflexivity].
  - split; [|split; [|contradiction]].
    + intros other Hne. apply lookup_delete_ne. congruence.
    + intros _. apply lookup_delete_eq.
Qed.

Lemma free_mk_debug_ring_frame_witness :
  snd (Pool.free_mk_debug_ring 0x1000 0x7000
         (<[0x7000 := 0x1000]> (<[0x9000 := 0x2000]> ∅))) !! 0x9000
  = Some 0x2000
  /\ snd (Pool.free_mk_debug_ring 0x1000 0x7000
            (<[0x7000 := 0x1000]> (<[0x9000 := 0x2000]> ∅))) !! 0x7000
     = None.
Proof.
  destruct (free_mk_debug_ring_frame 0x1000 0x7000
              (<[0x7000 := 0x1000]> (<[0x9000 := 0x2000]> ∅)))
    as (Hother & Hring & _).
  split.
  - rewrite (Hother 0x9000) by lia.
    rewrite lookup_insert_ne by lia. apply lookup_insert_eq.
  - apply Hring. lia.
Defined.

(** ** Further properties of the start state machine *)

(** Either no element of a list satisfies a test, or there is a first one
    that does. *)
Lemma first_satisfying {A : Type} (f : A -> bool) (l : list A) :
  (forall t, In t l -> f t = false)
  \/ exists k s, nth_error l k = Some s
                 /\ (forall t, In t (firstn k l) -> f t = false)
                 /\ f s = true.
Proof.
  induction l as [|a l IH].
  - left. intros t [].
  - destruct (f a) eqn:Ha.
    + right. exists 0%nat, a. cbn. split; [reflexivity|].
      split; [intros t []| exact Ha].
    + destruct IH as [Hall | (k & s & Hk & Hbefore & Hs)].
      * left. intros t [<-|Ht]; [exact Ha | apply Hall; exact Ht].
      * right. exists (S k), s. cbn. split; [exact Hk|].
        split; [|exact Hs].
        intros t [<-|Ht]; [exact Ha | apply Hbefore; exact Ht].
Qed.

Section MoreOrchestratorFacts.

Import Start.
Local Open Scope loader_scope.

Variable P : platform.

Ltac enter_stopped Hst :=
  unfold alloc_and_start_the_vmm;
  match goal with
  | |- context [bind get_status (fun s => bind _ (fun _ => bind _ (fun s0 =>
         if _ then _ else bind _ (fun _ => bind _ (fun _ => ?rest)))))] =>
    let k := fresh "k" in
    set (k := rest);
    unfold bind, get_status; cbn [fst snd]; rewrite Hst;
    cbn [vmm_status_eqb ret fst snd]; rewrite Hst; cbn [vmm_status_eqb];
    subst k
  end.

Ltac unwind :=
  cbv [alloc_and_copy_mk_root_page_table_failed
       alloc_and_copy_mk_elf_file_from_user_failed
       alloc_and_copy_ext_elf_files_from_user_failed
       alloc_and_copy_mk_elf_segments_failed
       alloc_mk_page_pool_failed alloc_mk_huge_pool_failed
       map_mk_debug_ring_failed map_mk_code_aliases_failed
       map_mk_elf_file_failed map_ext_elf_files_failed
       map_mk_elf_segments_failed map_mk_page_pool_failed
       map_mk_huge_pool_failed bind ret call_void];
  cbn [emit BFERROR set_epos set_spos set_status fst snd
       g_vmm_status epos spos trace errors].

Ltac steps_before Hbefore :=
  cbn [firstn acquisition_sequence In] in Hbefore;
  repeat match type of Hbefore with
         | forall t, ?a = t \/ _ -> _ =>
           let H := fresh "Hok" in
           let Hrest := fresh "Hrest" in
           pose proof (Hbefore a (or_introl eq_refl)) as H;
           cbn [step_fails] in H;
           assert (forall t, _ -> step_fails P t = false) as Hrest
             by (intros t Ht; apply Hbefore; right; exact Ht);
           clear Hbefore; rename Hrest into Hbefore
         end;
  clear Hbefore.

Ltac run_steps Hfail :=
  repeat first
    [ rewrite checked_call;
      match goal with
      | H : nonzero (ext_ret P ?f) = _
        |- context [nonzero (ext_ret P ?f)] => rewrite H
      end
    | rewrite checked_fan_out, Hfail ].

Ltac same_list :=
  unfold StartLog.failure_lines;
  cbn [firstn flat_map attempt rollback rev acquisition_sequence
       matching_release app StartLog.failure_message];
  rewrite <- ?app_assoc; cbn [app]; rewrite ?app_nil_r; reflexivity.

(** With the VMM stopped, the whole world after a failure of step [k]. *)
Lemma failure_world_when_stopped (args : start_vmm_args_t)
    (w : world) (k : nat) (s : step) :
  g_vmm_status w = VMM_STATUS_STOPPED ->
  nth_error acquisition_sequence k = Some s ->
  (forall t, In t (firstn k acquisition_sequence) -> step_fails P t = false) ->
  step_fails P s = true ->
  alloc_and_start_the_vmm P args w
  = (LOADER_FAILURE,
     {| g_vmm_status := VMM_STATUS_STOPPED;
        epos := 0;
        spos := 0;
        trace := trace w
                 ++ flat_map (attempt P) (firstn (S k) acquisition_sequence)
                 ++ rollback P k s;
        errors := errors w ++ StartLog.failure_lines P s |}).
Proof.
  intros Hst Hk Hbefore Hfail.
  destruct k as [|[|[|[|[|[|[|[|[|[|[|[|[|[|k]]]]]]]]]]]]]];
    cbn [nth_error acquisition_sequence] in Hk;
    [ injection Hk as <- .. | destruct k; discriminate ].
  all: steps_before Hbefore.
  all: enter_stopped Hst.
  all: try match type of Hfail with
           | step_fails _ (Acquire _) = _ => cbn [step_fails] in Hfail
           end.
  all: run_steps Hfail.
  1-13: unwind; rewrite Hst; f_equal; f_equal; same_list.
  rewrite start_vmm_per_cpu_failed_eq.
  unfold StartLog.failure_lines.
  destruct (stop_fails P); unwind; rewrite Hst; f_equal; f_equal; same_list.
Qed.

(** What [alloc_and_start_the_vmm] does, by cases on the entry world. *)
Lemma alloc_and_start_cases (args : start_vmm_args_t) (w : world) :
  let w0 := entry_world P w in
  (g_vmm_status w0 = VMM_STATUS_CORRUPT
   /\ alloc_and_start_the_vmm P args w
      = (LOADER_FAILURE,
         snd (BFERROR
                "Unable to start, previous VMM failed to properly stop" w0)))
  \/ (g_vmm_status w0 = VMM_STATUS_STOPPED
      /\ (forall t, In t acquisition_sequence -> step_fails P t = false)
      /\ alloc_and_start_the_vmm P args w
         = (LOADER_SUCCESS,
            {| g_vmm_status := VMM_STATUS_RUNNING;
               epos := 0;
               spos := 0;
               trace := trace w0 ++ flat_map (attempt P) acquisition_sequence;
               errors := errors w0 |}))
  \/ (g_vmm_status w0 = VMM_STATUS_STOPPED
      /\ exists k s,
           nth_error acquisition_sequence k = Some s
           /\ (forall t, In t (firstn k acquisition_sequence) ->
                         step_fails P t = false)
           /\ step_fails P s = true
           /\ alloc_and_start_the_vmm P args w
              = (LOADER_FAILURE,
                 {| g_vmm_status := VMM_STATUS_STOPPED;
                    epos := 0;
                    spos := 0;
                    trace := trace w0
                             ++ flat_map (attempt P)
                                  (firstn (S k) acquisition_sequence)
                             ++ rollback P k s;
                    errors := errors w0 ++ StartLog.failure_lines P s |})).
Proof.
  intros w0. subst w0. rewrite alloc_and_start_from_entry.
  pose proof (entry_world_not_running P w) as Hnr.
  destruct (g_vmm_status (entry_world P w)) eqn:Hst.
  - right.
    destruct (first_satisfying (step_fails P) acquisition_sequence)
      as [Hall | (k & s & Hk & Hbefore & Hs)].
    + left. split; [reflexivity|]. split; [exact Hall|].
      apply start_when_stopped; assumption.
    + right. split; [reflexivity|]. exists k, s.
      split; [exact Hk|]. split; [exact Hbefore|]. split; [exact Hs|].
      apply failure_world_when_stopped; assumption.
  - contradiction.
  - left. split; [reflexivity|]. apply corrupt_fails_fast. exact Hst.
Qed.

End MoreOrchestratorFacts.

(** The return code of the acquisition, the status it leaves and the steps
    that decide it. *)
Lemma alloc_and_start_codes
    (P : Start.platform) (args : Start.start_vmm_args_t) (w : Start.world) :
  (fst (Start.alloc_and_start_the_vmm P args w) = LOADER_SUCCESS
   \/ fst (Start.alloc_and_start_the_vmm P args w) = LOADER_FAILURE)
  /\ (fst (Start.alloc_and_start_the_vmm P args w) = LOADER_SUCCESS
      <-> Start.g_vmm_status (snd (Start.alloc_and_start_the_vmm P args w))
          = Start.VMM_STATUS_RUNNING)
  /\ (fst (Start.alloc_and_start_the_vmm P args w) = LOADER_SUCCESS
      <-> Start.g_vmm_status (Start.entry_world P w)
          <> Start.VMM_STATUS_CORRUPT
          /\ forall t, In t Start.acquisition_sequence ->
                       Start.step_fails P t = false).
Proof.
  destruct (alloc_and_start_cases P args w)
    as [(Hst & ->) | [(Hst & Hall & ->) | (Hst & k & s & Hk & Hb & Hs & ->)]];
    cbn [fst snd Start.g_vmm_status Start.BFERROR].
  - split; [right; reflexivity|]. split; split.
    + intros H. now apply failure_is_not_success in H.
    + rewrite Hst. discriminate.
    + intros H. now apply failure_is_not_success in H.
    + intros [H _]. contradiction.
  - split; [left; reflexivity|]. split; split; try reflexivity.
    intros _. split; [rewrite Hst; discriminate | exact Hall].
  - split; [right; reflexivity|]. split; split.
    + intros H. now apply failure_is_not_success in H.
    + discriminate.
    + intros H. now apply failure_is_not_success in H.
    + intros [_ Hall]. apply nth_error_In in Hk.
      rewrite (Hall s Hk) in Hs. discriminate.
Qed.

(** X8: [alloc_and_start_the_vmm] returns [LOADER_SUCCESS] or
    [LOADER_FAILURE]; it returns success exactly when the status is running
    afterwards, and exactly when the VMM was not corrupt on entry (after
    the implicit stop of a running VMM) and no step of the acquisition
    sequence fails. *)
Theorem alloc_and_start_outcome
    (P : Start.platform) (args : Start.start_vmm_args_t) (w : Start.world) :
  (fst (Start.alloc_and_start_the_vmm P args w) = LOADER_SUCCESS
   \/ fst (Start.alloc_and_start_the_vmm P args w) = LOADER_FAILURE)
  /\ (fst (Start.alloc_and_start_the_vmm P args w) = LOADER_SUCCESS
      <-> Start.g_vmm_status (snd (Start.alloc_and_start_the_vmm P args w))
          = Start.VMM_STATUS_RUNNING)
  /\ (fst (Start.alloc_and_start_the_vmm P args w) = LOADER_SUCCESS
      <-> Start.g_vmm_status (Start.entry_world P w)
          <> Start.VMM_STATUS_CORRUPT
          /\ forall t, In t Start.acquisition_sequence ->
                       Start.step_fails P t = false).
Proof.
  destruct (alloc_and_start_cases P args w)
    as [(Hst & ->) | [(Hst & Hall & ->) | (Hst & k & s & Hk & Hb & Hs & ->)]];
    cbn [fst snd Start.g_vmm_status Start.BFERROR].
  - split; [right; reflexivity|]. split; split.
    + intros H. now apply failure_is_not_success in H.
    + rewrite Hst. discriminate.
    + intros H. now apply failure_is_not_success in H.
    + intros [H _]. contradiction.
  - split; [left; reflexivity|]. split; split; try reflexivity.
    intros _. split; [rewrite Hst; discriminate | exact Hall].
  - split; [right; reflexivity|]. split; split.
    + intros H. now apply failure_is_not_success in H.
    + discriminate.
    + intros H. now apply failure_is_not_success in H.
    + intros [_ Hall]. apply nth_error_In in Hk.
      rewrite (Hall s Hk) in Hs. discriminate.
Qed.

(** X10: of the lines that [alloc_and_start_the_vmm] itself reports with
    [BFERROR] (not what the functions it calls print, nor the [dump_*]
    output that [DEBUG_LOADER] compiles in before the fan-out): when step
    [k] of the acquisition sequence fails after the steps before it
    succeeded, it reports exactly one error, the one that names the failed
    step, and for the fan-out a second one when stopping the processors
    fails as well; when it succeeds it reports no error. *)
Theorem one_line_per_failure
    (P : Start.platform) (args : Start.start_vmm_args_t) (w : Start.world)
    (k : nat) (s : Start.step) :
  Start.g_vmm_status (Start.entry_world P w) <> Start.VMM_STATUS_CORRUPT ->
  nth_error Start.acquisition_sequence k = Some s ->
  (forall t, In t (firstn k Start.acquisition_sequence) ->
             Start.step_fails P t = false) ->
  (Start.step_fails P s = true ->
   Start.errors (snd (Start.alloc_and_start_the_vmm P args w))
   = Start.errors (Start.entry_world P w)
     ++ StartLog.failure_message s
        :: match s with
           | Start.FanOut =>
             if Start.stop_fails P then ["stop_vmm_per_cpu failed"] else []
           | Start.Acquire _ => []
           end)
  /\ (fst (Start.alloc_and_start_the_vmm P args w) = LOADER_SUCCESS ->
      Start.errors (snd (Start.alloc_and_start_the_vmm P args w))
      = Start.errors (Start.entry_world P w)).
Proof.
  intros Hentry Hk Hbefore.
  pose proof (entry_world_not_running P w) as Hnr.
  assert (Start.g_vmm_status (Start.entry_world P w)
          = Start.VMM_STATUS_STOPPED) as Hst
    by (destruct (Start.g_vmm_status (Start.entry_world P w));
        [reflexivity | contradiction | contradiction]).
  split.
  - intros Hfail. rewrite alloc_and_start_from_entry.
    rewrite (failure_world_when_stopped P args _ k s Hst Hk Hbefore Hfail).
    reflexivity.
  - destruct (alloc_and_start_cases P args w)
      as [(Hc & ->) | [(_ & Hall & ->) | (_ & k' & s' & _ & _ & _ & ->)]];
      cbn [fst snd Start.errors].
    + intros H. now apply failure_is_not_success in H.
    + reflexivity.
    + intros H. now apply failure_is_not_success in H.
Qed.

Lemma one_line_per_failure_witness :
  Start.g_vmm_status
    (Start.entry_world (Start.cpu_2_fails true) Start.stopped_world)
    <> Start.VMM_STATUS_CORRUPT
  /\ Start.errors
       (snd (Start.alloc_and_start_the_vmm (Start.cpu_2_fails true)
               Start.happy_args Start.stopped_world))
     = ["start_vmm_per_cpu failed"; "stop_vmm_per_cpu failed"].
Proof.
  assert (Start.g_vmm_status
            (Start.entry_world (Start.cpu_2_fails true) Start.stopped_world)
          <> Start.VMM_STATUS_CORRUPT) as H by (vm_compute; discriminate).
  split; [exact H|].
  destruct (one_line_per_failure (Start.cpu_2_fails true) Start.happy_args
              Start.stopped_world 13 Start.FanOut H) as [Hlines _].
  - reflexivity.
  - intros t Ht. cbn in Ht.
    repeat (destruct Ht as [<-|Ht]; [reflexivity|]).
    destruct Ht.
  - rewrite Hlines by reflexivity. reflexivity.
Defined.

(** ** Further properties of the argument validation *)

Lemma verify_ext_elf_files_lines (MAX_SIZE : Z)
    (args : Start.start_vmm_args_t) (n : nat) :
  forall (idx : Z) (w : Start.world),
  (Start.verify_ext_elf_files MAX_SIZE args n idx w = (LOADER_SUCCESS, w))
  \/ exists line,
       Start.verify_ext_elf_files MAX_SIZE args n idx w
       = (LOADER_FAILURE, snd (Start.BFERROR line w)).
Proof.
  induction n as [|n IH]; intros idx w.
  - left. reflexivity.
  - cbn [Start.verify_ext_elf_files].
    repeat match goal with
           | |- context [if ?c then _ else _] =>
             destruct c; [right; eexists; reflexivity|]
           end.
    apply IH.
Qed.

Lemma verify_start_vmm_args_lines (MAX_SIZE MAX_EXT : Z)
    (args : Start.start_vmm_args_t) (w : Start.world) :
  Start.verify_start_vmm_args MAX_SIZE MAX_EXT args w = (LOADER_SUCCESS, w)
  \/ exists line,
       Start.verify_start_vmm_args MAX_SIZE MAX_EXT args w
       = (LOADER_FAILURE, snd (Start.BFERROR line w)).
Proof.
  unfold Start.verify_start_vmm_args.
  repeat match goal with
         | |- context [if ?c then _ else _] =>
           destruct c; [right; eexists; reflexivity|]
         end.
  apply verify_ext_elf_files_lines.
Qed.

(** X11: [verify_start_vmm_args] either accepts and leaves everything as it
    was, printing nothing, or rejects and prints exactly one line, changing
    nothing else. *)
Theorem verify_prints_one_line
    (MAX_SIZE MAX_EXT : Z) (args : Start.start_vmm_args_t)
    (w : Start.world) :
  Start.verify_start_vmm_args MAX_SIZE MAX_EXT args w = (LOADER_SUCCESS, w)
  \/ exists line,
       Start.verify_start_vmm_args MAX_SIZE MAX_EXT args w
       = (LOADER_FAILURE,
          {| Start.g_vmm_status := Start.g_vmm_status w;
             Start.epos := Start.epos w;
             Start.spos := Start.spos w;
             Start.trace := Start.trace w;
             Start.errors := Start.errors w ++ [line] |}).
Proof.
  unfold Start.verify_start_vmm_args.
  repeat match goal with
         | |- context [if ?c then _ else _] =>
           destruct c; [right; eexists; reflexivity|]
         end.
  destruct (verify_ext_elf_files_lines MAX_SIZE args
              (Z.to_nat MAX_EXT) 0 w) as [->|[line ->]].
  - left. reflexivity.
  - right. exists line. reflexivity.
Qed.

(** [start_vmm] with its binds carried out. *)
Lemma start_vmm_eq
    (P : Start.platform) (MAX_SIZE MAX_EXT : Z) (ioctl_args : Z)
    (w : Start.world) :
  Start.start_vmm P MAX_SIZE MAX_EXT ioctl_args w
  = if 0 =? ioctl_args
    then (LOADER_FAILURE,
          snd (Start.BFERROR "ioctl_args was ((void *)0)" w))
    else if Start.nonzero (fst (Start.platform_copy_from_user P ioctl_args))
    then (LOADER_FAILURE,
          snd (Start.BFERROR "platform_copy_from_user failed" w))
    else
      let v := Start.verify_start_vmm_args MAX_SIZE MAX_EXT
                 (snd (Start.platform_copy_from_user P ioctl_args)) w in
      if Start.nonzero (fst v)
      then (LOADER_FAILURE,
            snd (Start.BFERROR "verify_start_vmm_args failed" (snd v)))
      else
        let a := Start.alloc_and_start_the_vmm P
                   (snd (Start.platform_copy_from_user P ioctl_args))
                   (snd v) in
        if Start.nonzero (fst a)
        then (LOADER_FAILURE,
              snd (Start.BFERROR "alloc_and_start_the_vmm failed" (snd a)))
        else (LOADER_SUCCESS, snd a).
Proof.
  unfold Start.start_vmm.
  destruct (0 =? ioctl_args); [reflexivity|].
  destruct (Start.platform_copy_from_user P ioctl_args) as [c a].
  cbn [fst snd]. destruct (Start.nonzero c); [reflexivity|].
  unfold Start.bind at 1.
  destruct (Start.nonzero
              (fst (Start.verify_start_vmm_args MAX_SIZE MAX_EXT a w)));
    [reflexivity|].
  unfold Start.bind at 1. cbv zeta.
  destruct (Start.nonzero (fst (Start.alloc_and_start_the_vmm P a _)));
    reflexivity.
Qed.

(** X12: [start_vmm] returns [LOADER_SUCCESS] or [LOADER_FAILURE]; it
    returns success exactly when the pointer is non-null, the copy from
    user memory succeeds, the copied arguments are valid, the VMM is not
    corrupt on entry and no step of the acquisition sequence fails; and
    then the status is running. *)
Theorem start_vmm_succeeds_iff
    (P : Start.platform) (MAX_SIZE MAX_EXT : Z) (ioctl_args : Z)
    (w : Start.world) :
  0 <= MAX_EXT < 2 ^ 64 ->
  0 <= Pool.size
         (Start.mk_elf_file (snd (Start.platform_copy_from_user P ioctl_args))) ->
  let args := snd (Start.platform_copy_from_user P ioctl_args) in
  let r := Start.start_vmm P MAX_SIZE MAX_EXT ioctl_args w in
  (fst r = LOADER_SUCCESS \/ fst r = LOADER_FAILURE)
  /\ (fst r = LOADER_SUCCESS ->
      Start.g_vmm_status (snd r) = Start.VMM_STATUS_RUNNING)
  /\ (fst r = LOADER_SUCCESS <->
      ioctl_args <> 0
      /\ fst (Start.platform_copy_from_user P ioctl_args) = 0
      /\ (Start.ver args = 1
          /\ Pool.addr (Start.mk_elf_file args) <> 0
          /\ 0 < Pool.size (Start.mk_elf_file args) < MAX_SIZE
          /\ Pool.addr (Start.ext_elf_file args 0) <> 0
          /\ forall i, 0 <= i < MAX_EXT ->
               (Pool.addr (Start.ext_elf_file args i) = 0
                <-> Pool.size (Start.ext_elf_file args i) = 0)
               /\ Pool.size (Start.ext_elf_file args i) < MAX_SIZE)
      /\ Start.g_vmm_status (Start.entry_world P w)
         <> Start.VMM_STATUS_CORRUPT
      /\ forall t, In t Start.acquisition_sequence ->
                   Start.step_fails P t = false).
Proof.
  intros Hext Hsize args r. subst r.
  rewrite start_vmm_eq. fold args.
  destruct (Z.eqb_spec 0 ioctl_args) as [Hnull|Hptr].
  { cbn [fst snd]. split; [right; reflexivity|]. split.
    - intros H. now apply failure_is_not_success in H.
    - split; [intros H; now apply failure_is_not_success in H|].
      intros (H & _). congruence. }
  destruct (Start.nonzero (fst (Start.platform_copy_from_user P ioctl_args)))
    eqn:Hc.
  { apply Bool.negb_true_iff, Z.eqb_neq in Hc.
    cbn [fst snd]. split; [right; reflexivity|]. split.
    - intros H. now apply failure_is_not_success in H.
    - split; [intros H; now apply failure_is_not_success in H|].
      intros (_ & H & _). contradiction. }
  apply Bool.negb_false_iff, Z.eqb_eq in Hc.
  destruct (verify_start_vmm_args_spec MAX_SIZE MAX_EXT args w Hext Hsize)
    as (_ & _ & Hvalid).
  cbv zeta.
  destruct (verify_start_vmm_args_lines MAX_SIZE MAX_EXT args w)
    as [Hv|[line Hv]];
    rewrite Hv in *; cbn [fst snd] in *.
  - change (Start.nonzero LOADER_SUCCESS) with false. cbv iota.
    pose proof (alloc_and_start_codes P args w) as (Hcode & Hrun & Hiff).
    destruct Hcode as [Hcode|Hcode]; rewrite Hcode in *.
    + change (Start.nonzero LOADER_SUCCESS) with false. cbv iota.
      cbn [fst snd].
      split; [left; reflexivity|]. split; [intros _; now apply Hrun|].
      split; [intros _|reflexivity].
      split; [congruence|]. split; [exact Hc|].
      split; [now apply Hvalid|]. now apply Hiff.
    + change (Start.nonzero LOADER_FAILURE) with true. cbv iota.
      cbn [fst snd].
      split; [right; reflexivity|]. split.
      * intros H. now apply failure_is_not_success in H.
      * split; [intros H; now apply failure_is_not_success in H|].
        intros (_ & _ & _ & H1 & H2).
        assert (LOADER_FAILURE = LOADER_SUCCESS) as H
          by (apply Hiff; split; assumption).
        now apply failure_is_not_success in H.
  - change (Start.nonzero LOADER_FAILURE) with true. cbv iota.
    cbn [fst snd].
    split; [right; reflexivity|]. split.
    + intros H. now apply failure_is_not_success in H.
    + split; [intros H; now apply failure_is_not_success in H|].
      intros (_ & _ & H & _). apply Hvalid in H.
      now apply failure_is_not_success in H.
Qed.

Lemma start_vmm_succeeds_iff_witness :
  0 <= 1 < 2 ^ 64
  /\ 0 <= Pool.size
            (Start.mk_elf_file
               (snd (Start.platform_copy_from_user
                       (Start.cooperative Start.happy_args) 0x1000)))
  /\ fst (Start.start_vmm (Start.cooperative Start.happy_args)
            0x800000 1 0x1000 Start.stopped_world) = LOADER_SUCCESS
  /\ Start.g_vmm_status
       (snd (Start.start_vmm (Start.cooperative Start.happy_args)
               0x800000 1 0x1000 Start.stopped_world))
     = Start.VMM_STATUS_RUNNING.
Proof.
  assert (0 <= 1 < 2 ^ 64) as H1 by lia.
  assert (0 <= Pool.size
                 (Start.mk_elf_file
                    (snd (Start.platform_copy_from_user
                            (Start.cooperative Start.happy_args) 0x1000))))
    as H2 by (simpl; lia).
  destruct (start_vmm_succeeds_iff (Start.cooperative Start.happy_args)
              0x800000 1 0x1000 Start.stopped_world H1 H2)
    as (_ & Hrun & _).
  split; [exact H1|]. split; [exact H2|].
  assert (fst (Start.start_vmm (Start.cooperative Start.happy_args)
                 0x800000 1 0x1000 Start.stopped_world) = LOADER_SUCCESS)
    as Hok by (vm_compute; reflexivity).
  split; [exact Hok | exact (Hrun Hok)].
Defined.

(** ** A corrupt VMM *)

(** A start request on a corrupt VMM. *)
Lemma start_vmm_when_corrupt
    (P : Start.platform) (MAX_SIZE MAX_EXT ioctl_args : Z) (w : Start.world) :
  Start.g_vmm_status w = Start.VMM_STATUS_CORRUPT ->
  fst (Start.start_vmm P MAX_SIZE MAX_EXT ioctl_args w) = LOADER_FAILURE
  /\ Start.same_but_errors w
       (snd (Start.start_vmm P MAX_SIZE MAX_EXT ioctl_args w)).
Proof.
  intros Hst. rewrite start_vmm_eq.
  destruct (0 =? ioctl_args); [split; [reflexivity | same_world]|].
  destruct (Start.nonzero (fst (Start.platform_copy_from_user P ioctl_args)));
    [split; [reflexivity | same_world]|].
  cbv zeta.
  destruct (verify_start_vmm_args_lines MAX_SIZE MAX_EXT
              (snd (Start.platform_copy_from_user P ioctl_args)) w)
    as [Hv|[line Hv]]; rewrite Hv; cbn [fst snd].
  - change (Start.nonzero LOADER_SUCCESS) with false. cbv iota.
    rewrite (corrupt_fails_fast P _ w Hst). cbn [fst snd].
    change (Start.nonzero LOADER_FAILURE) with true. cbv iota.
    split; [reflexivity | repeat split].
  - change (Start.nonzero LOADER_FAILURE) with true. cbv iota.
    split; [reflexivity | repeat split].
Qed.

(** X9: corrupt is absorbing for start requests: from a corrupt VMM, every
    one of any sequence of calls of [start_vmm] returns [LOADER_FAILURE],
    whatever pointer it is given and however the rest of the system
    behaves, and after them the status is still corrupt, no function of the
    loader has been called (nothing is allocated, mapped or started), and
    the cursors of the debug ring are as they were: only error lines are
    added. *)
Theorem corrupt_is_absorbing
    (MAX_SIZE MAX_EXT : Z) (requests : list (Start.platform * Z))
    (w : Start.world) :
  Start.g_vmm_status w = Start.VMM_STATUS_CORRUPT ->
  length (fst (Requests.start_each MAX_SIZE MAX_EXT requests w))
  = length requests
  /\ Forall (fun code => code = LOADER_FAILURE)
            (fst (Requests.start_each MAX_SIZE MAX_EXT requests w))
  /\ Start.g_vmm_status
       (snd (Requests.start_each MAX_SIZE MAX_EXT requests w))
     = Start.VMM_STATUS_CORRUPT
  /\ Start.trace (snd (Requests.start_each MAX_SIZE MAX_EXT requests w))
     = Start.trace w
  /\ Start.epos (snd (Requests.start_each MAX_SIZE MAX_EXT requests w))
     = Start.epos w
  /\ Start.spos (snd (Requests.start_each MAX_SIZE MAX_EXT requests w))
     = Start.spos w.
Proof.
  revert w. induction requests as [|[P ioctl_args] rest IH]; intros w Hst.
  - cbn [Requests.start_each fst snd length].
    repeat split; [constructor | exact Hst].
  - destruct (start_vmm_when_corrupt P MAX_SIZE MAX_EXT ioctl_args w Hst)
      as (Hcode & Hs & He & Hp & Ht).
    cbn [Requests.start_each fst snd length].
    destruct (IH (snd (Start.start_vmm P MAX_SIZE MAX_EXT ioctl_args w)))
      as (Hlen & Hall & Hs' & Ht' & He' & Hp').
    { rewrite Hs. exact Hst. }
    split; [f_equal; exact Hlen|].
    split; [constructor; [exact Hcode | exact Hall]|].
    split; [exact Hs'|].
    split; [rewrite Ht'; exact Ht|].
    split; [rewrite He'; exact He | rewrite Hp'; exact Hp].
Qed.

Lemma corrupt_is_absorbing_witness :
  fst (Requests.start_each 0x800000 1
         [(Start.cooperative Start.happy_args, 0x1000);
          (Start.cpu_2_fails false, 0);
          (Start.cooperative Start.happy_args, 0x1000)]
         Start.corrupt_world)
  = [LOADER_FAILURE; LOADER_FAILURE; LOADER_FAILURE]
  /\ Start.g_vmm_status
       (snd (Requests.start_each 0x800000 1
               [(Start.cooperative Start.happy_args, 0x1000);
                (Start.cpu_2_fails false, 0);
                (Start.cooperative Start.happy_args, 0x1000)]
               Start.corrupt_world))
     = Start.VMM_STATUS_CORRUPT
  /\ Start.trace
       (snd (Requests.start_each 0x800000 1
               [(Start.cooperative Start.happy_args, 0x1000);
                (Start.cpu_2_fails false, 0);
                (Start.cooperative Start.happy_args, 0x1000)]
               Start.corrupt_world))
     = [].
Proof.
  destruct (corrupt_is_absorbing 0x800000 1
              [(Start.cooperative Start.happy_args, 0x1000);
               (Start.cpu_2_fails false, 0);
               (Start.cooperative Start.happy_args, 0x1000)]
              Start.corrupt_world eq_refl)
    as (_ & _ & Hs & Ht & _).
  split; [vm_compute; reflexivity|]. split; [exact Hs | exact Ht].
Defined.

(** ** Further properties of page table entries *)

Lemma testbit_pack (w v k : Z) (rest : list (Z * Z)) :
  0 <= w -> 0 <= k ->
  Z.testbit (Pte.pack ((w, v) :: rest)) k
  = if k <? w then Z.testbit v k else Z.testbit (Pte.pack rest) (k - w).
Proof.
  intros Hw Hk. cbn [Pte.pack]. bitwise.
  destruct (Z.ltb_spec k w); decide_comparisons; bool_tidy.
  - rewrite (Z.testbit_neg_r _ (k - w)) by lia. bool_tidy. reflexivity.
  - reflexivity.
Qed.

Lemma testbit_bits (off w x k : Z) :
  0 <= off -> 0 <= w -> 0 <= k ->
  Z.testbit (Pte.bits off w x) k = (k <? w) && Z.testbit x (k + off).
Proof.
  intros Hoff Hw Hk. unfold Pte.bits. bitwise.
  decide_comparisons. bool_tidy. apply Bool.andb_comm.
Qed.

Lemma pte_word_bits (e : Pte.pte_t) (k : Z) :
  0 <= k ->
  Z.testbit (Pte.pte_word e) k
  = if k <? 1 then Z.testbit (Pte.p e) k
    else if k <? 2 then Z.testbit (Pte.rw e) (k - 1)
    else if k <? 3 then Z.testbit (Pte.us e) (k - 2)
    else if k <? 4 then Z.testbit (Pte.pwt e) (k - 3)
    else if k <? 5 then Z.testbit (Pte.pcd e) (k - 4)
    else if k <? 6 then Z.testbit (Pte.a e) (k - 5)
    else if k <? 7 then Z.testbit (Pte.d e) (k - 6)
    else if k <? 8 then Z.testbit (Pte.pat e) (k - 7)
    else if k <? 9 then Z.testbit (Pte.g e) (k - 8)
    else if k <? 12 then Z.testbit (Pte.avl e) (k - 9)
    else if k <? 52 then Z.testbit (Pte.phys e) (k - 12)
    else if k <? 59 then Z.testbit (Pte.auto_release e) (k - 52)
    else if k <? 63 then Z.testbit (Pte.mpk e) (k - 59)
    else if k <? 64 then Z.testbit (Pte.nx e) (k - 63)
    else false.
Proof.
  intros Hk. unfold Pte.pte_word, Pte.bit_fields.
  repeat (rewrite testbit_pack by lia;
          match goal with
          | |- context [?a <? ?b] =>
            destruct (Z.ltb_spec a b);
            [ decide_comparisons; f_equal; lia |]
          end).
  cbn [Pte.pack]. rewrite Z.bits_0. decide_comparisons. reflexivity.
Qed.

(** X13: the word of an entry fits 64 bits; reading the fields of the word
    of an entry whose fields fit their widths gives the entry back; and
    every 64-bit word is the word of the entry read from it, so the fields
    cover all 64 bits without gap or overlap. *)
Theorem pte_word_round_trip (e : Pte.pte_t) (w : Z) :
  0 <= Pte.pte_word e < 2 ^ 64
  /\ (PteRead.fields_fit e -> PteRead.pte_of_word (Pte.pte_word e) = e)
  /\ (0 <= w < 2 ^ 64 -> Pte.pte_word (PteRead.pte_of_word w) = w).
Proof.
  split; [|split].
  - apply nonneg_of_bits; [lia|]. intros k Hk.
    rewrite pte_word_bits by lia. decide_comparisons. reflexivity.
  - intros Hfit. unfold PteRead.fields_fit, Pte.bit_fields in Hfit.
    repeat match goal with
           | H : Forall _ (_ :: _) |- _ =>
             let Hx := fresh "Hx" in
             let Hr := fresh "Hr" in
             apply Forall_cons_iff in H; destruct H as [Hx Hr];
             cbn [fst snd] in Hx
           end.
    destruct e as [p rw us pwt pcd a d pat g avl phys auto_release mpk nx].
    cbn [Pte.p Pte.rw Pte.us Pte.pwt Pte.pcd Pte.a Pte.d Pte.pat Pte.g
         Pte.avl Pte.phys Pte.auto_release Pte.mpk Pte.nx] in *.
    unfold PteRead.pte_of_word.
    f_equal;
      match goal with
      | |- Pte.bits _ ?wd _ = ?v =>
        transitivity (v mod 2 ^ wd); [| apply Z.mod_small; assumption]
      end.
    + field_after (@nil (Z * Z)).
    + field_after [(1, p)].
    + field_after [(1, p); (1, rw)].
    + field_after [(1, p); (1, rw); (1, us)].
    + field_after [(1, p); (1, rw); (1, us); (1, pwt)].
    + field_after [(1, p); (1, rw); (1, us); (1, pwt); (1, pcd)].
    + field_after [(1, p); (1, rw); (1, us); (1, pwt); (1, pcd); (1, a)].
    + field_after [(1, p); (1, rw); (1, us); (1, pwt); (1, pcd); (1, a);
                   (1, d)].
    + field_after [(1, p); (1, rw); (1, us); (1, pwt); (1, pcd); (1, a);
                   (1, d); (1, pat)].
    + field_after [(1, p); (1, rw); (1, us); (1, pwt); (1, pcd); (1, a);
                   (1, d); (1, pat); (1, g)].
    + field_after [(1, p); (1, rw); (1, us); (1, pwt); (1, pcd); (1, a);
                   (1, d); (1, pat); (1, g); (3, avl)].
    + field_after [(1, p); (1, rw); (1, us); (1, pwt); (1, pcd); (1, a);
                   (1, d); (1, pat); (1, g); (3, avl); (40, phys)].
    + field_after [(1, p); (1, rw); (1, us); (1, pwt); (1, pcd); (1, a);
                   (1, d); (1, pat); (1, g); (3, avl); (40, phys);
                   (7, auto_release)].
    + field_after [(1, p); (1, rw); (1, us); (1, pwt); (1, pcd); (1, a);
                   (1, d); (1, pat); (1, g); (3, avl); (40, phys);
                   (7, auto_release); (4, mpk)].
  - intros Hw. apply Z.bits_inj'. intros k Hk.
    rewrite pte_word_bits by lia.
    cbn [PteRead.pte_of_word Pte.p Pte.rw Pte.us Pte.pwt Pte.pcd Pte.a
         Pte.d Pte.pat Pte.g Pte.avl Pte.phys Pte.auto_release Pte.mpk
         Pte.nx].
    repeat match goal with
           | |- context [if ?a <? ?b then _ else _] =>
             destruct (Z.ltb_spec a b);
             [ rewrite testbit_bits by lia; decide_comparisons;
               cbn [andb]; f_equal; lia |]
           end.
    symmetry. apply (testbit_above w k 64); lia.
Qed.

Lemma pte_word_round_trip_witness :
  Pte.pte_word (PteRead.pte_of_word 0x8000000012345003) = 0x8000000012345003.
Proof.
  apply (pte_word_round_trip (PteRead.pte_of_word 0) 0x8000000012345003).
  lia.
Defined.

(** ** Further properties of the VMCS control fields *)

(** What [write_control_state] leaves in the VMCS. *)
Lemma write_control_state_closed_form
    (K : Vcpu.control_masks) (m : Vcpu.msrs) (this : Vcpu.vcpu)
    (s : Vcpu.vmcs) :
  let base msr :=
    Z.land (Z.land (Z.shiftr msr 0) 0x00000000FFFFFFFF)
           (Z.land (Z.shiftr msr 32) 0x00000000FFFFFFFF) in
  Vcpu.write_control_state K m this s
  = {| Vcpu.pin_based_vm_execution_controls :=
         base (Vcpu.ia32_vmx_true_pinbased_ctls m);
       Vcpu.primary_processor_based_vm_execution_controls :=
         Z.lor (Z.lor (Z.lor (base (Vcpu.ia32_vmx_true_procbased_ctls m))
                             (Vcpu.use_msr_bitmap K))
                      (Vcpu.use_io_bitmaps K))
               (Vcpu.if_allowed (Vcpu.ia32_vmx_true_procbased_ctls m)
                                (Vcpu.activate_secondary_controls K));
       Vcpu.secondary_processor_based_vm_execution_controls :=
         (if Vcpu.is_host_vcpu this then
            Z.lor
              (Z.lor
                 (Z.lor
                    (Vcpu.secondary_processor_based_vm_execution_controls s)
                    (Vcpu.if_allowed (Vcpu.ia32_vmx_procbased_ctls2 m)
                                     (Vcpu.enable_rdtscp K)))
                 (Vcpu.if_allowed (Vcpu.ia32_vmx_procbased_ctls2 m)
                                  (Vcpu.enable_invpcid K)))
              (Vcpu.if_allowed (Vcpu.ia32_vmx_procbased_ctls2 m)
                               (Vcpu.enable_xsaves_xrstors K))
          else Vcpu.secondary_processor_based_vm_execution_controls s);
       Vcpu.vm_exit_controls :=
         Z.lor
           (Z.lor
              (Z.lor
                 (Z.lor
                    (Z.lor
                       (Z.lor
                          (Z.lor (base (Vcpu.ia32_vmx_true_exit_ctls m))
                                 (Vcpu.exit_save_debug_controls K))
                          (Vcpu.exit_host_address_space_size K))
                       (Vcpu.if_allowed (Vcpu.ia32_vmx_true_exit_ctls m)
                          (Vcpu.exit_load_ia32_perf_global_ctrl K)))
                    (Vcpu.exit_save_ia32_pat K))
                 (Vcpu.exit_load_ia32_pat K))
              (Vcpu.exit_save_ia32_efer K))
           (Vcpu.exit_load_ia32_efer K);
       Vcpu.vm_entry_controls :=
         Z.lor
           (Z.lor
              (Z.lor
                 (Z.lor
                    (Z.lor (base (Vcpu.ia32_vmx_true_entry_ctls m))
                           (Vcpu.entry_load_debug_controls K))
                    (Vcpu.entry_ia_32e_mode_guest K))
                 (Vcpu.if_allowed (Vcpu.ia32_vmx_true_entry_ctls m)
                    (Vcpu.entry_load_ia32_perf_global_ctrl K)))
              (Vcpu.entry_load_ia32_pat K))
           (Vcpu.entry_load_ia32_efer K);
       Vcpu.address_of_msr_bitmap := Vcpu.m_msr_bitmap this;
       Vcpu.address_of_io_bitmap_a := Vcpu.m_io_bitmap_a this;
       Vcpu.address_of_io_bitmap_b := Vcpu.m_io_bitmap_b this |}.
Proof.
  intros base. subst base.
  unfold Vcpu.write_control_state, Vcpu.run.
  unfold Vcpu.enable_if_allowed, Vcpu.if_allowed.
  cbn [Vcpu.capability].
  destruct (Vcpu.is_host_vcpu this); cbn [app fold_left];
    repeat match goal with
           | |- context [Vcpu.allowed1 ?x ?y] => destruct (Vcpu.allowed1 x y)
           end;
    cbv [Vcpu.enable Vcpu.set Vcpu.get Vcpu.set_address_of_msr_bitmap
         Vcpu.set_address_of_io_bitmap_a Vcpu.set_address_of_io_bitmap_b
         Vcpu.pin_based_vm_execution_controls
         Vcpu.primary_processor_based_vm_execution_controls
         Vcpu.secondary_processor_based_vm_execution_controls
         Vcpu.vm_exit_controls Vcpu.vm_entry_controls
         Vcpu.address_of_msr_bitmap Vcpu.address_of_io_bitmap_a
         Vcpu.address_of_io_bitmap_b];
    rewrite ?Z.lor_0_r; reflexivity.
Qed.

Lemma lor_again (x a b c : Z) :
  Z.lor (Z.lor (Z.lor (Z.lor (Z.lor (Z.lor x a) b) c) a) b) c
  = Z.lor (Z.lor (Z.lor x a) b) c.
Proof.
  apply Z.bits_inj'. intros k _. rewrite !Z.lor_spec.
  destruct (Z.testbit x k), (Z.testbit a k), (Z.testbit b k),
           (Z.testbit c k); reflexivity.
Qed.

(** X14: [write_control_state] is idempotent: running it again on its own
    result changes nothing; the pin-based, primary, exit and entry controls
    and the three bitmap addresses it leaves are the same whatever the VMCS
    held before, in any of its fields; and two VMCSs with the same secondary
    controls are left equal in every field. *)
Theorem write_control_state_idempotent
    (K : Vcpu.control_masks) (m : Vcpu.msrs) (this : Vcpu.vcpu)
    (s s' : Vcpu.vmcs) :
  Vcpu.write_control_state K m this (Vcpu.write_control_state K m this s)
  = Vcpu.write_control_state K m this s
  /\ (Vcpu.pin_based_vm_execution_controls
        (Vcpu.write_control_state K m this s)
      = Vcpu.pin_based_vm_execution_controls
          (Vcpu.write_control_state K m this s')
      /\ Vcpu.primary_processor_based_vm_execution_controls
           (Vcpu.write_control_state K m this s)
         = Vcpu.primary_processor_based_vm_execution_controls
             (Vcpu.write_control_state K m this s')
      /\ Vcpu.vm_exit_controls (Vcpu.write_control_state K m this s)
         = Vcpu.vm_exit_controls (Vcpu.write_control_state K m this s')
      /\ Vcpu.vm_entry_controls (Vcpu.write_control_state K m this s)
         = Vcpu.vm_entry_controls (Vcpu.write_control_state K m this s')
      /\ Vcpu.address_of_msr_bitmap (Vcpu.write_control_state K m this s)
         = Vcpu.address_of_msr_bitmap (Vcpu.write_control_state K m this s')
      /\ Vcpu.address_of_io_bitmap_a (Vcpu.write_control_state K m this s)
         = Vcpu.address_of_io_bitmap_a (Vcpu.write_control_state K m this s')
      /\ Vcpu.address_of_io_bitmap_b (Vcpu.write_control_state K m this s)
         = Vcpu.address_of_io_bitmap_b
             (Vcpu.write_control_state K m this s'))
  /\ (Vcpu.secondary_processor_based_vm_execution_controls s
      = Vcpu.secondary_processor_based_vm_execution_controls s' ->
      Vcpu.write_control_state K m this s
      = Vcpu.write_control_state K m this s').
Proof.
  rewrite !write_control_state_closed_form. cbv zeta. split; [|split].
  - cbn [Vcpu.secondary_processor_based_vm_execution_controls].
    destruct (Vcpu.is_host_vcpu this); [|reflexivity].
    rewrite lor_again. reflexivity.
  - repeat split.
  - intros ->. reflexivity.
Qed.

Lemma write_control_state_idempotent_witness :
  Vcpu.write_control_state Vcpu.intel_masks Vcpu.example_msrs Vcpu.host_vcpu
    Vcpu.cleared_vmcs
  = Vcpu.write_control_state Vcpu.intel_masks Vcpu.example_msrs Vcpu.host_vcpu
      {| Vcpu.pin_based_vm_execution_controls := 0xFFFF;
         Vcpu.primary_processor_based_vm_execution_controls := 0xFFFF;
         Vcpu.secondary_processor_based_vm_execution_controls := 0;
         Vcpu.vm_exit_controls := 0xFFFF;
         Vcpu.vm_entry_controls := 0xFFFF;
         Vcpu.address_of_msr_bitmap := 1;
         Vcpu.address_of_io_bitmap_a := 2;
         Vcpu.address_of_io_bitmap_b := 3 |}.
Proof.
  apply (write_control_state_idempotent Vcpu.intel_masks Vcpu.example_msrs
           Vcpu.host_vcpu Vcpu.cleared_vmcs).
  reflexivity.
Defined.

Lemma within_lor (a b h : Z) :
  VmxRule.within a h -> VmxRule.within b h -> VmxRule.within (Z.lor a b) h.
Proof.
  unfold VmxRule.within. intros Ha Hb.
  rewrite Z.land_lor_distr_l, Ha, Hb. reflexivity.
Qed.

Lemma within_lor_keeps (a x b : Z) :
  VmxRule.within a x -> VmxRule.within a (Z.lor x b).
Proof.
  unfold VmxRule.within. intros Ha.
  apply Z.bits_inj'. intros k _.
  apply (f_equal (fun z => Z.testbit z k)) in Ha.
  rewrite Z.land_spec in Ha. rewrite Z.land_spec, Z.lor_spec.
  destruct (Z.testbit a k), (Z.testbit x k), (Z.testbit b k);
    try reflexivity; discriminate.
Qed.

Lemma within_land (l h : Z) : VmxRule.within (Z.land l h) h.
Proof.
  unfold VmxRule.within. rewrite <- Z.land_assoc, Z.land_diag. reflexivity.
Qed.

Lemma within_refl (a : Z) : VmxRule.within a a.
Proof. apply Z.land_diag. Qed.

Lemma high32_shiftr (msr : Z) : Z.shiftr msr 32 = Vcpu.high32 msr.
Proof. unfold Vcpu.high32. apply Z.shiftr_div_pow2. lia. Qed.

Lemma within_if_allowed (msr mask : Z) :
  VmxRule.single_bit mask ->
  VmxRule.within (Vcpu.if_allowed msr mask) (Vcpu.high32 msr).
Proof.
  intros (k & Hk & ->). unfold Vcpu.if_allowed, Vcpu.allowed1.
  rewrite high32_shiftr, land_pow2_eqb, Bool.negb_involutive by lia.
  unfold VmxRule.within.
  destruct (Z.testbit (Vcpu.high32 msr) k) eqn:Hbit.
  - rewrite Z.land_comm, land_pow2, Hbit by lia. reflexivity.
  - apply Z.land_0_l.
Qed.

(** X15: when the low half of each capability MSR lies within its high
    half, every control that [write_control_state] enables unconditionally
    is allowed by the high half, and the controls it enables only if
    allowed are single bits, then the pin-based, primary, exit and entry
    controls it writes obey the rule of the MSR: every bit of the low half
    is set and no bit outside the high half is. *)
Theorem write_control_state_obeys_capabilities
    (K : Vcpu.control_masks) (m : Vcpu.msrs) (this : Vcpu.vcpu)
    (s : Vcpu.vmcs) :
  let pin := Vcpu.ia32_vmx_true_pinbased_ctls m in
  let proc := Vcpu.ia32_vmx_true_procbased_ctls m in
  let exit := Vcpu.ia32_vmx_true_exit_ctls m in
  let entry := Vcpu.ia32_vmx_true_entry_ctls m in
  (0 <= pin < 2 ^ 64 /\ 0 <= proc < 2 ^ 64
   /\ 0 <= exit < 2 ^ 64 /\ 0 <= entry < 2 ^ 64) ->
  (VmxRule.within (Vcpu.low32 pin) (Vcpu.high32 pin)
   /\ VmxRule.within (Vcpu.low32 proc) (Vcpu.high32 proc)
   /\ VmxRule.within (Vcpu.low32 exit) (Vcpu.high32 exit)
   /\ VmxRule.within (Vcpu.low32 entry) (Vcpu.high32 entry)) ->
  (VmxRule.within (Vcpu.use_msr_bitmap K) (Vcpu.high32 proc)
   /\ VmxRule.within (Vcpu.use_io_bitmaps K) (Vcpu.high32 proc)) ->
  (VmxRule.within (Vcpu.exit_save_debug_controls K) (Vcpu.high32 exit)
   /\ VmxRule.within (Vcpu.exit_host_address_space_size K) (Vcpu.high32 exit)
   /\ VmxRule.within (Vcpu.exit_save_ia32_pat K) (Vcpu.high32 exit)
   /\ VmxRule.within (Vcpu.exit_load_ia32_pat K) (Vcpu.high32 exit)
   /\ VmxRule.within (Vcpu.exit_save_ia32_efer K) (Vcpu.high32 exit)
   /\ VmxRule.within (Vcpu.exit_load_ia32_efer K) (Vcpu.high32 exit)) ->
  (VmxRule.within (Vcpu.entry_load_debug_controls K) (Vcpu.high32 entry)
   /\ VmxRule.within (Vcpu.entry_ia_32e_mode_guest K) (Vcpu.high32 entry)
   /\ VmxRule.within (Vcpu.entry_load_ia32_pat K) (Vcpu.high32 entry)
   /\ VmxRule.within (Vcpu.entry_load_ia32_efer K) (Vcpu.high32 entry)) ->
  (VmxRule.single_bit (Vcpu.activate_secondary_controls K)
   /\ VmxRule.single_bit (Vcpu.exit_load_ia32_perf_global_ctrl K)
   /\ VmxRule.single_bit (Vcpu.entry_load_ia32_perf_global_ctrl K)) ->
  let s' := Vcpu.write_control_state K m this s in
  VmxRule.obeys pin (Vcpu.pin_based_vm_execution_controls s')
  /\ VmxRule.obeys proc (Vcpu.primary_processor_based_vm_execution_controls s')
  /\ VmxRule.obeys exit (Vcpu.vm_exit_controls s')
  /\ VmxRule.obeys entry (Vcpu.vm_entry_controls s').
Proof.
  intros pin proc exit entry (Rpin & Rproc & Rexit & Rentry)
         (Cpin & Cproc & Cexit & Centry) (P1 & P2)
         (X1 & X2 & X3 & X4 & X5 & X6) (E1 & E2 & E3 & E4)
         (S1 & S2 & S3) s'.
  subst s'. rewrite write_control_state_closed_form. cbv zeta.
  cbn [Vcpu.pin_based_vm_execution_controls
       Vcpu.primary_processor_based_vm_execution_controls
       Vcpu.vm_exit_controls Vcpu.vm_entry_controls].
  fold pin proc exit entry.
  rewrite (low_and_high pin Rpin), (low_and_high proc Rproc),
          (low_and_high exit Rexit), (low_and_high entry Rentry).
  rewrite Cpin, Cproc, Cexit, Centry.
  unfold VmxRule.obeys.
  repeat match goal with |- _ /\ _ => split end;
    repeat first
      [ assumption
      | apply within_refl
      | apply within_if_allowed; assumption
      | apply within_lor_keeps
      | apply within_lor ].
Qed.

Lemma write_control_state_obeys_capabilities_witness :
  VmxRule.obeys (Vcpu.ia32_vmx_true_procbased_ctls Vcpu.example_msrs)
    (Vcpu.primary_processor_based_vm_execution_controls
       (Vcpu.write_control_state Vcpu.intel_masks Vcpu.example_msrs
          Vcpu.host_vcpu Vcpu.cleared_vmcs))
  /\ VmxRule.obeys (Vcpu.ia32_vmx_true_exit_ctls Vcpu.example_msrs)
       (Vcpu.vm_exit_controls
          (Vcpu.write_control_state Vcpu.intel_masks Vcpu.example_msrs
             Vcpu.host_vcpu Vcpu.cleared_vmcs)).
Proof.
  destruct (write_control_state_obeys_capabilities Vcpu.intel_masks
              Vcpu.example_msrs Vcpu.host_vcpu Vcpu.cleared_vmcs)
    as (_ & Hproc & Hexit & _).
  - cbn. lia.
  - repeat split; vm_compute; reflexivity.
  - repeat split; vm_compute; reflexivity.
  - repeat split; vm_compute; reflexivity.
  - repeat split; vm_compute; reflexivity.
  - split; [|split].
    + exists 31. split; [lia | reflexivity].
    + exists 12. split; [lia | reflexivity].
    + exists 13. split; [lia | reflexivity].
  - split; [exact Hproc | exact Hexit].
Defined.

(** ** Walking the guest's page tables *)

Section WalkFacts.

Import Walk.

Variable H : helpers.
Variable g : guest.

(** An aligned address and the low bits of another share no bit, so their
    union has the offset of the second. *)
Lemma lor_aligned_offset (a x n : Z) :
  0 <= n -> a mod 2 ^ n = 0 ->
  Z.lor a (Z.land x (Z.ones n)) mod 2 ^ n = x mod 2 ^ n.
Proof.
  intros Hn Ha.
  rewrite <- !Z.land_ones by exact Hn.
  rewrite Z.land_lor_distr_l.
  rewrite <- Z.land_assoc, Z.land_diag.
  rewrite (Z.land_ones a) by exact Hn.
  rewrite Ha. apply Z.lor_0_l.
Qed.

Lemma mod_pow2_le (a b m n : Z) :
  0 <= m <= n -> a mod 2 ^ n = b mod 2 ^ n -> a mod 2 ^ m = b mod 2 ^ m.
Proof.
  intros Hmn Hab.
  assert (Hd : forall x, (x mod 2 ^ n) mod 2 ^ m = x mod 2 ^ m).
  { intros x. apply Z.mod_mod_divide.
    exists (2 ^ (n - m)). rewrite <- Z.pow_add_r by lia.
    f_equal. lia. }
  rewrite <- (Hd a), <- (Hd b), Hab. reflexivity.
Qed.

(** The ways a walk returns: with paging off, or at a present entry of one
    of the three levels that map a page. *)
Lemma gva_to_gpa_returns (gva gpa from : Z) :
  gva_to_gpa H g gva = Returns (gpa, from) ->
  (paging_is_disabled g = true /\ gpa = gva /\ from = 0)
  \/ (paging_is_disabled g = false /\
      ((exists e, pdpt_ps H e = true /\ from = pdpt_from H /\
                  gpa = Z.lor (pdpt_phys_addr H e) (lower H gva from))
       \/ (exists e, pd_ps H e = true /\ from = pd_from H /\
                     gpa = Z.lor (pd_phys_addr H e) (lower H gva from))
       \/ (exists e, from = pt_from H /\
                     gpa = Z.lor (pt_phys_addr H e) (lower H gva from)))).
Proof.
  unfold gva_to_gpa.
  destruct (paging_is_disabled g).
  { intros E. injection E as <- <-. left. auto. }
  intros E. right. split; [reflexivity|].
  destruct (get_entry H g (upper H (cr3 g)) (pml4_index H gva))
    as [pml4_pte| |]; cbn [and_then] in E; try discriminate.
  destruct (pml4_present H pml4_pte); cbn [negb] in E; try discriminate.
  destruct (get_entry H g (pml4_phys_addr H pml4_pte) (pdpt_index H gva))
    as [pdpt_pte| |]; cbn [and_then] in E; try discriminate.
  destruct (pdpt_present H pdpt_pte); cbn [negb] in E; try discriminate.
  destruct (pdpt_ps H pdpt_pte) eqn:Hps1.
  { injection E as <- <-. left. exists pdpt_pte. auto. }
  destruct (get_entry H g (pdpt_phys_addr H pdpt_pte) (pd_index H gva))
    as [pd_pte| |]; cbn [and_then] in E; try discriminate.
  destruct (pd_present H pd_pte); cbn [negb] in E; try discriminate.
  destruct (pd_ps H pd_pte) eqn:Hps2.
  { injection E as <- <-. right. left. exists pd_pte. auto. }
  destruct (get_entry H g (pd_phys_addr H pd_pte) (pt_index H gva))
    as [pt_pte| |]; cbn [and_then] in E; try discriminate.
  destruct (pt_present H pt_pte); cbn [negb] in E; try discriminate.
  injection E as <- <-. right. right. exists pt_pte. auto.
Qed.

Lemma gva_to_gpa_offset (gva gpa from : Z) :
  lawful H ->
  gva_to_gpa H g gva = Returns (gpa, from) ->
  0 <= from /\ gpa mod 2 ^ from = gva mod 2 ^ from.
Proof.
  intros L E.
  destruct (gva_to_gpa_returns _ _ _ E)
    as [(_ & -> & ->)
       |(_ & [(e & Hps & -> & ->)|[(e & Hps & -> & ->)|(e & -> & ->)]])].
  - split; [lia | reflexivity].
  - split; [apply (pdpt_from_nonneg H L)|].
    rewrite (lower_keeps_low_bits H L).
    apply lor_aligned_offset;
      [apply (pdpt_from_nonneg H L) | apply (pdpt_page_aligned H L), Hps].
  - split; [apply (pd_from_nonneg H L)|].
    rewrite (lower_keeps_low_bits H L).
    apply lor_aligned_offset;
      [apply (pd_from_nonneg H L) | apply (pd_page_aligned H L), Hps].
  - split; [apply (pt_from_nonneg H L)|].
    rewrite (lower_keeps_low_bits H L).
    apply lor_aligned_offset;
      [apply (pt_from_nonneg H L) | apply (pt_page_aligned H L)].
Qed.

End WalkFacts.

Lemma x64_lawful : Walk.lawful Walk.x64.
Proof.
  split; cbn.
  - reflexivity.
  - lia.
  - lia.
  - lia.
  - intros e ->. rewrite <- Z.land_ones by lia.
    rewrite <- Z.land_assoc. change (Z.land 0x000FFFFFC0000000 (Z.ones 30)) with 0.
    apply Z.land_0_r.
  - intros e ->. rewrite <- Z.land_ones by lia.
    rewrite <- Z.land_assoc. change (Z.land 0x000FFFFFFFE00000 (Z.ones 21)) with 0.
    apply Z.land_0_r.
  - intros e. rewrite <- Z.land_ones by lia.
    rewrite <- Z.land_assoc. change (Z.land 0x000FFFFFFFFFF000 (Z.ones 12)) with 0.
    apply Z.land_0_r.
Qed.

(** X16: An address that [vcpu::gva_to_gpa] returns has the offset of the
    virtual address within a page of the size returned with it, whichever
    level of the guest's tables maps the page, and the whole address when
    the guest has paging off (size 0); this for helpers that are what their
    names say. *)
Theorem gva_to_gpa_keeps_offset (H : Walk.helpers) (g : Walk.guest)
    (gva gpa from : Z) :
  Walk.lawful H ->
  Walk.gva_to_gpa H g gva = Walk.Returns (gpa, from) ->
  0 <= from
  /\ gpa mod 2 ^ from = gva mod 2 ^ from
  /\ (Walk.paging_is_disabled g = true -> gpa = gva /\ from = 0)
  /\ (Walk.paging_is_disabled g = false ->
      from = Walk.pdpt_from H \/ from = Walk.pd_from H
      \/ from = Walk.pt_from H).
Proof.
  intros L E.
  destruct (gva_to_gpa_offset H g _ _ _ L E) as [Hf Ho].
  split; [exact Hf|]. split; [exact Ho|].
  destruct (gva_to_gpa_returns H g _ _ _ E)
    as [(Hd & -> & ->)
       |(Hd & [(e & _ & Hfrom & _)|[(e & _ & Hfrom & _)|(e & Hfrom & _)]])];
    rewrite Hd; split; intros Hx; try discriminate; auto.
Qed.

Lemma gva_to_gpa_keeps_offset_witness :
  Walk.gva_to_gpa Walk.x64 Walk.small_guest 0x201234
  = Walk.Returns (0x5234, 12)
  /\ 0x5234 mod 2 ^ 12 = 0x201234 mod 2 ^ 12.
Proof.
  split; [vm_compute; reflexivity|].
  apply (gva_to_gpa_keeps_offset Walk.x64 Walk.small_guest 0x201234 0x5234 12).
  - exact x64_lawful.
  - vm_compute. reflexivity.
Defined.

(** X17: [vcpu::gva_to_hpa] returns the size of the EPT page, not of the
    guest's: through an EPT map that translates within pages, the host
    address it returns is the map's translation of the guest-physical
    address of the walk, and agrees with the virtual address on the offset
    in the smaller of the guest's page and the EPT page; without a map it
    returns what the walk returns. *)
Theorem gva_to_hpa_keeps_offset (H : Walk.helpers) (g : Walk.guest)
    (gva hpa size : Z) :
  Walk.lawful H ->
  (forall v, Walk.m_mmap g = Some v -> Walk.keeps_offsets v) ->
  Walk.gva_to_hpa H g gva = Walk.Returns (hpa, size) ->
  exists gpa from,
    Walk.gva_to_gpa H g gva = Walk.Returns (gpa, from)
    /\ (Walk.m_mmap g = None -> hpa = gpa /\ size = from)
    /\ (forall v, Walk.m_mmap g = Some v -> v gpa = Walk.Returns (hpa, size))
    /\ hpa mod 2 ^ Z.min size from = gva mod 2 ^ Z.min size from.
Proof.
  intros L Hept E. unfold Walk.gva_to_hpa in E.
  destruct (Walk.gva_to_gpa H g gva) as [[gpa from]| |] eqn:Eg;
    cbn [Walk.and_then] in E; try discriminate.
  destruct (gva_to_gpa_offset H g _ _ _ L Eg) as [Hf Ho].
  exists gpa, from. split; [reflexivity|].
  unfold Walk.gpa_to_hpa in *.
  destruct (Walk.m_mmap g) as [v|] eqn:Em.
  - cbn [fst] in E.
    split; [intros Hn; discriminate|].
    split; [intros v' Hv'; injection Hv' as <-; exact E|].
    destruct (Hept v eq_refl _ _ _ E) as [Hs Hh].
    transitivity (gpa mod 2 ^ Z.min size from).
    + apply (mod_pow2_le _ _ _ size); [lia | exact Hh].
    + apply (mod_pow2_le _ _ _ from); [lia | exact Ho].
  - injection E as <- <-.
    split; [intros _; split; reflexivity|].
    split; [intros v' Hv'; discriminate|].
    rewrite Z.min_id. exact Ho.
Qed.

Lemma gva_to_hpa_keeps_offset_witness :
  exists gpa from,
    Walk.gva_to_gpa Walk.x64 Walk.small_guest_with_ept 0x201234
    = Walk.Returns (gpa, from)
    /\ (Walk.m_mmap Walk.small_guest_with_ept = None
        -> 0x5234 = gpa /\ 21 = from)
    /\ (forall v, Walk.m_mmap Walk.small_guest_with_ept = Some v ->
                  v gpa = Walk.Returns (0x5234, 21))
    /\ 0x5234 mod 2 ^ Z.min 21 from = 0x201234 mod 2 ^ Z.min 21 from.
Proof.
  apply (gva_to_hpa_keeps_offset Walk.x64 Walk.small_guest_with_ept
           0x201234 0x5234 21).
  - exact x64_lawful.
  - intros v Hv. injection Hv as <-.
    intros gpa hpa from Hr. injection Hr as <- <-. split; [lia | reflexivity].
  - vm_compute. reflexivity.
Defined.

(** ** The host state shared by every vCPU *)

Lemma within_lor_absorbs (mask reg : Z) :
  VmxRule.within mask reg -> Z.lor reg mask = reg.
Proof.
  unfold VmxRule.within. intros Hm.
  apply Z.bits_inj'. intros k _.
  apply (f_equal (fun z => Z.testbit z k)) in Hm.
  rewrite Z.land_spec in Hm. rewrite Z.lor_spec.
  destruct (Z.testbit mask k), (Z.testbit reg k);
    try reflexivity; discriminate.
Qed.

Section SetupFacts.

Import Setup.

Lemma within_or_all (l : list Z) (a reg : Z) :
  VmxRule.within a reg -> VmxRule.within a (or_all reg l).
Proof.
  unfold or_all. revert reg.
  induction l as [|x l IH]; intros reg Hw; cbn [fold_left]; [exact Hw|].
  apply IH, within_lor_keeps, Hw.
Qed.

Lemma or_all_contains (l : list Z) (reg mask : Z) :
  In mask l -> VmxRule.within mask (or_all reg l).
Proof.
  unfold or_all. revert reg.
  induction l as [|x l IH]; intros reg Hin; [destruct Hin|].
  cbn [fold_left]. destruct Hin as [->|Hin].
  - apply within_or_all. rewrite Z.lor_comm.
    apply within_lor_keeps, within_refl.
  - apply IH, Hin.
Qed.

Lemma or_all_app (l1 l2 : list Z) (reg : Z) :
  or_all reg (l1 ++ l2) = or_all (or_all reg l1) l2.
Proof. unfold or_all. apply fold_left_app. Qed.

(** A mask already in a register is absorbed. *)
Lemma or_all_absorbs (l : list Z) (reg : Z) :
  Forall (fun mask => VmxRule.within mask reg) l -> or_all reg l = reg.
Proof.
  unfold or_all. induction 1 as [|x l Hx _ IH]; cbn [fold_left]; [reflexivity|].
  rewrite (within_lor_absorbs _ _ Hx). exact IH.
Qed.

Lemma or_all_again (l : list Z) (reg : Z) :
  or_all (or_all reg l) l = or_all reg l.
Proof.
  apply or_all_absorbs, List.Forall_forall. intros mask Hin.
  apply or_all_contains, Hin.
Qed.

Variable m : masks.
Variable cpu : cpuid.
Variable MEMORY_TYPE_R MEMORY_TYPE_E : Z.
Variable descriptors : list memory_descriptor.
Variable root_cr3 root_pat : list map_4k_call -> Z.

Let run := setup m cpu MEMORY_TYPE_R MEMORY_TYPE_E descriptors root_cr3 root_pat.

Lemma setup_efer (s : globals) :
  g_ia32_efer_msr (run s) = or_all (g_ia32_efer_msr s) (efer_masks m).
Proof. reflexivity. Qed.

Lemma setup_cr0 (s : globals) :
  g_cr0_reg (run s) = or_all (g_cr0_reg s) (cr0_masks m).
Proof. reflexivity. Qed.

Lemma setup_cr4 (s : globals) :
  g_cr4_reg (run s) = or_all (g_cr4_reg s) (cr4_masks m cpu).
Proof.
  unfold run, setup, cr4_masks. cbn [g_cr4_reg].
  destruct (xsave_is_enabled cpu), (smep_is_enabled cpu),
    (smap_is_enabled cpu);
    cbv beta iota delta [or_all fold_left app]; reflexivity.
Qed.

Lemma setup_root (s : globals) :
  g_cr3 (run s) = g_cr3 s ++ map (map_descriptor MEMORY_TYPE_R MEMORY_TYPE_E)
                                  descriptors.
Proof.
  unfold run, setup. cbn [g_cr3].
  generalize (g_cr3 s) as calls.
  induction descriptors as [|md l IH]; intros calls; cbn [fold_left map].
  - symmetry. apply app_nil_r.
  - rewrite IH, <- app_assoc. reflexivity.
Qed.

End SetupFacts.

(** X18: [setup] only sets bits of CR0, CR4 and EFER: every bit set before
    stays set, every mask it names is set after (those of XSAVE, SMEP and
    SMAP when the processor reports the feature), and running it again
    leaves the three registers as they are. *)
Theorem setup_only_sets_bits (m : Setup.masks) (cpu : Setup.cpuid)
    (R E : Z) (descriptors : list Setup.memory_descriptor)
    (root_cr3 root_pat : list Setup.map_4k_call -> Z) (s : Setup.globals) :
  (VmxRule.within
     (Setup.g_cr0_reg s)
     (Setup.g_cr0_reg
        (Setup.setup m cpu R E descriptors root_cr3 root_pat s))
   /\ VmxRule.within
        (Setup.g_cr4_reg s)
        (Setup.g_cr4_reg
           (Setup.setup m cpu R E descriptors root_cr3 root_pat s))
   /\ VmxRule.within
        (Setup.g_ia32_efer_msr s)
        (Setup.g_ia32_efer_msr
           (Setup.setup m cpu R E descriptors root_cr3 root_pat s)))
  /\ (Forall (fun mask =>
                VmxRule.within mask
                  (Setup.g_cr0_reg
                     (Setup.setup m cpu R E descriptors root_cr3 root_pat
                        s)))
             (Setup.cr0_masks m)
      /\ Forall (fun mask =>
                   VmxRule.within mask
                     (Setup.g_cr4_reg
                        (Setup.setup m cpu R E descriptors root_cr3 root_pat
                           s)))
                (Setup.cr4_masks m cpu)
      /\ Forall (fun mask =>
                   VmxRule.within mask
                     (Setup.g_ia32_efer_msr
                        (Setup.setup m cpu R E descriptors root_cr3 root_pat
                           s)))
                (Setup.efer_masks m))
  /\ (Setup.g_cr0_reg
        (Setup.setup m cpu R E descriptors root_cr3 root_pat
           (Setup.setup m cpu R E descriptors root_cr3 root_pat s))
      = Setup.g_cr0_reg
          (Setup.setup m cpu R E descriptors root_cr3 root_pat s)
      /\ Setup.g_cr4_reg
           (Setup.setup m cpu R E descriptors root_cr3 root_pat
              (Setup.setup m cpu R E descriptors root_cr3 root_pat s))
         = Setup.g_cr4_reg
             (Setup.setup m cpu R E descriptors root_cr3 root_pat s)
      /\ Setup.g_ia32_efer_msr
           (Setup.setup m cpu R E descriptors root_cr3 root_pat
              (Setup.setup m cpu R E descriptors root_cr3 root_pat s))
         = Setup.g_ia32_efer_msr
             (Setup.setup m cpu R E descriptors root_cr3 root_pat s)).
Proof.
  rewrite !setup_cr0, !setup_cr4, !setup_efer.
  split; [|split].
  - repeat split; apply within_or_all, within_refl.
  - repeat split; apply List.Forall_forall; intros mask Hin;
      apply or_all_contains, Hin.
  - repeat split; apply or_all_again.
Qed.

(** X19: [setup] maps every descriptor of the memory manager once, in
    their order and after the mappings already made, at the descriptor's
    addresses; the mapping is executable exactly when the type is
    [MEMORY_TYPE_R | MEMORY_TYPE_E] and writable for every other type, so
    also for a type that has the execute bit beside others; CR3 and PAT are
    then read from the root page table with these mappings made. *)
Theorem setup_maps_each_descriptor (m : Setup.masks) (cpu : Setup.cpuid)
    (R E : Z) (descriptors : list Setup.memory_descriptor)
    (root_cr3 root_pat : list Setup.map_4k_call -> Z) (s : Setup.globals) :
  exists calls,
    Setup.g_cr3 (Setup.setup m cpu R E descriptors root_cr3 root_pat s)
    = Setup.g_cr3 s ++ calls
    /\ Forall2 (fun md call =>
                  Setup.map_virt call = Setup.virt md
                  /\ Setup.map_phys call = Setup.phys md
                  /\ (Setup.map_attr call = Setup.read_execute
                      <-> Setup.type md = Z.lor R E)
                  /\ (Setup.map_attr call = Setup.read_write
                      <-> Setup.type md <> Z.lor R E))
               descriptors calls
    /\ Setup.g_cr3_reg (Setup.setup m cpu R E descriptors root_cr3 root_pat s)
       = root_cr3 (Setup.g_cr3 s ++ calls)
    /\ Setup.g_ia32_pat_msr
         (Setup.setup m cpu R E descriptors root_cr3 root_pat s)
       = root_pat (Setup.g_cr3 s ++ calls).
Proof.
  exists (map (Setup.map_descriptor R E) descriptors).
  split; [apply setup_root|].
  split; [|split; rewrite <- (setup_root m cpu R E descriptors root_cr3
                                root_pat s); reflexivity].
  induction descriptors as [|md l IH]; cbn [map]; constructor; [|exact IH].
  unfold Setup.map_descriptor.
  destruct (Z.eqb_spec (Setup.type md) (Z.lor R E)) as [He|He];
    cbn [Setup.map_virt Setup.map_phys Setup.map_attr];
    repeat split; try reflexivity; try discriminate; try congruence;
    intros; try exact He; try contradiction.
Qed.

(** ** Printing the extensions *)

Section DumpFacts.

Import Dump.

Variable MAX : Z.

Lemma dump_from_lines (files : list Pool.span_t) (n i : nat) :
  Z.of_nat i + Z.of_nat n <= MAX -> MAX <= 2 ^ 32 ->
  dump_from MAX files n (Z.of_nat i) = flat_map (lines_of files) (seq i n).
Proof.
  revert i. induction n as [|n IH]; intros i Hi Hmax; [reflexivity|].
  cbn [dump_from seq flat_map].
  destruct (Z.ltb_spec (Z.of_nat i) MAX) as [Hlt|Hge]; [|lia].
  assert (Hu32 : u32 (Z.of_nat i) = Z.of_nat i)
    by (unfold u32; apply Z.mod_small; lia).
  assert (Hu64 : u64 (Z.of_nat i + 1) = Z.of_nat (S i)).
  { unfold u64. rewrite Z.mod_small; lia. }
  rewrite Hu32, Hu64, IH by lia. reflexivity.
Qed.

End DumpFacts.

(** X20: [dump_ext_elf_files] prints three lines for each slot of the
    array whose address is not null, in the order of the slots, with the
    index of the slot, and nothing for a slot whose address is null,
    whatever its size; this when the number of slots fits the 32 bits the
    index is printed with. *)
Theorem dump_ext_elf_files_lines (MAX : Z) (files : list Pool.span_t) :
  0 <= MAX <= 2 ^ 32 ->
  Dump.dump_ext_elf_files MAX files
  = flat_map (Dump.lines_of files) (seq 0 (Z.to_nat MAX))
  /\ Z.of_nat (length (Dump.dump_ext_elf_files MAX files))
     = 3 * Z.of_nat (length (List.filter (fun i => negb (0 =? Pool.addr (Dump.file files (Z.of_nat i))))
                         (seq 0 (Z.to_nat MAX)))).
Proof.
  intros HM.
  assert (E : Dump.dump_ext_elf_files MAX files
              = flat_map (Dump.lines_of files) (seq 0 (Z.to_nat MAX))).
  { unfold Dump.dump_ext_elf_files.
    apply (dump_from_lines MAX files (Z.to_nat MAX) 0); lia. }
  split; [exact E|]. rewrite E. clear E.
  induction (seq 0 (Z.to_nat MAX)) as [|i l IH]; [reflexivity|].
  cbn [flat_map List.filter]. rewrite length_app.
  unfold Dump.lines_of at 1.
  destruct (negb (0 =? Pool.addr (Dump.file files (Z.of_nat i))));
    cbn [length]; lia.
Qed.

Lemma dump_ext_elf_files_lines_witness :
  Dump.dump_ext_elf_files 3 Dump.two_files
  = flat_map (Dump.lines_of Dump.two_files) (seq 0 (Z.to_nat 3))
  /\ Z.of_nat (length (Dump.dump_ext_elf_files 3 Dump.two_files))
     = 3 * Z.of_nat
             (length
                (List.filter
                   (fun i =>
                      negb (0 =? Pool.addr
                                   (Dump.file Dump.two_files (Z.of_nat i))))
                   (seq 0 (Z.to_nat 3)))).
Proof.
  apply (dump_ext_elf_files_lines 3 Dump.two_files). lia.
Defined.

(** ** How a walk fails *)

Section WalkFailures.

Import Walk.

Variable H : helpers.
Variable g : guest.

Hypothesis pml4_index_in_range :
  forall v, 0 <= pml4_index H v < num_entries H.
Hypothesis pdpt_index_in_range :
  forall v, 0 <= pdpt_index H v < num_entries H.
Hypothesis pd_index_in_range : forall v, 0 <= pd_index H v < num_entries H.
Hypothesis pt_index_in_range : forall v, 0 <= pt_index H v < num_entries H.
Hypothesis tables_can_be_mapped :
  forall a, exists tble, map_gpa_4k g a = Returns tble.

Lemma get_entry_table (tble_gpa index : Z) :
  0 <= index < num_entries H ->
  get_entry H g tble_gpa index = Returns (table g tble_gpa index).
Proof.
  intros Hi. unfold get_entry, table.
  destruct (tables_can_be_mapped tble_gpa) as [tble ->]. cbn [and_then].
  destruct (Z.leb_spec 0 index); [|lia].
  destruct (Z.ltb_spec index (num_entries H)); [|lia].
  reflexivity.
Qed.

(** The walk, with the reads of the tables resolved. *)
Lemma gva_to_gpa_walk (gva : Z) :
  paging_is_disabled g = false ->
  gva_to_gpa H g gva
  = if negb (pml4_present H (pml4_pte H g gva)) then
      Throws "pml4_pte is not present"
    else if negb (pdpt_present H (pdpt_pte H g gva)) then
      Throws "pdpt_pte is not present"
    else if pdpt_ps H (pdpt_pte H g gva) then
      Returns (Z.lor (pdpt_phys_addr H (pdpt_pte H g gva))
                     (lower H gva (pdpt_from H)), pdpt_from H)
    else if negb (pd_present H (pd_pte H g gva)) then
      Throws "pd_pte is not present"
    else if pd_ps H (pd_pte H g gva) then
      Returns (Z.lor (pd_phys_addr H (pd_pte H g gva))
                     (lower H gva (pd_from H)), pd_from H)
    else if negb (pt_present H (pt_pte H g gva)) then
      Throws "pt_pte is not present"
    else
      Returns (Z.lor (pt_phys_addr H (pt_pte H g gva))
                     (lower H gva (pt_from H)), pt_from H).
Proof.
  intros Hon. unfold gva_to_gpa. rewrite Hon.
  rewrite (get_entry_table _ _ (pml4_index_in_range gva)).
  cbn [and_then]. fold (pml4_pte H g gva).
  destruct (negb (pml4_present H (pml4_pte H g gva))); [reflexivity|].
  rewrite (get_entry_table _ _ (pdpt_index_in_range gva)).
  cbn [and_then]. fold (pdpt_pte H g gva).
  destruct (negb (pdpt_present H (pdpt_pte H g gva))); [reflexivity|].
  destruct (pdpt_ps H (pdpt_pte H g gva)); [reflexivity|].
  rewrite (get_entry_table _ _ (pd_index_in_range gva)).
  cbn [and_then]. fold (pd_pte H g gva).
  destruct (negb (pd_present H (pd_pte H g gva))); [reflexivity|].
  destruct (pd_ps H (pd_pte H g gva)); [reflexivity|].
  rewrite (get_entry_table _ _ (pt_index_in_range gva)).
  cbn [and_then]. fold (pt_pte H g gva).
  reflexivity.
Qed.

End WalkFailures.

(** X21: when the index helpers stay below the number of entries of a
    table and every table can be mapped, a walk of [vcpu::gva_to_gpa] with
    paging on never runs out of the bounds of a table, and the error it
    throws names the first level whose entry is not present: the PML4 error
    exactly when the PML4 entry is not present; the PDPT error exactly when
    the PML4 entry is present and the PDPT entry is not; the PD error
    exactly when those two are present, the PDPT entry maps no 1G page and
    the PD entry is not present; the PT error exactly when those three are
    present, neither of the upper two maps a page and the PT entry is not
    present; it returns in every other case, and throws no other error. *)
Theorem gva_to_gpa_failure_modes (H : Walk.helpers) (g : Walk.guest)
    (gva : Z) :
  (forall v, 0 <= Walk.pml4_index H v < Walk.num_entries H) ->
  (forall v, 0 <= Walk.pdpt_index H v < Walk.num_entries H) ->
  (forall v, 0 <= Walk.pd_index H v < Walk.num_entries H) ->
  (forall v, 0 <= Walk.pt_index H v < Walk.num_entries H) ->
  (forall a, exists tble, Walk.map_gpa_4k g a = Walk.Returns tble) ->
  Walk.paging_is_disabled g = false ->
  (Walk.gva_to_gpa H g gva = Walk.Throws "pml4_pte is not present"
   <-> Walk.pml4_present H (Walk.pml4_pte H g gva) = false)
  /\ (Walk.gva_to_gpa H g gva = Walk.Throws "pdpt_pte is not present"
      <-> Walk.pml4_present H (Walk.pml4_pte H g gva) = true
          /\ Walk.pdpt_present H (Walk.pdpt_pte H g gva) = false)
  /\ (Walk.gva_to_gpa H g gva = Walk.Throws "pd_pte is not present"
      <-> Walk.pml4_present H (Walk.pml4_pte H g gva) = true
          /\ Walk.pdpt_present H (Walk.pdpt_pte H g gva) = true
          /\ Walk.pdpt_ps H (Walk.pdpt_pte H g gva) = false
          /\ Walk.pd_present H (Walk.pd_pte H g gva) = false)
  /\ (Walk.gva_to_gpa H g gva = Walk.Throws "pt_pte is not present"
      <-> Walk.pml4_present H (Walk.pml4_pte H g gva) = true
          /\ Walk.pdpt_present H (Walk.pdpt_pte H g gva) = true
          /\ Walk.pdpt_ps H (Walk.pdpt_pte H g gva) = false
          /\ Walk.pd_present H (Walk.pd_pte H g gva) = true
          /\ Walk.pd_ps H (Walk.pd_pte H g gva) = false
          /\ Walk.pt_present H (Walk.pt_pte H g gva) = false)
  /\ ((exists ret, Walk.gva_to_gpa H g gva = Walk.Returns ret)
      <-> Walk.pml4_present H (Walk.pml4_pte H g gva) = true
          /\ Walk.pdpt_present H (Walk.pdpt_pte H g gva) = true
          /\ (Walk.pdpt_ps H (Walk.pdpt_pte H g gva) = true
              \/ Walk.pd_present H (Walk.pd_pte H g gva) = true
                 /\ (Walk.pd_ps H (Walk.pd_pte H g gva) = true
                     \/ Walk.pt_present H (Walk.pt_pte H g gva) = true)))
  /\ Walk.gva_to_gpa H g gva <> Walk.Terminates
  /\ (forall what,
        Walk.gva_to_gpa H g gva = Walk.Throws what ->
        In what ["pml4_pte is not present"; "pdpt_pte is not present";
                 "pd_pte is not present"; "pt_pte is not present"]).
Proof.
  intros H4 H3 H2 H1 Hmap Hon.
  rewrite (gva_to_gpa_walk H g H4 H3 H2 H1 Hmap gva Hon).
  destruct (Walk.pml4_present H (Walk.pml4_pte H g gva));
    destruct (Walk.pdpt_present H (Walk.pdpt_pte H g gva));
    destruct (Walk.pdpt_ps H (Walk.pdpt_pte H g gva));
    destruct (Walk.pd_present H (Walk.pd_pte H g gva));
    destruct (Walk.pd_ps H (Walk.pd_pte H g gva));
    destruct (Walk.pt_present H (Walk.pt_pte H g gva));
    cbn [negb];
    repeat match goal with
           | |- _ /\ _ => split
           | |- _ <-> _ => split
           | |- _ <> _ => discriminate
           | |- forall _, _ => intro
           end;
    repeat match goal with
           | E : exists _, _ |- _ => destruct E
           | E : _ /\ _ |- _ => destruct E
           | E : _ \/ _ |- _ => destruct E
           | E : Walk.Throws _ = Walk.Throws _ |- _ =>
             first [discriminate E | injection E as <-]
           end;
    try discriminate; try reflexivity; try (eexists; reflexivity);
    try (cbn [In]; tauto); auto 8.
Qed.

Lemma x64_index_in_range (v s : Z) :
  0 <= Z.land (Z.shiftr v s) 0x1FF < 512.
Proof.
  change 0x1FF with (Z.ones 9). change 512 with (2 ^ 9).
  apply land_mask_bounds. lia.
Qed.

Lemma gva_to_gpa_failure_modes_witness :
  Walk.gva_to_gpa Walk.x64 Walk.small_guest 0x203000
  = Walk.Throws "pt_pte is not present"
  /\ Walk.pd_present Walk.x64 (Walk.pd_pte Walk.x64 Walk.small_guest 0x203000)
     = true
  /\ Walk.pt_present Walk.x64 (Walk.pt_pte Walk.x64 Walk.small_guest 0x203000)
     = false.
Proof.
  assert (Hx : Walk.pml4_present Walk.x64
                 (Walk.pml4_pte Walk.x64 Walk.small_guest 0x203000) = true
               /\ Walk.pdpt_present Walk.x64
                    (Walk.pdpt_pte Walk.x64 Walk.small_guest 0x203000) = true
               /\ Walk.pdpt_ps Walk.x64
                    (Walk.pdpt_pte Walk.x64 Walk.small_guest 0x203000) = false
               /\ Walk.pd_present Walk.x64
                    (Walk.pd_pte Walk.x64 Walk.small_guest 0x203000) = true
               /\ Walk.pd_ps Walk.x64
                    (Walk.pd_pte Walk.x64 Walk.small_guest 0x203000) = false
               /\ Walk.pt_present Walk.x64
                    (Walk.pt_pte Walk.x64 Walk.small_guest 0x203000) = false)
    by (vm_compute; repeat split; reflexivity).
  split; [|split; apply Hx].
  apply (gva_to_gpa_failure_modes Walk.x64 Walk.small_guest 0x203000).
  - intros v. apply x64_index_in_range.
  - intros v. apply x64_index_in_range.
  - intros v. apply x64_index_in_range.
  - intros v. apply x64_index_in_range.
  - intros a. eexists. reflexivity.
  - reflexivity.
  - exact Hx.
Defined.
